(** * Outlook sign-up automation: the resilience layer

    A shallow embedding of the retry, fallback and orchestration code of
    [src/comp.py] (class FixedProductionOutlookCreator), [src/new.py]
    (class OutlookCreatorV3) and [src/main.py] (class
    CorrectedAppiumOutlookCreator).

    The Python methods talk to an Appium driver and to [adb]; both are
    collaborators outside the repository.  They are represented by an
    arbitrary deterministic state machine (class [Backend]): every call
    the script makes is answered by the backend with a value or with an
    exception, and the call together with its answer is appended to a
    trace.  A method becomes a function from the script's state to a
    result (value or exception), a new state and the trace it produced.
    [time.sleep] changes nothing that is observed here and is left out;
    [print] is left out except in the runner, whose console lines are
    its outcome log. *)

From Stdlib Require Import List String Ascii ZArith Lia Bool Arith.
Import ListNotations.
Local Open Scope Z_scope.

(** ** Exceptions and results *)

(** The exception classes the code distinguishes.  The first two are
    subclasses of selenium's WebDriverException; [OtherException] is any
    other subclass of Exception (FileNotFoundError from a missing adb,
    subprocess.TimeoutExpired, TypeError, ...).  KeyboardInterrupt and
    SystemExit, which are not subclasses of Exception, are not
    represented. *)
Inductive exn : Type :=
| StaleElementReferenceException
| TimeoutException
| WebDriverException
| OtherException.

(** [isinstance(e, WebDriverException)] *)
Definition is_webdriver_exception (e : exn) : bool :=
  match e with
  | OtherException => false
  | _ => true
  end.

Inductive res (A : Type) : Type :=
| Ret (a : A)
| Exc (e : exn).
Arguments Ret {A} a.
Arguments Exc {A} e.

Definition returned {A} (r : res A) : bool :=
  match r with Ret _ => true | Exc _ => false end.

(** ** Calls to the driver and to adb *)

Definition handle := nat.

(** AppiumBy.* *)
Inductive locator_kind : Type := XPATH | CLASS_NAME | ANDROID_UIAUTOMATOR.

(** One entry of a W3C pointer action sequence; durations in ms. *)
Inductive pointer_action : Type :=
| PointerMove (duration x y : Z)
| PointerDown
| Pause (ms : Z)
| PointerUp.

(** [finger.create_pause(seconds)]: selenium stores the pause in ms. *)
Definition create_pause (seconds : Z) : pointer_action := Pause (seconds * 1000).
Definition create_pointer_move (duration x y : Z) : pointer_action := PointerMove duration x y.
Definition create_pointer_down : pointer_action := PointerDown.
Definition create_pointer_up : pointer_action := PointerUp.

(** Calls that answer nothing (or whose answer the script drops). *)
Inductive command : Type :=
| Click (el : handle)                              (* element.click() *)
| Clear (el : handle)                              (* element.clear() *)
| SendKeys (el : handle) (text : string)           (* element.send_keys(text) *)
| PressKeycode (code : Z)                          (* driver.press_keycode(code) *)
| HideKeyboard                                     (* driver.hide_keyboard() *)
| Swipe (x1 y1 x2 y2 duration : Z)                 (* driver.swipe(...) *)
| Tap (x y : Z)                                    (* driver.tap([(x, y)]) *)
| LongClickGesture (elementId : handle) (duration : Z)
                                                   (* execute_script("mobile: longClickGesture", ...) *)
| Perform (pointer : string) (actions : list pointer_action)
                                                   (* ActionBuilder ... .perform() *)
| UpdateSettings                                   (* driver.update_settings(...) *)
| DriverQuit.                                          (* driver.quit() *)

(** [subprocess.run(["adb", "shell", "input", ...])]; the answer is the
    process's exit status, which [check=False] leaves unexamined. *)
Inductive adb_command : Type :=
| InputText (text : string)                        (* input text <text> *)
| TouchscreenSwipe (x1 y1 x2 y2 duration : Z).     (* input touchscreen swipe ... *)

Inductive event : Type :=
| EvFindElements (by_ : locator_kind) (value : string) (timeout : Z) (r : res (list handle))
| EvPresence (by_ : locator_kind) (value : string) (timeout : Z) (r : res handle)
| EvIsDisplayed (el : handle) (r : res bool)
| EvGetText (el : handle) (r : res (option string))
| EvLocation (el : handle) (r : res (Z * Z))
| EvSize (el : handle) (r : res (Z * Z))
| EvRemote (r : res unit)
| EvWindowSize (r : res (Z * Z))
| EvAdb (c : adb_command) (r : res Z)
| EvCmd (c : command) (r : res unit).

(** The collaborators.  [W] is whatever state the device, the app and
    the Appium server have; nothing is assumed about it.
    - [find_elements]: WebDriverWait(driver, timeout).until(lambda d:
      d.find_elements(by, value));
    - [presence]: WebDriverWait(driver, timeout).until(
      EC.presence_of_element_located((by, value)));
    - [get_text]: element.get_attribute("text"), None when absent;
    - [location], [size]: element.location as (x, y), element.size as
      (width, height);
    - [remote]: webdriver.Remote(url, options);
    - [window_size]: driver.get_window_size() as (width, height);
    - [int_mul_0_6 n]: Python's [int(n * 0.6)], a computation on doubles
      that is kept abstract. *)
Class Backend (W : Type) : Type := {
  find_elements : locator_kind -> string -> Z -> W -> res (list handle) * W;
  presence : locator_kind -> string -> Z -> W -> res handle * W;
  is_displayed : handle -> W -> res bool * W;
  get_text : handle -> W -> res (option string) * W;
  location : handle -> W -> res (Z * Z) * W;
  size : handle -> W -> res (Z * Z) * W;
  remote : W -> res unit * W;
  window_size : W -> res (Z * Z) * W;
  adb : adb_command -> W -> res Z * W;
  command_ : command -> W -> res unit * W;
  int_mul_0_6 : Z -> Z
}.

(** ** The script's state and its monad *)

(** The fields of [self] that the modelled methods read or assign:
    [self.driver] (None or a session) and the stored window size
    ([self.screen_size] in comp.py, [self.size] in new.py). *)
Record state (W : Type) : Type := mkState {
  world : W;
  driver : bool;
  screen_size : option (Z * Z)
}.
Arguments mkState {W}.
Arguments world {W}.
Arguments driver {W}.
Arguments screen_size {W}.

Definition with_world {W} (s : state W) (w : W) : state W :=
  mkState w (driver s) (screen_size s).

(** A method: from a state to its result, the state it leaves, and the
    trace (oldest entry first) of what it did.  [T] is the kind of trace
    entry. *)
Definition M (W T A : Type) : Type := state W -> res A * state W * list T.

Definition result_of {A S T} (x : res A * S * list T) : res A := fst (fst x).
Definition state_of {A S T} (x : res A * S * list T) : S := snd (fst x).
Definition trace_of {A S T} (x : res A * S * list T) : list T := snd x.

Definition ret {W T A} (a : A) : M W T A := fun s => (Ret a, s, []).

Definition raise {W T A} (e : exn) : M W T A := fun s => (Exc e, s, []).

Definition bind {W T A B} (m : M W T A) (k : A -> M W T B) : M W T B :=
  fun s =>
    match m s with
    | (Ret a, s1, t1) =>
        match k a s1 with
        | (r, s2, t2) => (r, s2, t1 ++ t2)
        end
    | (Exc e, s1, t1) => (Exc e, s1, t1)
    end.

(** [try: m  except Exception as e: handler e]; what the handler raises
    propagates. *)
Definition try_catch {W T A} (m : M W T A) (handler : exn -> M W T A) : M W T A :=
  fun s =>
    match m s with
    | (Ret a, s1, t1) => (Ret a, s1, t1)
    | (Exc e, s1, t1) =>
        match handler e s1 with
        | (r, s2, t2) => (r, s2, t1 ++ t2)
        end
    end.

(** [try: m  finally: cleanup]; when [cleanup] raises, its exception
    replaces the outcome of [m]. *)
Definition finally {W T A} (m : M W T A) (cleanup : M W T unit) : M W T A :=
  fun s =>
    match m s with
    | (r, s1, t1) =>
        match cleanup s1 with
        | (Ret _, s2, t2) => (r, s2, t1 ++ t2)
        | (Exc e, s2, t2) => (Exc e, s2, t1 ++ t2)
        end
    end.

(** Re-tag the trace of a method that runs inside another layer. *)
Definition relabel {W T T' A} (f : T -> T') (m : M W T A) : M W T' A :=
  fun s =>
    match m s with
    | (r, s1, t1) => (r, s1, map f t1)
    end.

Declare Scope script_scope.
Delimit Scope script_scope with script.
Notation "x <- m ;; k" := (bind m (fun x => k))
  (at level 61, m at next level, right associativity) : script_scope.
Notation "' pat <- m ;; k" := (bind m (fun x => match x with pat => k end))
  (at level 61, pat pattern, m at next level, right associativity) : script_scope.
Notation "m ;; k" := (bind m (fun _ => k))
  (at level 61, right associativity) : script_scope.
Local Open Scope script_scope.

(** A [for x in xs:] loop whose body may [return]: the body answers
    [Some a] for [return a] and [None] to go on with the next item. *)
Fixpoint for_each {W T X A} (xs : list X) (body : X -> M W T (option A)) : M W T (option A) :=
  match xs with
  | [] => ret None
  | x :: rest =>
      r <- body x ;;
      match r with
      | Some a => ret (Some a)
      | None => for_each rest body
      end
  end.

(** [for _ in range(n): m] *)
Fixpoint repeat_ {W T} (n : nat) (m : M W T unit) : M W T unit :=
  match n with
  | O => ret tt
  | S n' => m ;; repeat_ n' m
  end.

(** [range(n)] *)
Definition range (n : nat) : list nat := seq 0 n.

(** ** Python string operations *)

(** [c.lower()] on an ASCII letter. *)
Definition lower_ascii (c : ascii) : ascii :=
  let n := nat_of_ascii c in
  if (Nat.leb 65 n && Nat.leb n 90)%bool then ascii_of_nat (n + 32) else c.

(** [s.lower()], for ASCII text. *)
Fixpoint lower (s : string) : string :=
  match s with
  | EmptyString => EmptyString
  | String c rest => String (lower_ascii c) (lower rest)
  end.

(** [sub in s] *)
Fixpoint contains (sub s : string) : bool :=
  (String.prefix sub s ||
   match s with
   | EmptyString => false
   | String _ rest => contains sub rest
   end)%bool.

(** [x in names] for a list of strings *)
Definition in_names (x : string) (names : list string) : bool :=
  existsb (String.eqb x) names.

(** ** Primitive calls *)

Section Primitives.
Context {W : Type} {B : Backend W}.

(** Issue one call: ask the backend, keep its new state, log the call
    with its answer, and return or raise accordingly. *)
Definition call {A} (f : W -> res A * W) (ev : res A -> event) : M W event A :=
  fun s =>
    match f (world s) with
    | (r, w') => (r, with_world s w', [ev r])
    end.

Definition wait_find_elements (by_ : locator_kind) (value : string) (timeout : Z)
  : M W event (list handle) :=
  call (find_elements by_ value timeout) (EvFindElements by_ value timeout).

Definition wait_presence (by_ : locator_kind) (value : string) (timeout : Z)
  : M W event handle :=
  call (presence by_ value timeout) (EvPresence by_ value timeout).

Definition elem_is_displayed (el : handle) : M W event bool :=
  call (is_displayed el) (EvIsDisplayed el).

Definition elem_get_text (el : handle) : M W event (option string) :=
  call (get_text el) (EvGetText el).

Definition elem_location (el : handle) : M W event (Z * Z) :=
  call (location el) (EvLocation el).

Definition elem_size (el : handle) : M W event (Z * Z) :=
  call (size el) (EvSize el).

Definition webdriver_Remote : M W event unit := call remote EvRemote.

Definition get_window_size : M W event (Z * Z) := call window_size EvWindowSize.

Definition subprocess_run (c : adb_command) : M W event Z := call (adb c) (EvAdb c).

Definition cmd (c : command) : M W event unit := call (command_ c) (EvCmd c).

(** [self.driver = d] and [self.screen_size = sz] *)
Definition set_driver {T} : M W T unit :=
  fun s => (Ret tt, mkState (world s) true (screen_size s), []).

Definition set_screen_size {T} (sz : Z * Z) : M W T unit :=
  fun s => (Ret tt, mkState (world s) (driver s) (Some sz), []).

Definition get_driver {T} : M W T bool := fun s => (Ret (driver s), s, []).

(** [self.screen_size['width'], self.screen_size['height']]; subscripting
    None raises TypeError. *)
Definition get_screen_size {T} : M W T (Z * Z) :=
  fun s =>
    match screen_size s with
    | Some sz => (Ret sz, s, [])
    | None => (Exc OtherException, s, [])
    end.

End Primitives.

(** ** src/comp.py: FixedProductionOutlookCreator *)

Module Comp.
Section Comp.
Context {W : Type} {B : Backend W}.

(** setup_driver (lines 41-67): everything is inside one
    try/except Exception. *)
Definition setup_driver : M W event bool :=
  try_catch
    (webdriver_Remote ;;
     set_driver ;;
     cmd UpdateSettings ;;
     sz <- get_window_size ;;
     set_screen_size sz ;;
     ret true)
    (fun _ => ret false).

(** Lines 79-87: the loop that fills [visible_elements]. *)
Fixpoint collect_displayed (elements visible_elements : list handle)
  : M W event (list handle) :=
  match elements with
  | [] => ret visible_elements
  | elem :: rest =>
      keep <- try_catch (elem_is_displayed elem)
                (fun e =>
                   match e with
                   | StaleElementReferenceException => ret false   (* continue *)
                   | _ => ret true                                 (* append *)
                   end) ;;
      collect_displayed rest
        (if keep then visible_elements ++ [elem] else visible_elements)%list
  end.

(** One pass of the loop of find_elements_bulletproof (lines 72-99);
    both handlers only sleep. *)
Definition find_elements_attempt (by_ : locator_kind) (value : string) (timeout : Z)
  : M W event (option (list handle)) :=
  try_catch
    (elements <- wait_find_elements by_ value timeout ;;
     match elements with
     | [] => ret None
     | _ :: _ =>
         visible_elements <- collect_displayed elements [] ;;
         match visible_elements with
         | [] => ret None
         | _ :: _ => ret (Some visible_elements)
         end
     end)
    (fun _ => ret None).

(** find_elements_bulletproof (lines 69-101) *)
Definition find_elements_bulletproof (by_ : locator_kind) (value : string)
    (timeout : Z) (retry_attempts : nat) : M W event (list handle) :=
  r <- for_each (range retry_attempts)
         (fun _ => find_elements_attempt by_ value timeout) ;;
  match r with
  | Some visible_elements => ret visible_elements
  | None => ret []
  end.

(** find_element_bulletproof (lines 103-106) *)
Definition find_element_bulletproof (by_ : locator_kind) (value : string)
    (timeout : Z) (retry_attempts : nat) : M W event (option handle) :=
  elements <- find_elements_bulletproof by_ value timeout retry_attempts ;;
  ret (hd_error elements).

(** One pass of the loop of click_element_bulletproof (lines 111-128). *)
Definition click_attempt (by_ : locator_kind) (value : string) : M W event (option bool) :=
  try_catch
    (element <- find_element_bulletproof by_ value 8 3 ;;
     match element with
     | None => ret (Some false)
     | Some el => cmd (Click el) ;; ret (Some true)
     end)
    (fun _ => ret None).

(** click_element_bulletproof (lines 108-130) *)
Definition click_element_bulletproof (by_ : locator_kind) (value : string)
    (description : string) : M W event bool :=
  r <- for_each (range 3) (fun _ => click_attempt by_ value) ;;
  match r with
  | Some b => ret b
  | None => ret false
  end.

(** Line 146: ["year" in description.lower() or "Year" in description] *)
Definition year_like (description : string) : bool :=
  (contains "year" (lower description) || contains "Year" description)%bool.

(** [element.get_attribute("text") or ""] *)
Definition text_or_empty (t : option string) : string :=
  match t with
  | Some s => s
  | None => EmptyString
  end.

(** Lines 146-164: clearing. *)
Definition clear_field (element : handle) (description : string) : M W event unit :=
  if year_like description then
    repeat_ 15 (cmd (PressKeycode 67))
  else
    try_catch (cmd (Clear element))
      (fun _ =>
         current_text <- elem_get_text element ;;
         repeat_ (String.length (text_or_empty current_text) + 5) (cmd (PressKeycode 67))).

(** Lines 167-178: typing, with the adb fallback. *)
Definition input_text (element : handle) (text : string) : M W event bool :=
  try_catch
    (cmd (SendKeys element text) ;; ret true)
    (fun _ => subprocess_run (InputText text) ;; ret true).

(** One pass of the loop of type_text_bulletproof (lines 135-188). *)
Definition type_attempt (by_ : locator_kind) (value text description : string)
  : M W event (option bool) :=
  try_catch
    (element <- find_element_bulletproof by_ value 8 3 ;;
     match element with
     | None => ret (Some false)
     | Some el =>
         cmd (Click el) ;;
         clear_field el description ;;
         b <- input_text el text ;;
         ret (Some b)
     end)
    (fun _ => ret None).

(** type_text_bulletproof (lines 132-190) *)
Definition type_text_bulletproof (by_ : locator_kind) (value text description : string)
  : M W event bool :=
  r <- for_each (range 3) (fun _ => type_attempt by_ value text description) ;;
  match r with
  | Some b => ret b
  | None => ret false
  end.


(** The double quote that the UiSelector expressions contain. *)
Definition dq : string := String "034"%char EmptyString.

(** Lines 455-458 *)
Definition captcha_selectors : list (locator_kind * string) :=
  [(ANDROID_UIAUTOMATOR,
    "new UiSelector().className(" ++ dq ++ "android.widget.Button" ++ dq
      ++ ").textContains(" ++ dq ++ "Press" ++ dq
      ++ ").clickable(true).enabled(true)");
   (XPATH, "//android.widget.Button[contains(@text,'Press')]")]%string.

(** Lines 497-506: the coordinate fallback. *)
Definition captcha_coordinate_fallback : M W event bool :=
  '(width, height) <- get_screen_size ;;
  let x := width / 2 in
  let y := int_mul_0_6 height in
  subprocess_run (TouchscreenSwipe x y x y 15000) ;;
  ret true.

(** step6_captcha (lines 449-506) *)
Definition step6_captcha : M W event bool :=
  button <- for_each captcha_selectors
              (fun '(by_, selector) => find_element_bulletproof by_ selector 8 3) ;;
  match button with
  | Some b =>
      r <- try_catch
             ('(lx, ly) <- elem_location b ;;
              '(sw, sh) <- elem_size b ;;
              let x := lx + sw / 2 in
              let y := ly + sh / 2 in
              native <- try_catch (cmd (LongClickGesture b 15000) ;; ret (Some true))
                          (fun _ => ret None) ;;
              match native with
              | Some v => ret (Some v)
              | None =>
                  subprocess_run (TouchscreenSwipe x y x y 15000) ;;
                  ret (Some true)
              end)
             (fun _ => ret None) ;;
      match r with
      | Some v => ret v
      | None => captcha_coordinate_fallback
      end
  | None => captcha_coordinate_fallback
  end.

End Comp.
End Comp.

(** ** The runners' console log *)

(** The lines the runners print, one constructor per [print] call. *)
Inductive log_line : Type :=
| LogStep (step_name : string)                (* "<name>..." *)
| LogSuccess (step_name : string)             (* "<name> SUCCESS" / "<name> done" *)
| LogFailed (step_name : string)              (* "<name> FAILED" / "<name> failed" *)
| LogContinuing                               (* "Continuing..." *)
| LogError (step_name : string) (e : exn)     (* "<name> ERROR: <e>" *)
| LogAutomationSuccess                        (* "FIXED AUTOMATION SUCCESS!" / "Flow completed" *)
| LogAutomationFailed (e : exn).              (* "Automation failed: <e>" *)

(** What a run leaves behind: the runner's console lines, the calls made
    by the step it was running, and the runner's own session calls. *)
Inductive run_event : Type :=
| Console (l : log_line)
| InStep (step_name : string) (ev : event)
| Session (ev : event).

Definition console {W} (l : log_line) : M W run_event unit :=
  fun s => (Ret tt, s, [Console l]).

(** A step as the runners hold it: [(name, lambda: self.stepN(...))]. *)
Definition step (W : Type) : Type := (string * M W event bool)%type.

Module CompRunner.
Section CompRunner.
Context {W : Type} {B : Backend W}.

(** Lines 728 and 734: [step_name in ["Welcome", "Email", "Password"]] *)
Definition critical (step_name : string) : bool :=
  in_names step_name ["Welcome"; "Email"; "Password"]%string.

(** The body of the loop of run_fixed_automation (lines 721-737):
    [Some false] is [return False], [None] goes on to the next step. *)
Definition run_step (st : step W) : M W run_event (option bool) :=
  let '(step_name, step_function) := st in
  console (LogStep step_name) ;;
  try_catch
    (result <- relabel (InStep step_name) step_function ;;
     if (result : bool) then
       console (LogSuccess step_name) ;; ret None
     else
       console (LogFailed step_name) ;;
       if critical step_name then ret (Some false)
       else console LogContinuing ;; ret None)
    (fun e =>
       console (LogError step_name e) ;;
       if negb (critical step_name) then ret None
       else ret (Some false)).

(** Lines 720-740: the loop and what follows it. *)
Definition run_steps (steps : list (step W)) : M W run_event bool :=
  r <- for_each steps run_step ;;
  match r with
  | Some b => ret b
  | None => console LogAutomationSuccess ;; ret true
  end.

(** The [try] statement of run_fixed_automation (lines 699-751); the
    list built at lines 705-718 is the argument [steps].  The header
    that the method prints before it is [print_header] below. *)
Definition run_fixed_automation (steps : list (step W)) : M W run_event bool :=
  finally
    (try_catch
       (ok <- relabel Session Comp.setup_driver ;;
        if negb ok then ret false
        else run_steps steps)
       (fun e => console (LogAutomationFailed e) ;; ret false))
    (d <- get_driver ;;
     if (d : bool) then try_catch (relabel Session (cmd DriverQuit)) (fun _ => ret tt)
     else ret tt).

(** [user_data[key]] on a dict given by its items: a missing key raises
    KeyError. *)
Definition subscript {T V} (user_data : list (string * V)) (key : string) : M W T V :=
  match find (fun item => String.eqb (fst item) key) user_data with
  | Some item => ret (snd item)
  | None => raise OtherException
  end.

(** Lines 693-697: the header.  Its f-strings subscript [user_data]
    with 'username' and 'password' before the [try] statement is
    entered. *)
Definition print_header {V} (user_data : list (string * V)) : M W run_event unit :=
  subscript user_data "username" ;;
  subscript user_data "password" ;;
  ret tt.

(** run_fixed_automation as a whole (lines 691-751): the header, then
    the [try] statement. *)
Definition run_fixed_automation_from_entry {V} (user_data : list (string * V))
    (steps : list (step W)) : M W run_event bool :=
  print_header user_data ;;
  run_fixed_automation steps.

End CompRunner.
End CompRunner.

(** ** src/new.py: OutlookCreatorV3 *)

Module New.
Section New.
Context {W : Type} {B : Backend W}.

(** setup (lines 34-58): only WebDriverException is caught. *)
Definition setup : M W event bool :=
  try_catch
    (webdriver_Remote ;;
     set_driver ;;
     cmd UpdateSettings ;;
     sz <- get_window_size ;;
     set_screen_size sz ;;
     ret true)
    (fun e => if is_webdriver_exception e then ret false else raise e).

(** _safe (lines 60-64) *)
Definition _safe (by_ : locator_kind) (value : string) (timeout : Z)
  : M W event (option handle) :=
  try_catch
    (el <- wait_presence by_ value timeout ;; ret (Some el))
    (fun e =>
       match e with
       | TimeoutException => ret None
       | _ => raise e
       end).

(** _center_of (lines 153-155) *)
Definition _center_of (el : handle) : M W event (Z * Z) :=
  '(lx, ly) <- elem_location el ;;
  '(sw, sh) <- elem_size el ;;
  ret (lx + sw / 2, ly + sh / 2).

(** _scroll_into_view (lines 157-170) *)
Definition _scroll_into_view (el : handle) : M W event unit :=
  try_catch
    ('(cx, cy) <- _center_of el ;;
     '(width, height) <- get_screen_size ;;
     let mid_y := height / 2 in
     let delta := cy - mid_y in
     if 80 <? Z.abs delta then
       let start_y := Z.min (Z.max (mid_y + int_mul_0_6 delta) 200) (height - 200) in
       let end_y := mid_y in
       cmd (Swipe (width / 2) start_y (width / 2) end_y 500)
     else ret tt)
    (fun _ => ret tt).

(** [actions.add_action(...)], lines 195-199 and 221-227.  selenium's
    ActionBuilder has no attribute [add_action] (it is a method of the
    input device, here [finger]): looking it up raises AttributeError,
    before the argument is evaluated and before anything is sent to
    the driver. *)
Definition ActionBuilder_add_action {T} (action : pointer_action) : M W T unit :=
  raise OtherException.

(** Lines 195-199: the pointer sequence that tier 2 is written to
    send. *)
Definition tick_hold_actions (cx cy : Z) : list pointer_action :=
  ([create_pointer_move 0 cx cy; create_pointer_down]
   ++ map (fun _ => create_pause 1) (range 15)
   ++ [create_pointer_up])%list.

(** Lines 221-227: the pointer sequence that tier 4 is written to
    send. *)
Definition micro_drag_actions (cx cy : Z) : list pointer_action :=
  ([create_pointer_move 0 cx cy; create_pointer_down]
   ++ flat_map (fun _ => [create_pointer_move 500 (cx + 2) cy;
                          create_pointer_move 500 cx cy]) (range 15)
   ++ [create_pointer_up])%list.

(** Lines 185-186: what tier 1, the native long click, tries. *)
Definition native_long_click_body (el : handle) : M W event unit :=
  cmd (LongClickGesture el 15000).

(** Lines 193-200: what tier 2, the hold made of one-second ticks,
    tries. *)
Definition tick_hold_body (cx cy : Z) : M W event unit :=
  ActionBuilder_add_action (create_pointer_move 0 cx cy) ;;
  ActionBuilder_add_action create_pointer_down ;;
  repeat_ 15 (ActionBuilder_add_action (create_pause 1)) ;;
  ActionBuilder_add_action create_pointer_up ;;
  cmd (Perform "finger" (tick_hold_actions cx cy)).

(** Lines 208-212: what tier 3, the adb swipe in place, tries. *)
Definition adb_swipe_in_place_body (cx cy : Z) : M W event unit :=
  subprocess_run (TouchscreenSwipe cx cy cx cy 15000) ;; ret tt.

(** Lines 219-228: what tier 4, the micro-drag, tries. *)
Definition micro_drag_body (cx cy : Z) : M W event unit :=
  ActionBuilder_add_action (create_pointer_move 0 cx cy) ;;
  ActionBuilder_add_action create_pointer_down ;;
  repeat_ 15 (ActionBuilder_add_action (create_pointer_move 500 (cx + 2) cy) ;;
              ActionBuilder_add_action (create_pointer_move 500 cx cy)) ;;
  ActionBuilder_add_action create_pointer_up ;;
  cmd (Perform "finger2" (micro_drag_actions cx cy)).

(** The four [try] bodies, in the order of the source. *)
Definition tiers (el : handle) (cx cy : Z) : list (M W event unit) :=
  [native_long_click_body el; tick_hold_body cx cy;
   adb_swipe_in_place_body cx cy; micro_drag_body cx cy].

(** Lines 183-189: tier 1. *)
Definition native_long_click (el : handle) : M W event (option bool) :=
  try_catch
    (native_long_click_body el ;; ret (Some true))
    (fun _ => ret None).

(** Lines 192-204: tier 2. *)
Definition tick_hold (cx cy : Z) : M W event (option bool) :=
  try_catch
    (tick_hold_body cx cy ;; ret (Some true))
    (fun _ => ret None).

(** Lines 207-215: tier 3. *)
Definition adb_swipe_in_place (cx cy : Z) : M W event (option bool) :=
  try_catch
    (adb_swipe_in_place_body cx cy ;; ret (Some true))
    (fun _ => ret None).

(** Lines 218-232: tier 4. *)
Definition micro_drag (cx cy : Z) : M W event (option bool) :=
  try_catch
    (micro_drag_body cx cy ;; ret (Some true))
    (fun _ => ret None).

(** long_press_15s_strong (lines 172-235); in each tier [Some true] is
    its [return True] and [None] its [except Exception: pass]. *)
Definition long_press_15s_strong (el : handle) : M W event bool :=
  try_catch (cmd HideKeyboard) (fun _ => ret tt) ;;
  _scroll_into_view el ;;
  '(cx, cy) <- _center_of el ;;
  t1 <- native_long_click el ;;
  match t1 with
  | Some b => ret b
  | None =>
      t2 <- tick_hold cx cy ;;
      match t2 with
      | Some b => ret b
      | None =>
          t3 <- adb_swipe_in_place cx cy ;;
          match t3 with
          | Some b => ret b
          | None =>
              t4 <- micro_drag cx cy ;;
              match t4 with
              | Some b => ret b
              | None => ret false
              end
          end
      end
  end.

(** step6_captcha (lines 333-343) *)
Definition step6_captcha : M W event bool :=
  first <- _safe XPATH "//*[contains(@text,'Press and hold')]" 10 ;;
  cap <- match first with
         | Some c => ret (Some c)
         | None => _safe XPATH "//*[contains(@text,'prove you') or contains(@text,'human')]" 6
         end ;;
  match cap with
  | None =>
      '(width, height) <- get_screen_size ;;
      let cx := width / 2 in
      let cy := int_mul_0_6 height in
      subprocess_run (TouchscreenSwipe cx cy cx cy 15000) ;;
      ret true
  | Some c => long_press_15s_strong c
  end.

(** The body of the loop of run (lines 358-363). *)
Definition run_step (st : step W) : M W run_event (option bool) :=
  let '(name, fn) := st in
  console (LogStep name) ;;
  ok <- relabel (InStep name) fn ;;
  if (ok : bool) then console (LogSuccess name) ;; ret None
  else console (LogFailed name) ;; ret (Some false).

(** [self.driver.quit()]: an attribute access on None raises. *)
Definition driver_quit : M W run_event unit :=
  d <- get_driver ;;
  if (d : bool) then relabel Session (cmd DriverQuit) else raise OtherException.

(** run (lines 346-368); the list built at lines 349-356 is the
    argument [flow]. *)
Definition run (flow : list (step W)) : M W run_event bool :=
  ok <- relabel Session setup ;;
  if negb ok then ret false
  else
    finally
      (r <- for_each flow run_step ;;
       match r with
       | Some b => ret b
       | None => console LogAutomationSuccess ;; ret true
       end)
      (try_catch driver_quit (fun _ => ret tt)).

End New.
End New.

(** ** src/main.py: CorrectedAppiumOutlookCreator *)

Module Main.
Section Main.
Context {W : Type} {B : Backend W}.

(** find_element_safely (lines 81-90) *)
Definition find_element_safely (by_ : locator_kind) (value : string) (timeout : Z)
  : M W event (option handle) :=
  try_catch
    (element <- wait_presence by_ value timeout ;; ret (Some element))
    (fun e =>
       match e with
       | TimeoutException => ret None
       | _ => raise e
       end).

(** Lines 139-143 *)
Definition selection_methods (target_value : string) : list (locator_kind * string) :=
  [(XPATH, "//*[@text='" ++ target_value ++ "']");
   (XPATH, "//*[contains(@text, '" ++ target_value ++ "')]");
   (XPATH, "//*[contains(@content-desc, '" ++ target_value ++ "')]")]%string.

(** Lines 147-152: look one option up and click it. *)
Definition pick_option (by_ : locator_kind) (selector : string) (timeout : Z)
  : M W event (option bool) :=
  option <- find_element_safely by_ selector timeout ;;
  match option with
  | Some o => cmd (Click o) ;; ret (Some true)
  | None => ret None
  end.

(** select_dropdown_option (lines 131-176) *)
Definition select_dropdown_option (dropdown_element : handle)
    (target_value description : string) : M W event bool :=
  try_catch
    (cmd (Click dropdown_element) ;;
     first <- for_each (selection_methods target_value)
                (fun '(by_, selector) =>
                   try_catch (pick_option by_ selector 3) (fun _ => ret None)) ;;
     match first with
     | Some b => ret b
     | None =>
         second <- try_catch
                     (cmd (Swipe 540 800 540 600 1000) ;;
                      for_each (selection_methods target_value)
                        (fun '(by_, selector) => pick_option by_ selector 2))
                     (fun _ => ret None) ;;
         match second with
         | Some b => ret b
         | None => ret false
         end
     end)
    (fun _ => ret false).

End Main.
End Main.

(** ** Reading traces *)

Definition event_returned (ev : event) : bool :=
  match ev with
  | EvFindElements _ _ _ r => returned r
  | EvPresence _ _ _ r => returned r
  | EvIsDisplayed _ r => returned r
  | EvGetText _ r => returned r
  | EvLocation _ r => returned r
  | EvSize _ r => returned r
  | EvRemote r => returned r
  | EvWindowSize r => returned r
  | EvAdb _ r => returned r
  | EvCmd _ r => returned r
  end.

(** A visibility check of the locator resolver. *)
Definition is_check (ev : event) : Prop :=
  match ev with
  | EvIsDisplayed _ _ => True
  | _ => False
  end.

(** The candidates that a run of visibility checks looked at, and those
    it kept: displayed ones, and ones whose check raised anything but a
    stale-element error. *)
Definition checked (checks : list event) : list handle :=
  flat_map (fun ev => match ev with EvIsDisplayed el _ => [el] | _ => [] end) checks.

Definition kept (checks : list event) : list handle :=
  flat_map (fun ev =>
              match ev with
              | EvIsDisplayed el (Ret true) => [el]
              | EvIsDisplayed el (Ret false) => []
              | EvIsDisplayed el (Exc StaleElementReferenceException) => []
              | EvIsDisplayed el (Exc _) => [el]
              | _ => []
              end) checks.

(** One pass of the resolver: a query, then one visibility check for
    each candidate it returned, in order. *)
Definition query_block (by_ : locator_kind) (value : string) (timeout : Z)
    (block : list event) : Prop :=
  exists r checks,
    block = EvFindElements by_ value timeout r :: checks /\
    Forall is_check checks /\
    checked checks = match r with Ret candidates => candidates | Exc _ => [] end.

(** How one attempt of the tap operation ends. *)
Inductive attempt_end : Type :=
| Clicked          (* the click returned *)
| NotFound         (* the resolver found nothing *)
| ClickRaised.     (* the click raised *)

(** One attempt of the tap operation: it runs the resolver, which makes
    between one and three passes, each beginning with a query of its
    own; then at most one click, on a handle kept from the last of
    these passes. *)
Definition attempt_block (by_ : locator_kind) (value : string)
    (a : attempt_end) (block : list event) : Prop :=
  exists passes,
    Forall (query_block by_ value 8) passes /\
    (1 <= List.length passes <= 3)%nat /\
    match a with
    | Clicked =>
        exists el, block = (List.concat passes ++ [EvCmd (Click el) (Ret tt)])%list /\
                   In el (kept (last passes []))
    | ClickRaised =>
        exists el e, block = (List.concat passes ++ [EvCmd (Click el) (Exc e)])%list /\
                     In el (kept (last passes []))
    | NotFound =>
        block = List.concat passes /\ kept (last passes []) = []
    end.

(** How long a pointer sequence keeps the pointer down: the pauses and
    moves between pointer-down and pointer-up. *)
Fixpoint held_ms (down : bool) (actions : list pointer_action) : Z :=
  match actions with
  | [] => 0
  | PointerDown :: rest => held_ms true rest
  | PointerUp :: rest => held_ms false rest
  | Pause ms :: rest => (if down then ms else 0) + held_ms down rest
  | PointerMove d _ _ :: rest => (if down then d else 0) + held_ms down rest
  end.

(** The hold, in ms, that a press command asks for. *)
Definition commanded_hold_ms (ev : event) : Z :=
  match ev with
  | EvCmd (LongClickGesture _ d) _ => d
  | EvCmd (Perform _ actions) _ => held_ms false actions
  | EvAdb (TouchscreenSwipe _ _ _ _ d) _ => d
  | _ => 0
  end.

(** A command that presses and holds. *)
Definition is_press (ev : event) : bool :=
  match ev with
  | EvCmd (LongClickGesture _ _) _ => true
  | EvCmd (Perform _ _) _ => true
  | EvAdb (TouchscreenSwipe _ _ _ _ _) _ => true
  | _ => false
  end.

(** Which tier of the long press an event belongs to. *)
Definition tier_of (ev : event) : option nat :=
  match ev with
  | EvCmd (LongClickGesture _ _) _ => Some 1%nat
  | EvCmd (Perform pointer _) _ =>
      if String.eqb pointer "finger" then Some 2%nat
      else if String.eqb pointer "finger2" then Some 4%nat
      else None
  | EvAdb (TouchscreenSwipe _ _ _ _ _) _ => Some 3%nat
  | _ => None
  end.

(** The tiers a trace went through, each with whether its call
    completed ([true]) or raised ([false]). *)
Definition tier_outcomes (t : list event) : list (nat * bool) :=
  flat_map (fun ev =>
              match tier_of ev with
              | Some k => [(k, event_returned ev)]
              | None => []
              end) t.

(** The trace ends with a press that returned, asking for 15000 ms. *)
Definition ends_with_returned_press (t : list event) : Prop :=
  exists pre ev,
    t = (pre ++ [ev])%list /\
    is_press ev = true /\ event_returned ev = true /\ commanded_hold_ms ev = 15000.

(** What the text-entry routine of a year-like field may do to the
    field: no native clear, no read of the current text, and no key
    other than DEL (67). *)
Definition backspace_only (ev : event) : Prop :=
  match ev with
  | EvCmd (Clear _) _ => False
  | EvGetText _ _ => False
  | EvCmd (PressKeycode code) _ => code = 67
  | _ => True
  end.

(** The element lookups of the dropdown selector, and its scrolls. *)
Definition lookups_of (t : list event) : list (locator_kind * string * Z) :=
  flat_map (fun ev =>
              match ev with
              | EvPresence by_ value timeout _ => [(by_, value, timeout)]
              | _ => []
              end) t.

Definition scrolls_of (t : list event) : list command :=
  flat_map (fun ev =>
              match ev with
              | EvCmd (Swipe x1 y1 x2 y2 d) _ => [Swipe x1 y1 x2 y2 d]
              | _ => []
              end) t.

(** The lookups of one pass over the three strategies of the dropdown
    selector, each with the given timeout. *)
Definition lookup_pass (timeout : Z) (methods : list (locator_kind * string))
  : list (locator_kind * string * Z) :=
  map (fun m => (fst m, snd m, timeout)) methods.

(** The trace ends with a click that returned. *)
Definition ends_with_returned_click (t : list event) : Prop :=
  exists pre o, t = (pre ++ [EvCmd (Click o) (Ret tt)])%list.

(** A call that raised something the lookup helper does not absorb. *)
Definition raised_hard (ev : event) : Prop :=
  match ev with
  | EvPresence _ _ _ (Exc TimeoutException) => False
  | ev' => event_returned ev' = false
  end.

Definition ends_raised (t : list event) : Prop :=
  exists pre ev, t = (pre ++ [ev])%list /\ raised_hard ev.

(** The trace ends with a raw swipe in place that raised [e]. *)
Definition raised_out_of_adb (t : list event) (e : exn) : Prop :=
  exists pre x y,
    t = (pre ++ [EvAdb (TouchscreenSwipe x y x y 15000) (Exc e)])%list.

(** The runner's log: which steps it announced, and the verdict it
    printed for each ([true] for SUCCESS, [false] for FAILED and for
    ERROR). *)
Definition started (t : list run_event) : list string :=
  flat_map (fun ev => match ev with Console (LogStep n) => [n] | _ => [] end) t.

Definition verdicts (t : list run_event) : list (string * bool) :=
  flat_map (fun ev =>
              match ev with
              | Console (LogSuccess n) => [(n, true)]
              | Console (LogFailed n) => [(n, false)]
              | Console (LogError n _) => [(n, false)]
              | _ => []
              end) t.

(** The runner's own session calls. *)
Definition sessions_opened (t : list run_event) : nat :=
  List.length (filter (fun ev => match ev with Session (EvRemote (Ret _)) => true | _ => false end) t).

Definition quits (t : list run_event) : nat :=
  List.length (filter (fun ev => match ev with Session (EvCmd DriverQuit _) => true | _ => false end) t).

(** Every trace entry of a method satisfies [P]; a method that always
    returns a value. *)
Definition emits {W T A} (P : T -> Prop) (m : M W T A) : Prop :=
  forall s, Forall P (trace_of (m s)).

Definition never_raises {W T A} (m : M W T A) : Prop :=
  forall s, exists a, result_of (m s) = Ret a.

(** Steps that leave [self.driver] as they found it (no step of the
    scripts assigns it). *)
Definition steps_keep_driver {W} (steps : list (step W)) : Prop :=
  Forall (fun st : step W => forall s, driver (state_of (snd st s)) = driver s) steps.

Definition not_session (ev : run_event) : Prop :=
  match ev with
  | Session _ => False
  | _ => True
  end.

(** A step whose exception is turned into a returned False. *)
Definition as_returned_false {W} (st : step W) : step W :=
  (fst st, try_catch (snd st) (fun _ => ret false)).

(** ** The orchestrator of the specification

    Section 4.6 of the specification, to compare the runner with: the
    steps run in order; a step fails when its action returns False or
    raises; a failed critical step aborts the run; a failed optional
    step is recorded and the next step runs; the run succeeds when no
    critical step failed.  The answer is the outcome log, the overall
    success flag and the state the run ends in. *)
Definition step_passed {W} (st : step W) (s : state W) : bool :=
  match result_of (snd st s) with
  | Ret true => true
  | _ => false
  end.

Fixpoint orchestrate {W} (critical : string -> bool) (steps : list (step W))
    (s : state W) : list (string * bool) * bool * state W :=
  match steps with
  | [] => ([], true, s)
  | st :: rest =>
      let s1 := state_of (snd st s) in
      if step_passed st s then
        let '(log, ok, s') := orchestrate critical rest s1 in
        ((fst st, true) :: log, ok, s')
      else if critical (fst st) then
        ([(fst st, false)], false, s1)
      else
        let '(log, ok, s') := orchestrate critical rest s1 in
        ((fst st, false) :: log, ok, s')
  end.

(** ** The tiered fallback of the specification

    Section 4.4 of the specification, to compare the long press with:
    the tiers are attempted in order, each only if the previous one
    raised an error; a tier that completes is trusted and ends the
    press with success; the press fails when every tier raised.  The
    answer is, for each tier attempted, whether it completed, then the
    success flag, the state the press ends in and the calls it made. *)
Fixpoint press_and_hold {W} (tiers : list (M W event unit)) (s : state W)
    : list bool * bool * state W * list event :=
  match tiers with
  | [] => ([], false, s, [])
  | tier :: later =>
      match tier s with
      | (Ret _, s1, t1) => ([true], true, s1, t1)
      | (Exc _, s1, t1) =>
          let '(log, ok, s2, t2) := press_and_hold later s1 in
          (false :: log, ok, s2, (t1 ++ t2)%list)
      end
  end.

(** ** Test doubles for the backend *)

Module Mock.

(** A backend without state whose answers are fixed per call. *)
Record script : Type := mkScript {
  on_find_elements : locator_kind -> string -> Z -> res (list handle);
  on_presence : locator_kind -> string -> Z -> res handle;
  on_is_displayed : handle -> res bool;
  on_get_text : handle -> res (option string);
  on_location : handle -> res (Z * Z);
  on_size : handle -> res (Z * Z);
  on_remote : res unit;
  on_window_size : res (Z * Z);
  on_adb : adb_command -> res Z;
  on_command : command -> res unit
}.

(** [int(n * 0.6)] is answered with the product truncated toward zero. *)
Definition scripted (sc : script) : Backend unit := {|
  find_elements := fun by_ value timeout w => (on_find_elements sc by_ value timeout, w);
  presence := fun by_ value timeout w => (on_presence sc by_ value timeout, w);
  is_displayed := fun el w => (on_is_displayed sc el, w);
  get_text := fun el w => (on_get_text sc el, w);
  location := fun el w => (on_location sc el, w);
  size := fun el w => (on_size sc el, w);
  remote := fun w => (on_remote sc, w);
  window_size := fun w => (on_window_size sc, w);
  adb := fun c w => (on_adb sc c, w);
  command_ := fun c w => (on_command sc c, w);
  int_mul_0_6 := fun n => Z.quot (n * 6) 10
|}.

(** Every call answers; one element, handle 1, 50 x 40 at (100, 200). *)
Definition responsive : script := {|
  on_find_elements := fun _ _ _ => Ret [1%nat];
  on_presence := fun _ _ _ => Ret 1%nat;
  on_is_displayed := fun _ => Ret true;
  on_get_text := fun _ => Ret (Some EmptyString);
  on_location := fun _ => Ret (100, 200);
  on_size := fun _ => Ret (50, 40);
  on_remote := Ret tt;
  on_window_size := Ret (1080, 1920);
  on_adb := fun _ => Ret 0;
  on_command := fun _ => Ret tt
|}.

(** The only candidate, handle 7, goes stale whenever it is checked. *)
Definition stale_candidate : script := {|
  on_find_elements := fun _ _ _ => Ret [7%nat];
  on_presence := on_presence responsive;
  on_is_displayed := fun _ => Exc StaleElementReferenceException;
  on_get_text := on_get_text responsive;
  on_location := on_location responsive;
  on_size := on_size responsive;
  on_remote := on_remote responsive;
  on_window_size := on_window_size responsive;
  on_adb := on_adb responsive;
  on_command := on_command responsive
|}.

(** The element is there, but no gesture is supported and adb is not
    installed. *)
Definition no_gesture_works : script := {|
  on_find_elements := on_find_elements responsive;
  on_presence := on_presence responsive;
  on_is_displayed := on_is_displayed responsive;
  on_get_text := on_get_text responsive;
  on_location := on_location responsive;
  on_size := on_size responsive;
  on_remote := on_remote responsive;
  on_window_size := on_window_size responsive;
  on_adb := fun _ => Exc OtherException;
  on_command := fun _ => Exc WebDriverException
|}.

(** The driver's gestures raise, adb works. *)
Definition only_adb_works : script := {|
  on_find_elements := on_find_elements responsive;
  on_presence := on_presence responsive;
  on_is_displayed := on_is_displayed responsive;
  on_get_text := on_get_text responsive;
  on_location := on_location responsive;
  on_size := on_size responsive;
  on_remote := on_remote responsive;
  on_window_size := on_window_size responsive;
  on_adb := fun _ => Ret 0;
  on_command := fun _ => Exc WebDriverException
|}.

(** The session is created, then update_settings is refused. *)
Definition settings_refused : script := {|
  on_find_elements := on_find_elements responsive;
  on_presence := on_presence responsive;
  on_is_displayed := on_is_displayed responsive;
  on_get_text := on_get_text responsive;
  on_location := on_location responsive;
  on_size := on_size responsive;
  on_remote := Ret tt;
  on_window_size := on_window_size responsive;
  on_adb := on_adb responsive;
  on_command := fun c =>
                  match c with
                  | UpdateSettings => Exc WebDriverException
                  | _ => Ret tt
                  end
|}.

(** No option is ever found. *)
Definition no_option : script := {|
  on_find_elements := on_find_elements responsive;
  on_presence := fun _ _ _ => Exc TimeoutException;
  on_is_displayed := on_is_displayed responsive;
  on_get_text := on_get_text responsive;
  on_location := on_location responsive;
  on_size := on_size responsive;
  on_remote := on_remote responsive;
  on_window_size := on_window_size responsive;
  on_adb := on_adb responsive;
  on_command := on_command responsive
|}.

Definition start : state unit := mkState tt true (Some (1080, 1920)).

(** *** A month picker

    The rows of the list render once the list was scrolled; the state
    says whether it was.  Then the exact-text lookup of "June" finds a
    row (handle 5) that goes stale when it is clicked, and the
    substring lookup finds the row anew (handle 6), which can be
    clicked.  The dropdown itself is handle 1. *)
Definition picker_presence (value : string) (scrolled : bool) : res handle :=
  if negb scrolled then Exc TimeoutException
  else if String.eqb value "//*[@text='June']" then Ret 5%nat
  else if String.eqb value "//*[contains(@text, 'June')]" then Ret 6%nat
  else Exc TimeoutException.

Definition picker_command (c : command) (scrolled : bool) : res unit * bool :=
  match c with
  | Swipe _ _ _ _ _ => (Ret tt, true)
  | Click 5%nat => (Exc StaleElementReferenceException, scrolled)
  | _ => (Ret tt, scrolled)
  end.

Definition picker : Backend bool := {|
  find_elements := fun _ _ _ w => (Ret [1%nat], w);
  presence := fun _ value _ w => (picker_presence value w, w);
  is_displayed := fun _ w => (Ret true, w);
  get_text := fun _ w => (Ret (Some EmptyString), w);
  location := fun _ w => (Ret (100, 200), w);
  size := fun _ w => (Ret (50, 40), w);
  remote := fun w => (Ret tt, w);
  window_size := fun w => (Ret (1080, 1920), w);
  adb := fun _ w => (Ret 0, w);
  command_ := picker_command;
  int_mul_0_6 := fun n => Z.quot (n * 6) 10
|}.

Definition picker_at (scrolled : bool) : state bool :=
  mkState scrolled true (Some (1080, 1920)).

Definition fresh : state unit := mkState tt false None.

(** *** A text field

    One focused text field with the input semantics of UiAutomator2:
    [clear] empties it, [send_keys] and [adb shell input text] append to
    what is there, DEL removes the last character.  [clear_fails] and
    [send_keys_fails] make the corresponding call raise. *)
Record field : Type := mkField {
  content : string;
  clear_fails : bool;
  send_keys_fails : bool
}.

Fixpoint backspace (s : string) : string :=
  match s with
  | EmptyString => EmptyString
  | String c EmptyString => EmptyString
  | String c rest => String c (backspace rest)
  end.

Definition set_content (f : field) (s : string) : field :=
  mkField s (clear_fails f) (send_keys_fails f).

Definition field_command (c : command) (f : field) : res unit * field :=
  match c with
  | Clear _ =>
      if clear_fails f then (Exc WebDriverException, f)
      else (Ret tt, set_content f EmptyString)
  | SendKeys _ text =>
      if send_keys_fails f then (Exc WebDriverException, f)
      else (Ret tt, set_content f (content f ++ text)%string)
  | PressKeycode 67 => (Ret tt, set_content f (backspace (content f)))
  | _ => (Ret tt, f)
  end.

Definition field_adb (c : adb_command) (f : field) : res Z * field :=
  match c with
  | InputText text => (Ret 0, set_content f (content f ++ text)%string)
  | _ => (Ret 0, f)
  end.

Definition text_field : Backend field := {|
  find_elements := fun _ _ _ f => (Ret [1%nat], f);
  presence := fun _ _ _ f => (Ret 1%nat, f);
  is_displayed := fun _ f => (Ret true, f);
  get_text := fun _ f => (Ret (Some (content f)), f);
  location := fun _ f => (Ret (100, 200), f);
  size := fun _ f => (Ret (50, 40), f);
  remote := fun f => (Ret tt, f);
  window_size := fun f => (Ret (1080, 1920), f);
  adb := field_adb;
  command_ := field_command;
  int_mul_0_6 := fun n => Z.quot (n * 6) 10
|}.

Definition showing (f : field) : state field := mkState f true (Some (1080, 1920)).

(** Two calls of type_text_bulletproof in succession, same arguments;
    the content the field is left with. *)
Definition content_after_typing_twice (by_ : locator_kind) (value text description : string)
    (f : field) : string :=
  let m := Comp.type_text_bulletproof (B := text_field) by_ value text description in
  content (world (state_of ((m ;; m) (showing f)))).

Definition content_after_typing_once (by_ : locator_kind) (value text description : string)
    (f : field) : string :=
  let m := Comp.type_text_bulletproof (B := text_field) by_ value text description in
  content (world (state_of (m (showing f)))).

End Mock.

(** ** More of src/comp.py: the Next button and the form steps *)

Module CompSteps.
Section CompSteps.
Context {W : Type} {B : Backend W}.

(** Lines 194-198 *)
Definition next_strategies : list (locator_kind * string) :=
  [(ANDROID_UIAUTOMATOR,
    "new UiSelector().textContains(" ++ Comp.dq ++ "Next" ++ Comp.dq
      ++ ").clickable(true).enabled(true)");
   (XPATH, "//*[contains(@text, 'Next')]");
   (XPATH, "//android.widget.Button[contains(@text, 'Next')]")]%string.

(** click_next_production (lines 192-213) *)
Definition click_next_production (context : string) : M W event bool :=
  r <- for_each next_strategies
         (fun '(by_, selector) =>
            clicked <- Comp.click_element_bulletproof by_ selector
                         ("Next (" ++ context ++ ")")%string ;;
            if (clicked : bool) then ret (Some true) else ret None) ;;
  match r with
  | Some b => ret b
  | None =>
      try_catch (cmd (PressKeycode 66) ;; ret true) (fun _ => ret false)
  end.

(** Lines 242-245 and 258-261 *)
Definition email_selectors : list (locator_kind * string) :=
  [(XPATH, "//*[contains(@hint, 'email')]");
   (CLASS_NAME, "android.widget.EditText")]%string.

Definition password_selectors : list (locator_kind * string) :=
  [(XPATH, "//*[contains(@hint, 'Password')]");
   (CLASS_NAME, "android.widget.EditText")]%string.

(** step2_email (lines 237-251) *)
Definition step2_email (username : string) : M W event bool :=
  r <- for_each email_selectors
         (fun '(by_, selector) =>
            typed <- Comp.type_text_bulletproof by_ selector username "Email" ;;
            if (typed : bool) then
              b <- click_next_production "Email" ;; ret (Some b)
            else ret None) ;;
  match r with
  | Some b => ret b
  | None => ret false
  end.

(** step3_password (lines 253-267) *)
Definition step3_password (password : string) : M W event bool :=
  r <- for_each password_selectors
         (fun '(by_, selector) =>
            typed <- Comp.type_text_bulletproof by_ selector password "Password" ;;
            if (typed : bool) then
              b <- click_next_production "Password" ;; ret (Some b)
            else ret None) ;;
  match r with
  | Some b => ret b
  | None => ret false
  end.

(** Lines 276-280 and 303-307 *)
Definition day_selectors : list (locator_kind * string) :=
  [(XPATH, "//*[contains(@text, 'Day')]");
   (XPATH, "//*[contains(@hint, 'Day')]");
   (XPATH, "//android.widget.Spinner[1]")]%string.

Definition month_selectors : list (locator_kind * string) :=
  [(XPATH, "//*[contains(@text, 'Month')]");
   (XPATH, "//*[contains(@hint, 'Month')]");
   (XPATH, "//android.widget.Spinner[2]")]%string.

(** [f"//*[@text='{value}']"] *)
Definition option_xpath (value : string) : string :=
  ("//*[@text='" ++ value ++ "']")%string.

(** Lines 286-299 (day) and 313-326 (month): find the option and click
    it; [Some tt] is [break].  After a stale-element error the option is
    found again and clicked outside any [try]; any other error of the
    first click is not caught. *)
Definition click_option (xpath : string) : M W event (option unit) :=
  found <- Comp.find_element_bulletproof XPATH xpath 5 3 ;;
  match found with
  | Some o =>
      try_catch
        (cmd (Click o) ;; ret (Some tt))
        (fun e =>
           match e with
           | StaleElementReferenceException =>
               again <- Comp.find_element_bulletproof XPATH xpath 3 3 ;;
               match again with
               | Some o' => cmd (Click o') ;; ret (Some tt)
               | None => ret None
               end
           | _ => raise e
           end)
  | None => ret None
  end.

(** Lines 282-299 (day) and 309-326 (month): the loop over the
    selectors of one dropdown. *)
Definition choose_from_dropdown (selectors : list (locator_kind * string))
    (description value : string) : M W event unit :=
  for_each selectors
    (fun '(by_, selector) =>
       opened <- Comp.click_element_bulletproof by_ selector description ;;
       if (opened : bool) then click_option (option_xpath value) else ret None) ;;
  ret tt.

(** Lines 342-367: "method 2" for the year, on the last EditText;
    [edit_texts[-1]] of an empty list raises IndexError. *)
Definition year_method_2 (edit_texts : list handle) (birth_year : string) : M W event unit :=
  try_catch
    (match edit_texts with
     | [] => raise OtherException
     | first :: others =>
         let year_element := last others first in
         cmd (Click year_element) ;;
         repeat_ 20 (cmd (PressKeycode 67)) ;;
         try_catch
           (cmd (SendKeys year_element birth_year))
           (fun _ => subprocess_run (InputText birth_year) ;; ret tt)
     end)
    (fun _ => ret tt).

(** Lines 332-369: the year. *)
Definition enter_year (birth_year : string) : M W event unit :=
  edit_texts <- Comp.find_elements_bulletproof CLASS_NAME "android.widget.EditText" 5 3 ;;
  match edit_texts with
  | [] => ret tt
  | _ :: _ =>
      typed <- Comp.type_text_bulletproof CLASS_NAME "android.widget.EditText"
                 birth_year "Year Field (bulletproof)" ;;
      if (typed : bool) then ret tt
      else year_method_2 edit_texts birth_year
  end.

(** step4_details_fixed (lines 269-378); the day, month and year are
    passed as the strings that [f"{...}"] and [str(...)] make of them. *)
Definition step4_details_fixed (birth_day birth_month birth_year : string)
  : M W event bool :=
  choose_from_dropdown day_selectors "Day Dropdown" birth_day ;;
  choose_from_dropdown month_selectors "Month Dropdown" birth_month ;;
  enter_year birth_year ;;
  try_catch (cmd HideKeyboard) (fun _ => ret tt) ;;
  click_next_production "Details".

End CompSteps.
End CompSteps.

(** ** More of src/new.py and src/main.py: typing and tapping helpers *)

Module NewSteps.
Section NewSteps.
Context {W : Type} {B : Backend W}.

(** [subprocess.run([...], check=True)]: a non-zero exit status raises
    CalledProcessError. *)
Definition subprocess_run_checked (c : adb_command) : M W event Z :=
  status <- subprocess_run c ;;
  if status =? 0 then ret status else raise OtherException.

(** type_robust (new.py lines 67-88) *)
Definition type_robust (el : handle) (text label : string) : M W event bool :=
  try_catch
    (cmd (Click el) ;;
     try_catch (cmd (Clear el))
       (fun _ =>
          cur <- elem_get_text el ;;
          repeat_ (String.length (Comp.text_or_empty cur) + 3) (cmd (PressKeycode 67))) ;;
     cmd (SendKeys el text) ;;
     ret true)
    (fun _ =>
       try_catch
         (subprocess_run_checked (InputText text) ;; ret true)
         (fun _ => ret false)).

End NewSteps.
End NewSteps.

Module MainSteps.
Section MainSteps.
Context {W : Type} {B : Backend W}.

(** tap_element_safely (main.py lines 92-103); [None] is a missing
    element. *)
Definition tap_element_safely (element : option handle) (description : string)
  : M W event bool :=
  match element with
  | Some el => try_catch (cmd (Click el) ;; ret true) (fun _ => ret false)
  | None => ret false
  end.

(** input_text_safely (main.py lines 105-118) *)
Definition input_text_safely (element : option handle) (text description : string)
  : M W event bool :=
  match element with
  | Some el =>
      try_catch (cmd (Clear el) ;; cmd (SendKeys el text) ;; ret true)
        (fun _ => ret false)
  | None => ret false
  end.

(** tap_by_coordinates (main.py lines 120-129) *)
Definition tap_by_coordinates (x y : Z) (description : string) : M W event bool :=
  try_catch (cmd (Tap x y) ;; ret true) (fun _ => ret false).

End MainSteps.
End MainSteps.

(** ** Reading traces, continued *)

Definition no_native_clear (ev : event) : Prop :=
  match ev with
  | EvCmd (Clear _) _ => False
  | _ => True
  end.

(** The text was handed over: [send_keys] returned, or the adb command
    ran (with whatever exit status). *)
Definition is_typing (text : string) (ev : event) : Prop :=
  match ev with
  | EvCmd (SendKeys _ t) (Ret _) => t = text
  | EvAdb (InputText t) (Ret _) => t = text
  | _ => False
  end.

Definition no_typing (ev : event) : Prop :=
  match ev with
  | EvCmd (SendKeys _ _) (Ret _) => False
  | EvAdb (InputText _) (Ret _) => False
  | _ => True
  end.

(** Neither a key press nor a click that returned. *)
Definition no_key_no_click (ev : event) : Prop :=
  match ev with
  | EvCmd (PressKeycode _) _ => False
  | EvCmd (Click _) (Ret _) => False
  | _ => True
  end.

(** The query that the tap operation makes for a selector. *)
Definition is_query (by_ : locator_kind) (value : string) (ev : event) : Prop :=
  exists r, ev = EvFindElements by_ value 8 r.

(** The trace ends with the first click that returned, no key having
    been pressed. *)
Definition ends_with_first_click (t : list event) : Prop :=
  exists pre el, t = (pre ++ [EvCmd (Click el) (Ret tt)])%list /\ Forall no_key_no_click pre.

(** The trace ends with ENTER (keycode 66), the first key pressed, after
    every Next strategy was tried and no click returned. *)
Definition ends_with_enter_fallback (strategies : list (locator_kind * string))
    (r : res unit) (t : list event) : Prop :=
  exists pre,
    t = (pre ++ [EvCmd (PressKeycode 66) r])%list /\
    Forall no_key_no_click pre /\
    forall by_ selector, In (by_, selector) strategies -> Exists (is_query by_ selector) pre.

(** How a run of click_next_production with result [b] ends. *)
Definition next_outcome (strategies : list (locator_kind * string)) (b : bool)
    (t : list event) : Prop :=
  (b = true /\ ends_with_first_click t) \/
  (exists r, b = returned r /\ ends_with_enter_fallback strategies r t).

(** The text is handed over once, and what follows is a run of
    click_next_production with result [b]. *)
Definition typed_then_next (strategies : list (locator_kind * string)) (text : string)
    (b : bool) (t : list event) : Prop :=
  exists pre ev post,
    t = (pre ++ ev :: post)%list /\
    Forall no_typing pre /\ is_typing text ev /\
    next_outcome strategies b post.

(** An exception [e] left a dropdown loop of step 4: it came out of a
    click on an option, before anything was typed; a stale-element
    error only out of the second click, the first having raised one
    too. *)
Definition option_click_raised (e : exn) (t : list event) : Prop :=
  exists pre el,
    t = (pre ++ [EvCmd (Click el) (Exc e)])%list /\
    Forall no_typing pre /\
    (e = StaleElementReferenceException ->
     Exists (fun ev => exists el',
                 ev = EvCmd (Click el') (Exc StaleElementReferenceException)) pre).

(** What a dropdown loop of step 4 leaves behind: nothing typed, and
    an exception only out of a click on an option. *)
Definition dropdown_trace {A} (r : res A) (t : list event) : Prop :=
  match r with
  | Ret _ => Forall no_typing t
  | Exc e => option_click_raised e t
  end.

(** The texts handed over, in order. *)
Definition typed_texts (t : list event) : list string :=
  flat_map (fun ev =>
              match ev with
              | EvCmd (SendKeys _ text) (Ret _) => [text]
              | EvAdb (InputText text) (Ret _) => [text]
              | _ => []
              end) t.

(** At most one text was handed over, and it was [text]. *)
Definition at_most_once (text : string) (t : list event) : Prop :=
  typed_texts t = [] \/ typed_texts t = [text].

(** [subprocess.run(..., check=True)] went through: adb ran and its
    exit status was 0. *)
Definition adb_accepted (r : res Z) : bool :=
  match r with
  | Ret status => status =? 0
  | Exc _ => false
  end.

(** A call that raised. *)
Definition raised (ev : event) : Prop := event_returned ev = false.

(** A scroll of _scroll_into_view on a screen of the given size: a
    vertical swipe along the middle column that ends at mid-height and
    starts no closer than 200 to the bottom edge, and no closer than
    200 to the top edge when the screen is 400 high or more. *)
Definition centering_scroll (size_ : option (Z * Z)) (c : command) : Prop :=
  exists width height y1,
    size_ = Some (width, height) /\
    c = Swipe (width / 2) y1 (width / 2) (height / 2) 500 /\
    y1 <= height - 200 /\
    (400 <= height -> 200 <= y1).

(** [key in user_data] *)
Definition has_key {V} (user_data : list (string * V)) (key : string) : bool :=
  existsb (fun item => String.eqb (fst item) key) user_data.

(** Completed set-ups: the window size was read. *)
Definition setups_completed (t : list run_event) : nat :=
  List.length (filter (fun ev => match ev with
                                 | Session (EvWindowSize (Ret _)) => true
                                 | _ => false
                                 end) t).

(** The verdict the runner of new.py prints for a step that returned
    True. *)
Definition passed {W} (st : step W) : string * bool := (fst st, true).

(** The log of a run of new.py that got past its set-up: the steps
    [done] returned True; when the result is not True the next step
    was started and failed (a FAILED line when it returned False, no
    verdict when it raised), and no step after it was started. *)
Definition stopped_at_first_failure {W} (flow : list (step W)) (r : res bool)
    (t : list run_event) : Prop :=
  exists done rest,
    flow = (done ++ rest)%list /\
    match r with
    | Ret true =>
        rest = [] /\ started t = map fst done /\ verdicts t = map passed done
    | Ret false =>
        exists st rest',
          rest = st :: rest' /\
          started t = (map fst done ++ [fst st])%list /\
          verdicts t = (map passed done ++ [(fst st, false)])%list
    | Exc _ =>
        exists st rest',
          rest = st :: rest' /\
          started t = (map fst done ++ [fst st])%list /\
          verdicts t = map passed done
    end.
(** * Properties *)

(** ** Laws of the combinators *)

Section Laws.
Context {W T : Type}.

Lemma emits_ret {A} (P : T -> Prop) (a : A) : emits (W := W) P (ret a).
Proof. intros s. constructor. Qed.

Lemma emits_raise {A} (P : T -> Prop) (e : exn) : emits (W := W) (A := A) P (raise e).
Proof. intros s. constructor. Qed.

Lemma emits_bind {A B} (P : T -> Prop) (m : M W T A) (k : A -> M W T B) :
  emits P m -> (forall a, emits P (k a)) -> emits P (bind m k).
Proof.
  intros Hm Hk s. unfold bind. specialize (Hm s).
  destruct (m s) as [[[a | e] s1] t1]; simpl in *; auto.
  specialize (Hk a s1). destruct (k a s1) as [[r2 s2] t2]; simpl in *.
  apply Forall_app; auto.
Qed.

Lemma emits_try_catch {A} (P : T -> Prop) (m : M W T A) (h : exn -> M W T A) :
  emits P m -> (forall e, emits P (h e)) -> emits P (try_catch m h).
Proof.
  intros Hm Hh s. unfold try_catch. specialize (Hm s).
  destruct (m s) as [[[a | e] s1] t1]; simpl in *; auto.
  specialize (Hh e s1). destruct (h e s1) as [[r2 s2] t2]; simpl in *.
  apply Forall_app; auto.
Qed.

Lemma emits_for_each {X A} (P : T -> Prop) (xs : list X) (body : X -> M W T (option A)) :
  (forall x, emits P (body x)) -> emits P (for_each xs body).
Proof.
  intros Hb. induction xs as [| x rest IH]; simpl.
  - apply emits_ret.
  - apply emits_bind; auto. intros [a |]; auto. apply emits_ret.
Qed.

Lemma emits_repeat (P : T -> Prop) (n : nat) (m : M W T unit) :
  emits P m -> emits P (repeat_ n m).
Proof.
  intros Hm. induction n as [| n IH]; simpl.
  - apply emits_ret.
  - apply emits_bind; auto.
Qed.

Lemma never_raises_ret {A} (a : A) : never_raises (W := W) (T := T) (ret a).
Proof. intros s. exists a. reflexivity. Qed.

Lemma never_raises_bind {A B} (m : M W T A) (k : A -> M W T B) :
  never_raises m -> (forall a, never_raises (k a)) -> never_raises (bind m k).
Proof.
  intros Hm Hk s. unfold bind. destruct (Hm s) as [a Ha].
  destruct (m s) as [[r s1] t1]; unfold result_of in Ha; simpl in Ha; subst r.
  destruct (Hk a s1) as [b Hb]. destruct (k a s1) as [[r2 s2] t2].
  exists b. assumption.
Qed.

Lemma never_raises_try_catch {A} (m : M W T A) (h : exn -> M W T A) :
  (forall e, never_raises (h e)) -> never_raises (try_catch m h).
Proof.
  intros Hh s. unfold try_catch.
  destruct (m s) as [[[a | e] s1] t1]; simpl.
  - exists a. reflexivity.
  - destruct (Hh e s1) as [b Hb]. destruct (h e s1) as [[r2 s2] t2].
    exists b. assumption.
Qed.

Lemma never_raises_for_each {X A} (xs : list X) (body : X -> M W T (option A)) :
  (forall x, never_raises (body x)) -> never_raises (for_each xs body).
Proof.
  intros Hb. induction xs as [| x rest IH]; simpl.
  - apply never_raises_ret.
  - apply never_raises_bind; auto. intros [a |]; auto. apply never_raises_ret.
Qed.

End Laws.

Section PrimitiveLaws.
Context {W : Type} {B : Backend W}.

Lemma emits_call {A} (P : event -> Prop) (f : W -> res A * W) (ev : res A -> event) :
  (forall r, P (ev r)) -> emits P (call f ev).
Proof.
  intros H s. unfold call. destruct (f (world s)) as [r w']. simpl.
  constructor; auto.
Qed.

Lemma emits_get_screen_size {T} (P : T -> Prop) : emits P (get_screen_size (W := W)).
Proof. intros s. unfold get_screen_size. destruct (screen_size s); constructor. Qed.

End PrimitiveLaws.

Create HintDb emits.
Create HintDb total.

#[local] Hint Resolve emits_ret emits_raise emits_bind emits_try_catch
  emits_for_each emits_repeat emits_get_screen_size : emits.
#[local] Hint Resolve never_raises_ret never_raises_bind never_raises_try_catch
  never_raises_for_each : total.

(** Close a goal [emits P m] for a method made of combinators and
    calls, given that every call's event satisfies [P]. *)
Ltac emits_step :=
  match goal with
  | |- emits _ (ret _) => apply emits_ret
  | |- emits _ (raise _) => apply emits_raise
  | |- emits _ (bind _ _) => apply emits_bind; [| intros ?]
  | |- emits _ (try_catch _ _) => apply emits_try_catch; [| intros ?]
  | |- emits _ (for_each _ _) => apply emits_for_each; intros ?
  | |- emits _ (repeat_ _ _) => apply emits_repeat
  | |- emits _ get_screen_size => apply emits_get_screen_size
  | |- emits _ (call _ _) => apply emits_call; intros ?; simpl; auto
  | |- emits _ (match ?x with _ => _ end) => destruct x
  | |- emits _ (if ?x then _ else _) => destruct x
  end.

(** ** The locator resolver of comp.py *)

Section Resolver.
Context {W : Type} {B : Backend W}.

Lemma collect_displayed_emits (P : event -> Prop) (elements acc : list handle) :
  (forall el r, P (EvIsDisplayed el r)) ->
  emits P (Comp.collect_displayed elements acc).
Proof.
  intros HP. revert acc. induction elements as [| el rest IH]; intros acc; simpl.
  - apply emits_ret.
  - apply emits_bind.
    + apply emits_try_catch.
      * apply emits_call. intros r. apply HP.
      * intros e. destruct e; apply emits_ret.
    + intros keep. apply IH.
Qed.

Lemma find_element_bulletproof_emits (P : event -> Prop) by_ value timeout n :
  (forall el r, P (EvIsDisplayed el r)) ->
  (forall b v t r, P (EvFindElements b v t r)) ->
  emits P (Comp.find_element_bulletproof by_ value timeout n).
Proof.
  intros Hd Hf.
  unfold Comp.find_element_bulletproof, Comp.find_elements_bulletproof,
    Comp.find_elements_attempt, wait_find_elements.
  repeat first [ apply collect_displayed_emits; assumption
               | apply emits_call; intros ?; apply Hf
               | emits_step ].
Qed.

End Resolver.

(** ** Text entry (comp.py) *)

Section TextEntry.
Context {W : Type} {B : Backend W}.

Lemma year_like_of_lowercase description :
  contains "year" (lower description) = true -> Comp.year_like description = true.
Proof. intros H. unfold Comp.year_like. rewrite H. reflexivity. Qed.

(** C3.  When the description of the field contains "year" in any case,
    type_text_bulletproof never calls element.clear(): whatever the
    backend answers, its trace holds no native clear and no read of the
    current text, and the only key it presses is DEL (keycode 67). *)
Theorem type_text_year_like_never_native_clear
    (by_ : locator_kind) (value text description : string) (s : state W) :
  contains "year" (lower description) = true ->
  Forall backspace_only
    (trace_of (Comp.type_text_bulletproof by_ value text description s)).
Proof.
  intros Hyear. revert s.
  change (emits backspace_only (Comp.type_text_bulletproof by_ value text description)).
  unfold Comp.type_text_bulletproof, Comp.type_attempt, Comp.clear_field,
    Comp.input_text, cmd, subprocess_run.
  rewrite (year_like_of_lowercase _ Hyear).
  repeat first [ apply find_element_bulletproof_emits; intros; exact I
               | emits_step ].
Qed.

End TextEntry.

Lemma type_text_year_like_never_native_clear_witness :
  contains "year" (lower "Year Field (bulletproof)") = true /\
  Forall backspace_only
    (trace_of (Comp.type_text_bulletproof (B := Mock.text_field) CLASS_NAME
                 "android.widget.EditText" "1995" "Year Field (bulletproof)"
                 (Mock.showing (Mock.mkField "20" false false)))).
Proof.
  split.
  - reflexivity.
  - apply (type_text_year_like_never_native_clear (B := Mock.text_field)).
    reflexivity.
Defined.

(** ** The locator resolver, pass by pass *)

Section ResolverPasses.
Context {W : Type} {B : Backend W}.

Lemma kept_app (a b : list event) : kept (a ++ b) = (kept a ++ kept b)%list.
Proof. unfold kept. apply flat_map_app. Qed.

Lemma checked_app (a b : list event) : checked (a ++ b) = (checked a ++ checked b)%list.
Proof. unfold checked. apply flat_map_app. Qed.

Lemma kept_incl_checked (checks : list event) (el : handle) :
  In el (kept checks) -> In el (checked checks).
Proof.
  induction checks as [| ev rest IH]; simpl; auto.
  intros H. apply in_app_or in H. apply in_or_app.
  destruct H as [H | H]; auto.
  left. destruct ev; simpl in *; try contradiction.
  destruct r as [[|] | []]; simpl in *; tauto.
Qed.

Lemma collect_displayed_checks (elements acc : list handle) (s : state W) :
  exists s' checks,
    Comp.collect_displayed elements acc s = (Ret (acc ++ kept checks)%list, s', checks) /\
    checked checks = elements /\
    Forall is_check checks.
Proof.
  revert acc s. induction elements as [| el rest IH]; intros acc s; simpl.
  - exists s, []. simpl. rewrite app_nil_r. repeat split; constructor.
  - unfold bind, try_catch, elem_is_displayed, call.
    destruct (is_displayed el (world s)) as [r w'].
    destruct r as [[|] | e]; [| | destruct e]; simpl;
      match goal with
      | |- context [Comp.collect_displayed rest ?acc' ?s1] =>
          destruct (IH acc' s1) as (s' & checks & Heq & Hc & Hf); rewrite Heq
      end;
      simpl;
      match goal with
      | |- exists _ _, (_, _, ?t) = _ /\ _ => exists s', t
      end;
      (split; [| split];
       [ simpl; rewrite <- ?app_assoc; reflexivity
       | simpl; rewrite Hc; reflexivity
       | constructor; [exact I | exact Hf] ]).
Qed.

Lemma find_elements_attempt_pass by_ value timeout (s : state W) :
  exists o s' block,
    Comp.find_elements_attempt by_ value timeout s = (Ret o, s', block) /\
    query_block by_ value timeout block /\
    match o with
    | Some visible => visible = kept block /\ visible <> []
    | None => kept block = []
    end.
Proof.
  unfold Comp.find_elements_attempt, try_catch, bind, wait_find_elements, call.
  destruct (find_elements by_ value timeout (world s)) as [r w'].
  destruct r as [[| c cs] | e]; lazy beta iota.
  - eexists; eexists; eexists. split; [reflexivity |]. split; [| reflexivity].
    exists (Ret []), []. repeat split; constructor.
  - destruct (collect_displayed_checks (c :: cs) [] (with_world s w'))
      as (s' & checks & Heq & Hc & Hf).
    rewrite Heq. simpl.
    destruct (kept checks) as [| v vs] eqn:Hk; simpl.
    + eexists; eexists; eexists. split; [reflexivity |]. split.
      * exists (Ret (c :: cs)), checks. rewrite app_nil_r. auto.
      * rewrite app_nil_r. simpl. exact Hk.
    + eexists; eexists; eexists. split; [reflexivity |]. split.
      * exists (Ret (c :: cs)), checks. rewrite app_nil_r. auto.
      * rewrite app_nil_r. simpl. rewrite Hk. split; [reflexivity | discriminate].
  - eexists; eexists; eexists. split; [reflexivity |]. split; [| reflexivity].
    exists (Exc e), []. repeat split; constructor.
Qed.

Lemma find_elements_loop_passes by_ value timeout (xs : list nat) (s : state W) :
  exists o s' passes,
    for_each xs (fun _ => Comp.find_elements_attempt by_ value timeout) s
      = (Ret o, s', List.concat passes) /\
    (List.length passes <= List.length xs)%nat /\
    Forall (query_block by_ value timeout) passes /\
    Forall (fun b => kept b = []) (removelast passes) /\
    match o with
    | Some visible => visible = kept (last passes []) /\ visible <> []
    | None => kept (last passes []) = []
    end.
Proof.
  revert s. induction xs as [| x rest IH]; intros s; simpl.
  - exists None, s, []. simpl. repeat split; auto.
  - unfold bind.
    destruct (find_elements_attempt_pass by_ value timeout s)
      as (o1 & s1 & block & Heq & Hq & Ho).
    rewrite Heq. destruct o1 as [visible |].
    + exists (Some visible), s1, [block]. simpl. repeat split; auto; try lia; tauto.
    + destruct (IH s1) as (o & s' & passes & Heq' & Hlen & Hqs & Hrl & Hlast).
      rewrite Heq'. exists o, s', (block :: passes). simpl.
      split; [reflexivity |]. split; [lia |]. split; [constructor; assumption |].
      destruct passes as [| p ps].
      * split; [constructor |]. destruct o as [visible |]; simpl in *; auto.
        destruct Hlast as [Hv Hne]. contradiction.
      * split; [constructor; assumption |]. exact Hlast.
Qed.

(** The whole resolver: it never raises; it makes at most
    [retry_attempts] passes; every pass but the last kept nothing; and
    what it returns is what the last pass kept. *)
Lemma find_elements_bulletproof_passes by_ value timeout retry_attempts (s : state W) :
  exists s' passes,
    Comp.find_elements_bulletproof by_ value timeout retry_attempts s
      = (Ret (kept (last passes [])), s', List.concat passes) /\
    (List.length passes <= retry_attempts)%nat /\
    Forall (query_block by_ value timeout) passes /\
    Forall (fun b => kept b = []) (removelast passes).
Proof.
  unfold Comp.find_elements_bulletproof, bind.
  destruct (find_elements_loop_passes by_ value timeout (range retry_attempts) s)
    as (o & s' & passes & Heq & Hlen & Hqs & Hrl & Hlast).
  rewrite Heq. unfold range in Hlen. rewrite length_seq in Hlen.
  exists s', passes. destruct o as [visible |]; simpl; rewrite app_nil_r.
  - destruct Hlast as [Hv _]. rewrite <- Hv. auto.
  - rewrite Hlast. auto.
Qed.

End ResolverPasses.

Section ResolverClaims.
Context {W : Type} {B : Backend W}.

(** C4, as the code has it.  find_elements_bulletproof never raises.
    Its trace is a sequence of at most [retry_attempts] passes, each a
    query followed by one visibility check per candidate, in order.  A
    candidate is kept when its check returns True or raises anything
    but a stale-element error; it is discarded when the check returns
    False or raises a stale-element error.  The passes before the last
    kept nothing, and the result is what the last pass kept. *)
Theorem find_elements_bulletproof_filters
    (by_ : locator_kind) (value : string) (timeout : Z) (retry_attempts : nat)
    (s : state W) :
  (exists passes,
     trace_of (Comp.find_elements_bulletproof by_ value timeout retry_attempts s)
       = List.concat passes /\
     (List.length passes <= retry_attempts)%nat /\
     Forall (query_block by_ value timeout) passes /\
     Forall (fun b => kept b = []) (removelast passes) /\
     result_of (Comp.find_elements_bulletproof by_ value timeout retry_attempts s)
       = Ret (kept (last passes []))) /\
  (forall el, kept [EvIsDisplayed el (Ret true)] = [el]) /\
  (forall el, kept [EvIsDisplayed el (Ret false)] = []) /\
  (forall el, kept [EvIsDisplayed el (Exc StaleElementReferenceException)] = []) /\
  (forall el e, e <> StaleElementReferenceException ->
                kept [EvIsDisplayed el (Exc e)] = [el]).
Proof.
  split.
  - destruct (find_elements_bulletproof_passes by_ value timeout retry_attempts s)
      as (s' & passes & Heq & Hlen & Hq & Hrl).
    exists passes. rewrite Heq. simpl. auto.
  - repeat split; try reflexivity.
    intros el e He. destruct e; try reflexivity. contradiction.
Qed.

Lemma find_element_bulletproof_passes by_ value timeout retry_attempts (s : state W) :
  exists s' passes,
    Comp.find_element_bulletproof by_ value timeout retry_attempts s
      = (Ret (hd_error (kept (last passes []))), s', List.concat passes) /\
    (List.length passes <= retry_attempts)%nat /\
    Forall (query_block by_ value timeout) passes.
Proof.
  unfold Comp.find_element_bulletproof, bind.
  destruct (find_elements_bulletproof_passes by_ value timeout retry_attempts s)
    as (s' & passes & Heq & Hlen & Hq & _).
  rewrite Heq. exists s', passes. simpl. rewrite app_nil_r. auto.
Qed.

Lemma find_element_bulletproof_never_raises by_ value timeout retry_attempts :
  never_raises (Comp.find_element_bulletproof by_ value timeout retry_attempts).
Proof.
  intros s.
  destruct (find_element_bulletproof_passes by_ value timeout retry_attempts s)
    as (s' & passes & Heq & _).
  rewrite Heq. eexists. reflexivity.
Qed.

(** The resolver always queries the backend: its first call is the
    query of its first pass. *)
Lemma resolver_queries_first by_ value timeout n (s : state W) :
  exists r rest,
    trace_of (Comp.find_element_bulletproof by_ value timeout (S n) s)
      = EvFindElements by_ value timeout r :: rest.
Proof.
  unfold Comp.find_element_bulletproof, Comp.find_elements_bulletproof, range.
  simpl seq. simpl for_each. unfold bind at 1 2 3.
  destruct (find_elements_attempt_pass by_ value timeout s)
    as (o1 & s2 & block & Heq1 & (r & checks & -> & _) & _).
  rewrite Heq1.
  destruct o1 as [visible |].
  - cbn. do 2 eexists. reflexivity.
  - destruct (for_each (seq 1 n)
                (fun _ => Comp.find_elements_attempt by_ value timeout) s2)
      as [[[[visible |] | e] s3] t3]; cbn; do 2 eexists; reflexivity.
Qed.

Lemma click_attempt_block by_ value (s : state W) :
  exists o s' a block,
    Comp.click_attempt by_ value s = (Ret o, s', block) /\
    attempt_block by_ value a block /\
    match a with
    | Clicked => o = Some true
    | NotFound => o = Some false
    | ClickRaised => o = None
    end.
Proof.
  unfold Comp.click_attempt, try_catch, bind.
  destruct (find_element_bulletproof_passes by_ value 8 3 s)
    as (s1 & passes & Heq & Hlen' & Hq).
  assert (Hlen : (1 <= List.length passes <= 3)%nat).
  { split; [| exact Hlen'].
    destruct (resolver_queries_first by_ value 8 2 s) as (r & rest & Ht).
    rewrite Heq in Ht. cbn [trace_of snd] in Ht.
    destruct passes; [discriminate Ht | simpl; lia]. }
  clear Hlen'.
  rewrite Heq. destruct (kept (last passes [])) as [| el els] eqn:Hk; simpl.
  - exists (Some false), s1, NotFound, (List.concat passes ++ [])%list.
    split; [reflexivity |]. split; [| reflexivity].
    exists passes. rewrite app_nil_r. auto.
  - unfold cmd, call. destruct (command_ (Click el) (world s1)) as [[[] | e] w'].
    + exists (Some true), (with_world s1 w'), Clicked,
        (List.concat passes ++ [EvCmd (Click el) (Ret tt)] ++ [])%list.
      split; [reflexivity |]. split; [| reflexivity].
      exists passes. split; [assumption |]. split; [assumption |].
      exists el. rewrite Hk. simpl. auto.
    + exists None, (with_world s1 w'), ClickRaised,
        ((List.concat passes ++ [EvCmd (Click el) (Exc e)]) ++ [])%list.
      split; [reflexivity |]. split; [| reflexivity].
      exists passes. split; [assumption |]. split; [assumption |].
      exists el, e. rewrite Hk, app_nil_r. simpl. auto.
Qed.

Lemma click_loop_blocks by_ value (xs : list nat) (s : state W) :
  exists o s' attempts blocks,
    for_each xs (fun _ => Comp.click_attempt by_ value) s
      = (Ret o, s', List.concat blocks) /\
    Forall2 (attempt_block by_ value) attempts blocks /\
    match o with
    | Some true =>
        exists k, (k < List.length xs)%nat /\ attempts = (repeat ClickRaised k ++ [Clicked])%list
    | Some false =>
        exists k, (k < List.length xs)%nat /\ attempts = (repeat ClickRaised k ++ [NotFound])%list
    | None => attempts = repeat ClickRaised (List.length xs)
    end.
Proof.
  revert s. induction xs as [| x rest IH]; intros s; simpl.
  - exists None, s, [], []. simpl. repeat split; constructor.
  - unfold bind.
    destruct (click_attempt_block by_ value s) as (o1 & s1 & a & block & Heq & Hb & Ha).
    rewrite Heq. destruct a; subst o1.
    + exists (Some true), s1, [Clicked], [block]. simpl.
      split; [reflexivity |]. split; [repeat constructor; assumption |].
      exists 0%nat. split; [lia | reflexivity].
    + exists (Some false), s1, [NotFound], [block]. simpl.
      split; [reflexivity |]. split; [repeat constructor; assumption |].
      exists 0%nat. split; [lia | reflexivity].
    + destruct (IH s1) as (o & s' & attempts & blocks & Heq' & Hf & Ho).
      rewrite Heq'. exists o, s', (ClickRaised :: attempts), (block :: blocks).
      split; [reflexivity |]. split; [constructor; assumption |].
      destruct o as [[|] |].
      * destruct Ho as (k & Hk & ->). exists (S k). split; [lia | reflexivity].
      * destruct Ho as (k & Hk & ->). exists (S k). split; [lia | reflexivity].
      * rewrite Ho. reflexivity.
Qed.

(** C6.  click_element_bulletproof always returns a boolean, never an
    exception.  Its trace splits into at least one and at most three
    attempts.  Every attempt runs the resolver anew: it starts with
    between one and three passes of its own, each beginning with a
    query, and a click goes to a handle kept from the last pass of the
    same attempt.  An attempt is followed by another one only when its
    click raised.  The result is True exactly when the last attempt's
    click returned; it is False when the resolver found nothing and
    when all three clicks raised. *)
Theorem click_element_bulletproof_fresh_and_total
    (by_ : locator_kind) (value description : string) (s : state W) :
  exists b attempts blocks,
    result_of (Comp.click_element_bulletproof by_ value description s) = Ret b /\
    trace_of (Comp.click_element_bulletproof by_ value description s)
      = List.concat blocks /\
    Forall2 (attempt_block by_ value) attempts blocks /\
    (List.length attempts <= 3)%nat /\
    ((b = true /\ exists k, attempts = (repeat ClickRaised k ++ [Clicked])%list) \/
     (b = false /\ exists k, attempts = (repeat ClickRaised k ++ [NotFound])%list) \/
     (b = false /\ attempts = repeat ClickRaised 3)).
Proof.
  unfold Comp.click_element_bulletproof, bind.
  destruct (click_loop_blocks by_ value (range 3) s)
    as (o & s' & attempts & blocks & Heq & Hf & Ho).
  rewrite Heq. change (List.length (range 3)) with 3%nat in Ho.
  destruct o as [[|] |]; simpl; rewrite app_nil_r.
  - destruct Ho as (k & Hk & ->). exists true, (repeat ClickRaised k ++ [Clicked])%list, blocks.
    repeat split; auto.
    + rewrite length_app, repeat_length. simpl. lia.
    + left. split; [reflexivity |]. exists k. reflexivity.
  - destruct Ho as (k & Hk & ->). exists false, (repeat ClickRaised k ++ [NotFound])%list, blocks.
    repeat split; auto.
    + rewrite length_app, repeat_length. simpl. lia.
    + right. left. split; [reflexivity |]. exists k. reflexivity.
  - subst attempts. exists false, (repeat ClickRaised 3), blocks.
    repeat split; auto.
Qed.

End ResolverClaims.

(** The candidate of [Mock.stale_candidate] is returned by every query
    and goes stale in every check; the resolver's answer does not hold
    it. *)
Lemma stale_candidate_is_discarded :
  let out := Comp.find_elements_bulletproof (B := Mock.scripted Mock.stale_candidate)
               XPATH "//android.widget.EditText" 10 3 Mock.start in
  In (EvFindElements XPATH "//android.widget.EditText" 10 (Ret [7%nat])) (trace_of out) /\
  In (EvIsDisplayed 7%nat (Exc StaleElementReferenceException)) (trace_of out) /\
  result_of out = Ret [] /\
  ~ (exists visible, result_of out = Ret visible /\ In 7%nat visible).
Proof.
  vm_compute. split; [auto |]. split; [auto |]. split; [reflexivity |].
  intros (visible & Hv & Hin). inversion Hv; subst. contradiction.
Qed.

(** Split on the answer of the next call of an unfolded method. *)
Ltac case_call :=
  match goal with
  | |- context [match command_ ?c ?w with _ => _ end] =>
      destruct (command_ c w) as [[[] | ?] ?]
  | |- context [match adb ?c ?w with _ => _ end] =>
      destruct (adb c w) as [[? | ?] ?]
  | |- context [match location ?el ?w with _ => _ end] =>
      destruct (location el w) as [[[? ?] | ?] ?]
  | |- context [match size ?el ?w with _ => _ end] =>
      destruct (size el w) as [[[? ?] | ?] ?]
  | |- context [match presence ?b ?v ?t ?w with _ => _ end] =>
      destruct (presence b v t w) as [[? | []] ?]
  | |- context [match screen_size ?s with _ => _ end] =>
      destruct (screen_size s) as [[? ?] |] eqn:?
  | |- context [if ?b then _ else _] => destruct b
  end;
  cbn [fst snd world with_world driver screen_size app result_of state_of trace_of].

Ltac unfold_long_press :=
  unfold New.long_press_15s_strong, New._scroll_into_view, New._center_of,
    New.native_long_click, New.tick_hold, New.adb_swipe_in_place, New.micro_drag,
    New.native_long_click_body, New.tick_hold_body, New.adb_swipe_in_place_body,
    New.micro_drag_body, New.ActionBuilder_add_action,
    bind, try_catch, raise, cmd, subprocess_run, elem_location, elem_size, call,
    get_screen_size, ret.

(** ** The long press of new.py *)

Section Inversion.
Context {W T : Type}.

Lemma bind_cases {A B} (m : M W T A) (k : A -> M W T B) (s : state W) :
  (exists a s1 t1,
     m s = (Ret a, s1, t1) /\
     bind m k s = (result_of (k a s1), state_of (k a s1), t1 ++ trace_of (k a s1))%list) \/
  (exists e s1 t1, m s = (Exc e, s1, t1) /\ bind m k s = (Exc e, s1, t1)).
Proof.
  unfold bind. destruct (m s) as [[[a | e] s1] t1].
  - left. exists a, s1, t1. split; [reflexivity |].
    destruct (k a s1) as [[r s2] t2]. reflexivity.
  - right. exists e, s1, t1. auto.
Qed.

(** A method that runs two commands, a third call and then the rest,
    split after the third call. *)
Lemma bind_tail {A C} (m1 m2 : M W T unit) (m3 : M W T A) (k : A -> M W T C)
    (s : state W) :
  (m1 ;; m2 ;; x <- m3 ;; k x) s
  = match (m1 ;; m2 ;; m3) s with
    | (Ret a, s1, t1) =>
        (result_of (k a s1), state_of (k a s1), (t1 ++ trace_of (k a s1))%list)
    | (Exc e, s1, t1) => (Exc e, s1, t1)
    end.
Proof.
  unfold bind.
  destruct (m1 s) as [[[[] | e1] s1] t1]; [| reflexivity].
  destruct (m2 s1) as [[[[] | e2] s2] t2]; [| reflexivity].
  destruct (m3 s2) as [[[a | e3] s3] t3]; [| reflexivity].
  destruct (k a s3) as [[r s4] t4]. cbn. rewrite !app_assoc. reflexivity.
Qed.

End Inversion.

Section LongPressClaims.
Context {W : Type} {B : Backend W}.

Lemma press_and_hold_log (tiers : list (M W event unit)) (s : state W) :
  let log := fst (fst (fst (press_and_hold tiers s))) in
  let ok := snd (fst (fst (press_and_hold tiers s))) in
  (exists k, (k < List.length tiers)%nat /\
             log = (repeat false k ++ [true])%list /\ ok = true) \/
  (log = repeat false (List.length tiers) /\ ok = false).
Proof.
  cbv zeta. revert s. induction tiers as [| tier later IH]; intros s; cbn [press_and_hold].
  - right. split; reflexivity.
  - destruct (tier s) as [[[[] | e] s1] t1].
    + left. exists 0%nat. cbn. repeat split. lia.
    + specialize (IH s1).
      destruct (press_and_hold later s1) as [[[log ok] s2] t2]. cbn [fst snd] in *.
      destruct IH as [(k & Hk & -> & ->) | [-> ->]].
      * left. exists (S k). cbn [List.length repeat app]. repeat split. lia.
      * right. split; reflexivity.
Qed.

(** The tiers of the source against the tiered fallback of the
    specification. *)
Lemma tiers_refine (el : handle) (cx cy : Z) (s : state W) :
  (t1 <- New.native_long_click el ;;
   match t1 with
   | Some b => ret b
   | None =>
       t2 <- New.tick_hold cx cy ;;
       match t2 with
       | Some b => ret b
       | None =>
           t3 <- New.adb_swipe_in_place cx cy ;;
           match t3 with
           | Some b => ret b
           | None =>
               t4 <- New.micro_drag cx cy ;;
               match t4 with
               | Some b => ret b
               | None => ret false
               end
           end
       end
   end) s
  = (Ret (snd (fst (fst (press_and_hold (New.tiers el cx cy) s)))),
     snd (fst (press_and_hold (New.tiers el cx cy) s)),
     snd (press_and_hold (New.tiers el cx cy) s)).
Proof.
  unfold New.tiers, New.native_long_click, New.tick_hold, New.adb_swipe_in_place,
    New.micro_drag.
  cbn [press_and_hold]. unfold bind at 1. unfold try_catch at 1. unfold bind at 1.
  destruct (New.native_long_click_body el s) as [[[[] | e1] s1] t1];
    [cbn [ret fst snd app]; rewrite !app_nil_r; reflexivity |].
  cbn [ret fst snd app]. unfold bind at 1. unfold try_catch at 1. unfold bind at 1.
  destruct (New.tick_hold_body cx cy s1) as [[[[] | e2] s2] t2];
    [cbn [ret fst snd app]; rewrite !app_nil_r; reflexivity |].
  cbn [ret fst snd app]. unfold bind at 1. unfold try_catch at 1. unfold bind at 1.
  destruct (New.adb_swipe_in_place_body cx cy s2) as [[[[] | e3] s3] t3];
    [cbn [ret fst snd app]; rewrite !app_nil_r; reflexivity |].
  cbn [ret fst snd app]. unfold bind at 1. unfold try_catch at 1. unfold bind at 1.
  destruct (New.micro_drag_body cx cy s3) as [[[[] | e4] s4] t4];
    cbn [ret fst snd app]; rewrite !app_nil_r; reflexivity.
Qed.


(** C2, where the code departs from it.  Tiers 2 and 4 are written to
    hold for 15000 ms (fifteen pauses of one second; fifteen pairs of
    500 ms moves with the pointer down), but neither sends anything:
    each raises at its first [actions.add_action], whatever the state.
    So no run of long_press_15s_strong issues a pointer sequence.  Its
    presses are the native long click and, when that raised, the adb
    swipe in place at the centre of the element, both for 15000 ms;
    when both raise it returns False with no other press issued. *)
Theorem long_press_pointer_tiers_never_press (el : handle) (s : state W) :
  (forall cx cy s0,
     New.tick_hold cx cy s0 = (Ret None, s0, []) /\
     New.micro_drag cx cy s0 = (Ret None, s0, [])) /\
  (forall cx cy,
     held_ms false (New.tick_hold_actions cx cy) = 15000 /\
     held_ms false (New.micro_drag_actions cx cy) = 15000) /\
  (let out := New.long_press_15s_strong el s in
   let presses := filter is_press (trace_of out) in
   match result_of out with
   | Exc _ => presses = []
   | Ret true =>
       presses = [EvCmd (LongClickGesture el 15000) (Ret tt)] \/
       exists e cx cy status,
         presses = [EvCmd (LongClickGesture el 15000) (Exc e);
                    EvAdb (TouchscreenSwipe cx cy cx cy 15000) (Ret status)]
   | Ret false =>
       exists e e' cx cy,
         presses = [EvCmd (LongClickGesture el 15000) (Exc e);
                    EvAdb (TouchscreenSwipe cx cy cx cy 15000) (Exc e')]
   end).
Proof.
  split; [intros cx cy s0; split; reflexivity |].
  split; [intros cx cy; split; reflexivity |].
  cbv zeta. unfold_long_press.
  repeat case_call; cbn [filter is_press app];
    first [ reflexivity
          | left; reflexivity
          | right; do 4 eexists; reflexivity
          | do 4 eexists; reflexivity ].
Qed.

End LongPressClaims.

(** C2 at its failing input.  The driver's gestures raise and adb
    works: tier 1 raises, tier 2 is reached and sends nothing, and the
    only hold is the adb swipe of tier 3. *)
Lemma long_press_forced_past_tier_2 :
  let out := New.long_press_15s_strong (B := Mock.scripted Mock.only_adb_works)
               1%nat Mock.start in
  filter is_press (trace_of out)
    = [EvCmd (LongClickGesture 1%nat 15000) (Exc WebDriverException);
       EvAdb (TouchscreenSwipe 125 220 125 220 15000) (Ret 0)] /\
  tier_outcomes (trace_of out) = [(1%nat, false); (3%nat, true)] /\
  result_of out = Ret true.
Proof. vm_compute. repeat split. Qed.

(** ** The CAPTCHA step *)

Section Captcha.
Context {W : Type} {B : Backend W}.

Ltac show_last_event :=
  match goal with
  | |- exists pre x y, ?l = _ =>
      exists (removelast l); simpl; do 2 eexists; reflexivity
  end.

Ltac show_last_press :=
  match goal with
  | |- ends_with_returned_press ?l =>
      exists (removelast l), (last l (EvRemote (Ret tt))); simpl;
      repeat split; reflexivity
  end.

Lemma ends_with_returned_press_app (a b : list event) :
  ends_with_returned_press b -> ends_with_returned_press (a ++ b).
Proof.
  intros (pre & ev & -> & H). exists (a ++ pre)%list, ev.
  rewrite app_assoc. auto.
Qed.

Lemma comp_captcha_lookup_never_raises :
  never_raises
    (for_each Comp.captcha_selectors
       (fun '(by_, selector) => Comp.find_element_bulletproof (B := B) by_ selector 8 3)).
Proof.
  apply never_raises_for_each. intros [by_ selector].
  apply find_element_bulletproof_never_raises.
Qed.

Lemma comp_step6_captcha_returns_true (s : state W) :
  let out := Comp.step6_captcha s in
  result_of out <> Ret false /\
  (forall e, result_of out = Exc e ->
             screen_size (state_of out) = None \/ raised_out_of_adb (trace_of out) e) /\
  (result_of out = Ret true -> ends_with_returned_press (trace_of out)).
Proof.
  cbv zeta. unfold Comp.step6_captcha.
  match goal with
  | |- context [bind ?m ?k s] =>
      destruct (bind_cases m k s) as [(a & s1 & t1 & Hm & Hb) | (e & s1 & t1 & Hm & Hb)]
  end.
  - rewrite Hb. clear Hb Hm.
    cbn [result_of state_of trace_of fst snd].
    assert (Hshift : forall t2 e, raised_out_of_adb t2 e -> raised_out_of_adb (t1 ++ t2) e).
    { intros t2 e (pre & x & y & ->). exists (t1 ++ pre)%list, x, y.
      rewrite app_assoc. reflexivity. }
    destruct a as [b |];
      unfold Comp.captcha_coordinate_fallback, bind, try_catch, cmd, subprocess_run,
        elem_location, elem_size, call, get_screen_size, ret;
      repeat case_call;
      (split; [discriminate |]);
      (split;
       [ intros ? He0; try discriminate He0;
         first [ left; assumption
               | right; apply Hshift; injection He0 as <-;
                 unfold raised_out_of_adb; show_last_event ]
       | intros Ht; try discriminate Ht;
         apply ends_with_returned_press_app; show_last_press ]).
  - destruct (comp_captcha_lookup_never_raises s) as [a Ha].
    rewrite Hm in Ha. discriminate Ha.
Qed.

Lemma new_step6_captcha_outcomes (s : state W) :
  let out := New.step6_captcha s in
  (result_of out = Ret false ->
   (exists by_ value timeout c, In (EvPresence by_ value timeout (Ret c)) (trace_of out)) /\
   tier_outcomes (trace_of out) = [(1%nat, false); (3%nat, false)]) /\
  (result_of out = Ret true -> ends_with_returned_press (trace_of out)).
Proof.
  cbv zeta. unfold New.step6_captcha, New._safe, wait_presence, raise.
  unfold_long_press.
  repeat case_call;
    (split;
     [ intros H; try discriminate H;
       (split; [do 4 eexists; simpl; auto | reflexivity])
     | intros H; try discriminate H; show_last_press ]).
Qed.

(** C10, as the code has it.  In comp.py the CAPTCHA step never returns
    False: it returns True on every path on which it returns, whatever
    exit status adb reports, and it raises only out of the final
    coordinate-based adb call (or when no window size is stored).  In
    new.py the step hands back the result of long_press_15s_strong when
    a CAPTCHA element is found: it returns False on the paths on which
    an element was found and every tier raised, the native long click
    and the adb swipe being the two that reach the device.  In both
    files a returned True follows a press of 15000 ms that returned. *)
Theorem step6_captcha_failure_reports (s : state W) :
  (result_of (Comp.step6_captcha s) <> Ret false /\
   (forall e, result_of (Comp.step6_captcha s) = Exc e ->
              screen_size (state_of (Comp.step6_captcha s)) = None \/
              raised_out_of_adb (trace_of (Comp.step6_captcha s)) e) /\
   (result_of (Comp.step6_captcha s) = Ret true ->
    ends_with_returned_press (trace_of (Comp.step6_captcha s)))) /\
  ((result_of (New.step6_captcha s) = Ret false ->
    (exists by_ value timeout c,
       In (EvPresence by_ value timeout (Ret c)) (trace_of (New.step6_captcha s))) /\
    tier_outcomes (trace_of (New.step6_captcha s)) = [(1%nat, false); (3%nat, false)]) /\
   (result_of (New.step6_captcha s) = Ret true ->
    ends_with_returned_press (trace_of (New.step6_captcha s)))).
Proof.
  split.
  - exact (comp_step6_captcha_returns_true s).
  - exact (new_step6_captcha_outcomes s).
Qed.

End Captcha.

(** The CAPTCHA element is found, the driver's long click is not
    supported and adb is missing: new.py's step reports failure. *)
Lemma new_step6_captcha_reports_failure :
  result_of (New.step6_captcha (B := Mock.scripted Mock.no_gesture_works) Mock.start)
    = Ret false.
Proof. vm_compute. reflexivity. Qed.

Lemma step6_captcha_failure_reports_witness :
  result_of (New.step6_captcha (B := Mock.scripted Mock.no_gesture_works) Mock.start)
    = Ret false /\
  tier_outcomes
    (trace_of (New.step6_captcha (B := Mock.scripted Mock.no_gesture_works) Mock.start))
    = [(1%nat, false); (3%nat, false)].
Proof.
  split.
  - vm_compute. reflexivity.
  - apply (step6_captcha_failure_reports (B := Mock.scripted Mock.no_gesture_works)
             Mock.start).
    vm_compute. reflexivity.
Defined.

(** ** The orchestrator *)

Section Orchestrator.
Context {W : Type} {B : Backend W}.

Lemma verdicts_app (a b : list run_event) :
  verdicts (a ++ b) = (verdicts a ++ verdicts b)%list.
Proof. unfold verdicts. apply flat_map_app. Qed.

Lemma started_app (a b : list run_event) :
  started (a ++ b) = (started a ++ started b)%list.
Proof. unfold started. apply flat_map_app. Qed.

Lemma verdicts_in_step (n : string) (t : list event) : verdicts (map (InStep n) t) = [].
Proof. induction t as [| ev t IH]; simpl; auto. Qed.

Lemma started_in_step (n : string) (t : list event) : started (map (InStep n) t) = [].
Proof. induction t as [| ev t IH]; simpl; auto. Qed.

(** One pass of the runner's loop, against one step of [orchestrate]. *)
Lemma run_step_outcome (st : step W) (s : state W) :
  exists t,
    CompRunner.run_step st s
      = (Ret (if step_passed st s then None
              else if CompRunner.critical (fst st) then Some false else None),
         state_of (snd st s), t) /\
    verdicts t = [(fst st, step_passed st s)] /\
    started t = [fst st].
Proof.
  destruct st as [n fn]. unfold CompRunner.run_step, step_passed. simpl fst. simpl snd.
  unfold bind, try_catch, relabel, console, ret.
  destruct (fn s) as [[[[|] | e] s1] t0]; cbn [result_of state_of fst snd];
    destruct (CompRunner.critical n); cbn [negb];
    eexists; (split; [reflexivity |]);
    simpl; rewrite ?verdicts_app, ?started_app, ?verdicts_in_step, ?started_in_step;
    split; reflexivity.
Qed.

Lemma run_loop_refines (steps : list (step W)) (s : state W) :
  exists t,
    for_each steps CompRunner.run_step s
      = (Ret (if snd (fst (orchestrate CompRunner.critical steps s)) then None
              else Some false),
         snd (orchestrate CompRunner.critical steps s), t) /\
    verdicts t = fst (fst (orchestrate CompRunner.critical steps s)) /\
    started t = map fst (verdicts t).
Proof.
  revert s. induction steps as [| st rest IH]; intros s.
  - exists []. simpl. auto.
  - simpl for_each. unfold bind.
    destruct (run_step_outcome st s) as (t0 & Heq & Hv & Hs). rewrite Heq.
    simpl orchestrate.
    destruct (step_passed st s).
    + destruct (IH (state_of (snd st s))) as (t1 & Heq1 & Hv1 & Hs1). rewrite Heq1.
      destruct (orchestrate CompRunner.critical rest (state_of (snd st s)))
        as [[log ok] s'].
      exists (t0 ++ t1)%list. simpl in *.
      rewrite verdicts_app, started_app, Hv, Hs, Hv1, Hs1, <- Hv1. auto.
    + destruct (CompRunner.critical (fst st)).
      * exists (t0 ++ [])%list. simpl. rewrite app_nil_r, Hv, Hs. auto.
      * destruct (IH (state_of (snd st s))) as (t1 & Heq1 & Hv1 & Hs1). rewrite Heq1.
        destruct (orchestrate CompRunner.critical rest (state_of (snd st s)))
          as [[log ok] s'].
        exists (t0 ++ t1)%list. simpl in *.
        rewrite verdicts_app, started_app, Hv, Hs, Hv1, Hs1, <- Hv1. auto.
Qed.

Lemma run_steps_refines (steps : list (step W)) (s : state W) :
  exists t,
    CompRunner.run_steps steps s
      = (Ret (snd (fst (orchestrate CompRunner.critical steps s))),
         snd (orchestrate CompRunner.critical steps s), t) /\
    verdicts t = fst (fst (orchestrate CompRunner.critical steps s)) /\
    started t = map fst (verdicts t).
Proof.
  unfold CompRunner.run_steps, bind.
  destruct (run_loop_refines steps s) as (t & Heq & Hv & Hs). rewrite Heq.
  destruct (snd (fst (orchestrate CompRunner.critical steps s))).
  - exists (t ++ [Console LogAutomationSuccess] ++ [])%list. simpl.
    split; [reflexivity |].
    rewrite verdicts_app, started_app. simpl. rewrite !app_nil_r. auto.
  - exists (t ++ [])%list. simpl. rewrite app_nil_r. auto.
Qed.

End Orchestrator.

Section OrchestratorPolicy.
Context {W : Type}.
Variable critical : string -> bool.

Lemma orchestrate_in_order (steps : list (step W)) (s : state W) :
  let log := fst (fst (orchestrate critical steps s)) in
  map fst log = firstn (List.length log) (map fst steps).
Proof.
  revert s. induction steps as [| st rest IH]; intros s; simpl; auto.
  destruct (step_passed st s); [| destruct (critical (fst st))];
    try (specialize (IH (state_of (snd st s)));
         destruct (orchestrate critical rest (state_of (snd st s))) as [[log ok] s'];
         simpl in *; rewrite IH; reflexivity).
  reflexivity.
Qed.

Lemma orchestrate_abort (steps : list (step W)) (s : state W) (i : nat) (n : string) :
  let log := fst (fst (orchestrate critical steps s)) in
  nth_error log i = Some (n, false) -> critical n = true ->
  List.length log = S i /\ snd (fst (orchestrate critical steps s)) = false.
Proof.
  revert s i. induction steps as [| st rest IH]; intros s i; simpl.
  - destruct i; discriminate.
  - destruct (step_passed st s) eqn:Hp; [| destruct (critical (fst st)) eqn:Hc].
    + specialize (IH (state_of (snd st s))).
      destruct (orchestrate critical rest (state_of (snd st s))) as [[log ok] s'].
      simpl in *. destruct i as [| i]; simpl; [discriminate |].
      intros Hn Hcr. destruct (IH i Hn Hcr) as [Hl Hok]. auto.
    + simpl. destruct i as [| i]; simpl; [auto | destruct i; discriminate].
    + specialize (IH (state_of (snd st s))).
      destruct (orchestrate critical rest (state_of (snd st s))) as [[log ok] s'].
      simpl in *. destruct i as [| i]; simpl.
      * intros Hn Hcr. injection Hn as Hn. subst n. congruence.
      * intros Hn Hcr. destruct (IH i Hn Hcr) as [Hl Hok]. auto.
Qed.

Lemma orchestrate_continue (steps : list (step W)) (s : state W) (i : nat)
    (n : string) (b : bool) :
  let log := fst (fst (orchestrate critical steps s)) in
  nth_error log i = Some (n, b) -> b = true \/ critical n = false ->
  (S i < List.length steps)%nat -> (S i < List.length log)%nat.
Proof.
  revert s i. induction steps as [| st rest IH]; intros s i; simpl.
  - destruct i; discriminate.
  - destruct (step_passed st s) eqn:Hp; [| destruct (critical (fst st)) eqn:Hc].
    + specialize (IH (state_of (snd st s))).
      assert (Hio := orchestrate_in_order rest (state_of (snd st s))).
      destruct (orchestrate critical rest (state_of (snd st s))) as [[log ok] s'] eqn:Ho.
      simpl in *. destruct i as [| i]; simpl.
      * intros _ _ Hlen. destruct rest as [| st' rest']; simpl in *; [lia |].
        destruct log; [| simpl; lia].
        exfalso. revert Ho. clear. simpl.
        destruct (step_passed st' (state_of (snd st s)));
          [| destruct (critical (fst st'))];
          try destruct (orchestrate critical rest' (state_of (snd st' (state_of (snd st s)))))
            as [[l o] z];
          discriminate.
      * intros Hn Hb Hlen. assert (S i < List.length log)%nat by (apply IH; auto; lia). lia.
    + simpl. destruct i as [| i]; simpl.
      * intros Hn [Hb | Hb]; injection Hn as Hn Hn'; subst; congruence.
      * destruct i; discriminate.
    + specialize (IH (state_of (snd st s))).
      destruct (orchestrate critical rest (state_of (snd st s))) as [[log ok] s'] eqn:Ho.
      simpl in *. destruct i as [| i]; simpl.
      * intros _ _ Hlen. destruct rest as [| st' rest']; simpl in *; [lia |].
        destruct log; [| simpl; lia].
        exfalso. revert Ho. clear. simpl.
        destruct (step_passed st' (state_of (snd st s)));
          [| destruct (critical (fst st'))];
          try destruct (orchestrate critical rest' (state_of (snd st' (state_of (snd st s)))))
            as [[l o] z];
          discriminate.
      * intros Hn Hb Hlen. assert (S i < List.length log)%nat by (apply IH; auto; lia). lia.
Qed.

Lemma orchestrate_overall (steps : list (step W)) (s : state W) :
  snd (fst (orchestrate critical steps s)) = true <->
  (forall n, In (n, false) (fst (fst (orchestrate critical steps s))) -> critical n = false).
Proof.
  revert s. induction steps as [| st rest IH]; intros s; simpl.
  - split; [intros _ n [] | reflexivity].
  - destruct (step_passed st s) eqn:Hp; [| destruct (critical (fst st)) eqn:Hc].
    + specialize (IH (state_of (snd st s))).
      destruct (orchestrate critical rest (state_of (snd st s))) as [[log ok] s'].
      simpl in *. rewrite IH. split.
      * intros H n [Hn | Hn]; [discriminate | auto].
      * intros H n Hn. apply H. auto.
    + simpl. split; [discriminate |].
      intros H. specialize (H (fst st) (or_introl eq_refl)). congruence.
    + specialize (IH (state_of (snd st s))).
      destruct (orchestrate critical rest (state_of (snd st s))) as [[log ok] s'].
      simpl in *. rewrite IH. split.
      * intros H n [Hn | Hn]; [injection Hn as <-; assumption | auto].
      * intros H n Hn. apply H. auto.
Qed.

Lemma step_passed_as_returned_false (st : step W) (s : state W) :
  step_passed (as_returned_false st) s = step_passed st s /\
  state_of (snd (as_returned_false st) s) = state_of (snd st s).
Proof.
  unfold step_passed, as_returned_false, try_catch, ret. simpl.
  destruct (snd st s) as [[[b | e] s1] t]; simpl; auto.
Qed.

Lemma orchestrate_as_returned_false (steps : list (step W)) (s : state W) :
  orchestrate critical (map as_returned_false steps) s = orchestrate critical steps s.
Proof.
  revert s. induction steps as [| st rest IH]; intros s; [reflexivity |].
  cbn -[as_returned_false].
  destruct (step_passed_as_returned_false st s) as [H1 H2].
  rewrite H1, H2, IH.
  change (fst (as_returned_false st)) with (fst st). reflexivity.
Qed.

End OrchestratorPolicy.

Section OrchestratorClaim.
Context {W : Type} {B : Backend W}.

(** C1.  The loop of run_fixed_automation is the orchestrator of the
    specification: it runs the steps strictly in order, each at most
    once, and prints one verdict per step it ran.  A step fails when
    it returns False or raises.  When a critical step (Welcome, Email,
    Password) fails, its verdict is the last one and the run returns
    False: no later step is executed.  When an optional step fails, the
    failure is recorded and the next step runs.  The run returns True
    exactly when no critical step failed.  Turning every raised
    exception into a returned False changes neither the log, nor the
    result, nor the state the run ends in. *)
Theorem run_steps_criticality_policy (steps : list (step W)) (s : state W) :
  let out := CompRunner.run_steps steps s in
  let log := verdicts (trace_of out) in
  (log, result_of out, state_of out)
    = (fst (fst (orchestrate CompRunner.critical steps s)),
       Ret (snd (fst (orchestrate CompRunner.critical steps s))),
       snd (orchestrate CompRunner.critical steps s)) /\
  started (trace_of out) = map fst log /\
  map fst log = firstn (List.length log) (map fst steps) /\
  (forall i n, nth_error log i = Some (n, false) -> CompRunner.critical n = true ->
               List.length log = S i /\ result_of out = Ret false) /\
  (forall i n b, nth_error log i = Some (n, b) ->
                 b = true \/ CompRunner.critical n = false ->
                 (S i < List.length steps)%nat -> (S i < List.length log)%nat) /\
  (result_of out = Ret true <->
   forall n, In (n, false) log -> CompRunner.critical n = false) /\
  (let out' := CompRunner.run_steps (map as_returned_false steps) s in
   verdicts (trace_of out') = log /\
   result_of out' = result_of out /\
   state_of out' = state_of out).
Proof.
  cbv zeta.
  destruct (run_steps_refines steps s) as (t & Heq & Hv & Hs).
  destruct (run_steps_refines (map as_returned_false steps) s) as (t' & Heq' & Hv' & _).
  rewrite orchestrate_as_returned_false in Heq', Hv'.
  rewrite Heq, Heq'. cbn [result_of state_of trace_of fst snd]. rewrite Hv', Hv.
  split; [reflexivity |].
  split; [rewrite <- Hv; exact Hs |].
  split; [apply orchestrate_in_order |].
  split.
  { intros i n Hn Hc.
    destruct (orchestrate_abort CompRunner.critical steps s i n Hn Hc) as [Hl Hok].
    rewrite Hok. auto. }
  split; [intros i n b; apply orchestrate_continue |].
  split; [| auto].
  rewrite <- orchestrate_overall. split; [intros H; injection H; auto | intros ->; reflexivity].
Qed.

End OrchestratorClaim.

(** The two runs of the specification's testable properties: a failing
    critical step hides the step after it; a failing optional step does
    not, and the run still succeeds. *)
Lemma critical_failure_aborts_example :
  let out := CompRunner.run_steps
               [("Welcome", ret false); ("Details", ret true)]%string Mock.start in
  verdicts (trace_of out) = [("Welcome", false)]%string /\ result_of out = Ret false.
Proof. vm_compute. auto. Qed.

Lemma optional_failure_continues_example :
  let out := CompRunner.run_steps
               [("Details", raise WebDriverException); ("Email", ret true)]%string
               Mock.start in
  verdicts (trace_of out) = [("Details", false); ("Email", true)]%string /\
  result_of out = Ret true.
Proof. vm_compute. auto. Qed.

(** ** Session teardown *)

(** C8 at its failing input.  The Appium session is created and the
    server then refuses update_settings.  new.py's setup returns False
    and run returns False before entering its try/finally: the session
    was opened and driver.quit() is never called.  On the same backend
    comp.py's run_fixed_automation, whose setup is inside the try, does
    call driver.quit() once. *)
Theorem new_run_leaks_session_when_setup_fails (flow steps : list (step unit)) :
  let leaking := New.run (B := Mock.scripted Mock.settings_refused) flow Mock.fresh in
  let closing := CompRunner.run_fixed_automation (B := Mock.scripted Mock.settings_refused)
                   steps Mock.fresh in
  (result_of leaking = Ret false /\
   sessions_opened (trace_of leaking) = 1%nat /\
   quits (trace_of leaking) = 0%nat) /\
  (result_of closing = Ret false /\
   sessions_opened (trace_of closing) = 1%nat /\
   quits (trace_of closing) = 1%nat).
Proof. vm_compute. auto 10. Qed.

(** ** The dropdown selector of main.py *)

Section Dropdown.
Context {W : Type} {B : Backend W}.

Lemma lookups_of_app (a b : list event) :
  lookups_of (a ++ b) = (lookups_of a ++ lookups_of b)%list.
Proof. unfold lookups_of. apply flat_map_app. Qed.

Lemma scrolls_of_app (a b : list event) :
  scrolls_of (a ++ b) = (scrolls_of a ++ scrolls_of b)%list.
Proof. unfold scrolls_of. apply flat_map_app. Qed.

Lemma ends_with_returned_click_app (a b : list event) :
  ends_with_returned_click b -> ends_with_returned_click (a ++ b).
Proof.
  intros (pre & o & ->). exists (a ++ pre)%list, o. apply app_assoc.
Qed.

Lemma ends_raised_app (a b : list event) : ends_raised b -> ends_raised (a ++ b).
Proof.
  intros (pre & ev & -> & Hr). exists (a ++ pre)%list, ev. split; [apply app_assoc | exact Hr].
Qed.

Lemma ends_with_returned_click_cons (ev : event) (b : list event) :
  ends_with_returned_click b -> ends_with_returned_click (ev :: b).
Proof. apply (ends_with_returned_click_app [ev]). Qed.

Lemma ends_raised_cons (ev : event) (b : list event) :
  ends_raised b -> ends_raised (ev :: b).
Proof. apply (ends_raised_app [ev]). Qed.

(** Looking one option up and clicking it: one lookup, no scroll; it
    selects, or finds nothing, or raises with the raising call last. *)
Lemma pick_option_shape by_ selector timeout (s : state W) :
  exists r s' t,
    Main.pick_option by_ selector timeout s = (r, s', t) /\
    lookups_of t = [(by_, selector, timeout)] /\
    scrolls_of t = [] /\
    ((r = Ret (Some true) /\ ends_with_returned_click t) \/
     r = Ret None \/
     (exists e, r = Exc e /\ ends_raised t)).
Proof.
  unfold Main.pick_option, Main.find_element_safely, wait_presence, bind, try_catch,
    cmd, call, raise, ret.
  destruct (presence by_ selector timeout (world s)) as [[o | e] w1]; cbn [world with_world].
  - destruct (command_ (Click o) w1) as [[[] | e] w2]; simpl;
      eexists; eexists; eexists; (split; [reflexivity |]);
      (split; [reflexivity |]); (split; [reflexivity |]).
    + left. split; [reflexivity |].
      exists [EvPresence by_ selector timeout (Ret o)], o. reflexivity.
    + right. right. exists e. split; [reflexivity |].
      exists [EvPresence by_ selector timeout (Ret o)], (EvCmd (Click o) (Exc e)).
      split; reflexivity.
  - destruct e; simpl;
      eexists; eexists; eexists; (split; [reflexivity |]);
      (split; [reflexivity |]); (split; [reflexivity |]);
      try (right; left; reflexivity);
      right; right; eexists; (split; [reflexivity |]);
      exists []; eexists; split; reflexivity.
Qed.

(** The first pass: a strategy that finds nothing or raises is skipped. *)
Lemma tolerant_pass_shape (methods : list (locator_kind * string)) (s : state W) :
  exists o s' t,
    for_each methods
      (fun '(by_, selector) =>
         try_catch (Main.pick_option by_ selector 3) (fun _ => ret None)) s
      = (Ret o, s', t) /\
    scrolls_of t = [] /\
    ((o = Some true /\ ends_with_returned_click t /\
      exists n, lookups_of t = firstn n (lookup_pass 3 methods)) \/
     (o = None /\ lookups_of t = lookup_pass 3 methods)).
Proof.
  revert s. induction methods as [| [by_ selector] rest IH]; intros s.
  - exists None, s, []. simpl. auto.
  - simpl for_each. unfold bind at 1. unfold try_catch at 1.
    destruct (pick_option_shape by_ selector 3 s) as (r & s1 & t1 & Heq & Hl & Hs & Hr).
    rewrite Heq.
    destruct Hr as [[-> Hc] | [-> | (e & -> & _)]].
    + exists (Some true), s1, (t1 ++ [])%list.
      split; [reflexivity |]. rewrite app_nil_r. split; [assumption |]. left.
      split; [reflexivity |]. split; [assumption |].
      exists 1%nat. rewrite Hl. reflexivity.
    + destruct (IH s1) as (o & s' & t & Heq' & Hs' & Ho). rewrite Heq'.
      exists o, s', (t1 ++ t)%list.
      split; [reflexivity |]. rewrite scrolls_of_app, Hs, Hs'. split; [reflexivity |].
      rewrite lookups_of_app, Hl.
      destruct Ho as [(-> & Hc & n & Hn) | [-> Hn]].
      * left. split; [reflexivity |]. split; [apply ends_with_returned_click_app; assumption |].
        exists (S n). rewrite Hn. reflexivity.
      * right. rewrite Hn. auto.
    + unfold ret at 1. destruct (IH s1) as (o & s' & t & Heq' & Hs' & Ho).
      simpl. rewrite Heq'.
      exists o, s', ((t1 ++ []) ++ t)%list.
      split; [reflexivity |]. rewrite app_nil_r.
      rewrite scrolls_of_app, Hs, Hs'. split; [reflexivity |].
      rewrite lookups_of_app, Hl.
      destruct Ho as [(-> & Hc & n & Hn) | [-> Hn]].
      * left. split; [reflexivity |]. split; [apply ends_with_returned_click_app; assumption |].
        exists (S n). rewrite Hn. reflexivity.
      * right. rewrite Hn. auto.
Qed.

(** The second pass: the first call that raises ends it. *)
Lemma strict_pass_shape (methods : list (locator_kind * string)) (s : state W) :
  exists r s' t,
    for_each methods (fun '(by_, selector) => Main.pick_option by_ selector 2) s
      = (r, s', t) /\
    scrolls_of t = [] /\
    (exists n, lookups_of t = firstn n (lookup_pass 2 methods)) /\
    ((r = Ret (Some true) /\ ends_with_returned_click t) \/
     (r = Ret None /\ lookups_of t = lookup_pass 2 methods) \/
     (exists e, r = Exc e /\ ends_raised t)).
Proof.
  revert s. induction methods as [| [by_ selector] rest IH]; intros s.
  - exists (Ret None), s, []. simpl. repeat split; auto. exists 0%nat. reflexivity.
  - simpl for_each. unfold bind at 1.
    destruct (pick_option_shape by_ selector 2 s) as (r & s1 & t1 & Heq & Hl & Hs & Hr).
    rewrite Heq.
    destruct Hr as [[-> Hc] | [-> | (e & -> & He)]].
    + exists (Ret (Some true)), s1, (t1 ++ [])%list.
      split; [reflexivity |]. rewrite app_nil_r. split; [assumption |].
      split; [exists 1%nat; rewrite Hl; reflexivity |]. left. auto.
    + destruct (IH s1) as (r & s' & t & Heq' & Hs' & (n & Hn) & Hr). rewrite Heq'.
      exists r, s', (t1 ++ t)%list.
      split; [reflexivity |]. rewrite scrolls_of_app, Hs, Hs'. split; [reflexivity |].
      rewrite lookups_of_app, Hl.
      split; [exists (S n); rewrite Hn; reflexivity |].
      destruct Hr as [[-> Hc] | [[-> Hf] | (e & -> & He)]].
      * left. split; [reflexivity | apply ends_with_returned_click_app; assumption].
      * right. left. rewrite Hf. auto.
      * right. right. exists e. split; [reflexivity | apply ends_raised_app; assumption].
    + exists (Exc e), s1, t1.
      split; [reflexivity |]. split; [assumption |].
      split; [exists 1%nat; rewrite Hl; reflexivity |].
      right. right. exists e. auto.
Qed.

End Dropdown.

Section DropdownClaim.
Context {W : Type} {B : Backend W}.

(** The passes of select_dropdown_option, on every backend.  It never
    raises.  When the opening tap raises it returns False at once.
    Otherwise it looks the option up by exact text, substring text and
    substring content-desc, in that order and with a 3 s wait, going on
    to the next strategy when a lookup finds nothing and when a lookup
    or a click raises.  It returns True as soon as a click returns.
    When the first pass selects nothing it issues exactly one scroll
    and looks the option up again, in the same order with a 2 s wait,
    and returns False when nothing was selected. *)
Lemma select_dropdown_option_passes
    (dropdown_element : handle) (target_value description : string) (s : state W) :
  let methods := Main.selection_methods target_value in
  let scroll := Swipe 540 800 540 600 1000 in
  exists b s' t,
    Main.select_dropdown_option dropdown_element target_value description s
      = (Ret b, s', t) /\
    ((b = false /\ exists e, t = [EvCmd (Click dropdown_element) (Exc e)]) \/
     (b = true /\ scrolls_of t = [] /\
      (exists n, lookups_of t = firstn n (lookup_pass 3 methods)) /\
      ends_with_returned_click t) \/
     (b = true /\ scrolls_of t = [scroll] /\
      (exists n, lookups_of t
                 = (lookup_pass 3 methods ++ firstn n (lookup_pass 2 methods))%list) /\
      ends_with_returned_click t) \/
     (b = false /\ scrolls_of t = [scroll] /\
      lookups_of t = (lookup_pass 3 methods ++ lookup_pass 2 methods)%list) \/
     (b = false /\ scrolls_of t = [scroll] /\
      (exists n, lookups_of t
                 = (lookup_pass 3 methods ++ firstn n (lookup_pass 2 methods))%list) /\
      ends_raised t)).
Proof.
  cbv zeta. unfold Main.select_dropdown_option.
  remember (Main.selection_methods target_value) as methods eqn:Hm. clear Hm.
  unfold try_catch at 1. unfold bind at 1. unfold cmd at 1. unfold call at 1.
  destruct (command_ (Click dropdown_element) (world s)) as [[[] | e] w1].
  2:{ exists false. eexists. eexists. split; [reflexivity |]. left. split; [reflexivity |].
      exists e. reflexivity. }
  unfold bind at 1.
  destruct (tolerant_pass_shape methods (with_world s w1))
    as (o & s1 & t1 & Heq & Hs1 & Ho).
  rewrite Heq.
  destruct Ho as [(-> & Hc & n & Hn) | [-> Hn]].
  - exists true, s1, ([EvCmd (Click dropdown_element) (Ret tt)] ++ t1 ++ [])%list.
    split; [reflexivity |]. rewrite app_nil_r. right. left.
    split; [reflexivity |]. split; [simpl; assumption |].
    split; [exists n; simpl; assumption |].
    apply ends_with_returned_click_cons. assumption.
  - unfold bind at 1. unfold try_catch at 1. unfold bind at 1. unfold cmd at 1.
    unfold call at 1.
    destruct (command_ (Swipe 540 800 540 600 1000) (world s1)) as [[[] | e] w2].
    + destruct (strict_pass_shape methods (with_world s1 w2))
        as (r & s2 & t2 & Heq2 & Hs2 & (n & Hn2) & Hr).
      rewrite Heq2.
      destruct Hr as [[-> Hc] | [[-> Hf] | (e & -> & He)]].
      * exists true; eexists; eexists.
        split; [cbv beta iota delta [ret]; reflexivity |]. right. right. left.
        split; [reflexivity |].
        rewrite !scrolls_of_app, !lookups_of_app, Hs1, Hs2, Hn, Hn2. simpl.
        rewrite !app_nil_r.
        split; [reflexivity |]. split; [exists n; reflexivity |].
        apply ends_with_returned_click_cons, ends_with_returned_click_app,
          ends_with_returned_click_cons. assumption.
      * exists false; eexists; eexists.
        split; [cbv beta iota delta [ret]; reflexivity |]. right. right. right. left.
        split; [reflexivity |].
        rewrite !scrolls_of_app, !lookups_of_app, Hs1, Hs2, Hn, Hf. simpl.
        rewrite !app_nil_r. split; reflexivity.
      * exists false; eexists; eexists.
        split; [cbv beta iota delta [ret]; reflexivity |]. right. right. right. right.
        split; [reflexivity |].
        rewrite !scrolls_of_app, !lookups_of_app, Hs1, Hs2, Hn, Hn2. simpl.
        rewrite !app_nil_r.
        split; [reflexivity |]. split; [exists n; reflexivity |].
        apply ends_raised_cons, ends_raised_app, ends_raised_cons. assumption.
    + exists false; eexists; eexists.
        split; [cbv beta iota delta [ret]; reflexivity |]. right. right. right. right.
      split; [reflexivity |].
      rewrite !scrolls_of_app, !lookups_of_app, Hs1, Hn. simpl.
      rewrite !app_nil_r.
      split; [reflexivity |]. split; [exists 0%nat; simpl; rewrite app_nil_r; reflexivity |].
      apply ends_raised_cons, ends_raised_app.
      exists [], (EvCmd (Swipe 540 800 540 600 1000) (Exc e)). split; reflexivity.
Qed.

End DropdownClaim.

(** C7 at its failing input.  The month picker renders its rows after
    the scroll.  In the second pass the exact-text lookup finds a row
    whose click raises a stale-element error; that ends the pass: the
    substring strategies are not tried, although the substring-text
    lookup would find a row that can be clicked, and the function
    returns False.  When the same answers are met in the first pass
    (the rows are rendered from the start), the loop goes on after the
    raise and selects the row through the substring-text strategy. *)
Theorem second_pass_stops_at_first_raise :
  let methods := Main.selection_methods "June" in
  let after_scroll := Main.select_dropdown_option (B := Mock.picker)
                        1%nat "June" "Month dropdown" (Mock.picker_at false) in
  let rendered := Main.select_dropdown_option (B := Mock.picker)
                    1%nat "June" "Month dropdown" (Mock.picker_at true) in
  (result_of after_scroll = Ret false /\
   trace_of after_scroll
     = [EvCmd (Click 1%nat) (Ret tt);
        EvPresence XPATH "//*[@text='June']" 3 (Exc TimeoutException);
        EvPresence XPATH "//*[contains(@text, 'June')]" 3 (Exc TimeoutException);
        EvPresence XPATH "//*[contains(@content-desc, 'June')]" 3 (Exc TimeoutException);
        EvCmd (Swipe 540 800 540 600 1000) (Ret tt);
        EvPresence XPATH "//*[@text='June']" 2 (Ret 5%nat);
        EvCmd (Click 5%nat) (Exc StaleElementReferenceException)] /\
   lookups_of (trace_of after_scroll)
     = (lookup_pass 3 methods ++ firstn 1 (lookup_pass 2 methods))%list /\
   fst (presence (Backend := Mock.picker) XPATH "//*[contains(@text, 'June')]" 2 true)
     = Ret 6%nat /\
   fst (command_ (Backend := Mock.picker) (Click 6%nat) true) = Ret tt) /\
  (result_of rendered = Ret true /\
   trace_of rendered
     = [EvCmd (Click 1%nat) (Ret tt);
        EvPresence XPATH "//*[@text='June']" 3 (Ret 5%nat);
        EvCmd (Click 5%nat) (Exc StaleElementReferenceException);
        EvPresence XPATH "//*[contains(@text, 'June')]" 3 (Ret 6%nat);
        EvCmd (Click 6%nat) (Ret tt)]).
Proof. vm_compute. repeat split. Qed.

(** Nothing matches and nothing raises: both passes run in full. *)
Lemma unmatched_after_both_passes_example :
  let out := Main.select_dropdown_option (B := Mock.scripted Mock.no_option)
               1%nat "June" "Month dropdown" Mock.start in
  let methods := Main.selection_methods "June" in
  result_of out = Ret false /\
  scrolls_of (trace_of out) = [Swipe 540 800 540 600 1000] /\
  lookups_of (trace_of out) = (lookup_pass 3 methods ++ lookup_pass 2 methods)%list.
Proof. vm_compute. auto. Qed.

(** ** Typing twice into the mock text field *)

Section RunLaws.
Context {W T : Type}.

Lemma bind_returns {A C} (m : M W T A) (k : A -> M W T C) (s : state W) (a : A) :
  result_of (m s) = Ret a ->
  result_of (bind m k s) = result_of (k a (state_of (m s))) /\
  state_of (bind m k s) = state_of (k a (state_of (m s))).
Proof.
  unfold bind. destruct (m s) as [[r s1] t1]. unfold result_of, state_of. simpl. intros ->.
  destruct (k a s1) as [[r2 s2] t2]. auto.
Qed.

Lemma try_catch_returns {A} (m : M W T A) (h : exn -> M W T A) (s : state W) (a : A) :
  result_of (m s) = Ret a ->
  result_of (try_catch m h s) = Ret a /\
  state_of (try_catch m h s) = state_of (m s).
Proof.
  unfold try_catch. destruct (m s) as [[r s1] t1]. unfold result_of, state_of. simpl. intros ->. auto.
Qed.

Lemma try_catch_raises {A} (m : M W T A) (h : exn -> M W T A) (s : state W) (e : exn) :
  result_of (m s) = Exc e ->
  result_of (try_catch m h s) = result_of (h e (state_of (m s))) /\
  state_of (try_catch m h s) = state_of (h e (state_of (m s))).
Proof.
  unfold try_catch. destruct (m s) as [[r s1] t1]. unfold result_of, state_of. simpl. intros ->.
  destruct (h e s1) as [[r2 s2] t2]. auto.
Qed.

End RunLaws.

Module FieldFacts.
Import Mock.

Lemma backspace_length (s : string) :
  String.length (backspace s) = Nat.pred (String.length s).
Proof.
  induction s as [| c rest IH]; simpl; auto.
  destruct rest as [| c' rest']; simpl in *; auto.
Qed.

Lemma iter_backspace_length (n : nat) (s : string) :
  String.length (Nat.iter n backspace s) = (String.length s - n)%nat.
Proof.
  induction n as [| n IH]; simpl.
  - lia.
  - rewrite backspace_length, IH. lia.
Qed.

Lemma iter_backspace_all (n : nat) (s : string) :
  (String.length s <= n)%nat -> Nat.iter n backspace s = EmptyString.
Proof.
  intros H. assert (Hl := iter_backspace_length n s).
  destruct (Nat.iter n backspace s); [reflexivity |]. simpl in Hl. lia.
Qed.

Lemma press_del_repeatedly (n : nat) (c : string) (cf sf : bool) :
  let out := repeat_ n (cmd (B := text_field) (PressKeycode 67))
               (showing (mkField c cf sf)) in
  result_of out = Ret tt /\
  state_of out = showing (mkField (Nat.iter n backspace c) cf sf).
Proof.
  revert c. induction n as [| n IH]; intros c.
  - simpl. auto.
  - cbv zeta. change (repeat_ (S n) (cmd (B := text_field) (PressKeycode 67)))
      with (bind (cmd (B := text_field) (PressKeycode 67))
              (fun _ => repeat_ n (cmd (B := text_field) (PressKeycode 67)))).
    destruct (bind_returns (cmd (B := text_field) (PressKeycode 67))
                (fun _ => repeat_ n (cmd (B := text_field) (PressKeycode 67)))
                (showing (mkField c cf sf)) tt eq_refl) as [Hr Hs].
    rewrite Hr, Hs.
    change (state_of (cmd (B := text_field) (PressKeycode 67) (showing (mkField c cf sf))))
      with (showing (mkField (backspace c) cf sf)).
    destruct (IH (backspace c)) as [Hr' Hs']. rewrite Hr', Hs'.
    rewrite <- Nat.iter_succ_r. auto.
Qed.

(** What the clearing step leaves in the field. *)
Lemma clear_field_on_mock (el : handle) (description : string) (c : string) (cf sf : bool) :
  let out := Comp.clear_field (B := text_field) el description (showing (mkField c cf sf)) in
  result_of out = Ret tt /\
  state_of out
    = showing (mkField (if Comp.year_like description
                        then Nat.iter 15 backspace c else EmptyString) cf sf).
Proof.
  cbv zeta. unfold Comp.clear_field. destruct (Comp.year_like description).
  - apply press_del_repeatedly.
  - destruct cf.
    + match goal with
      | |- context [try_catch ?m ?h ?s] =>
          destruct (try_catch_raises m h s WebDriverException eq_refl) as [Hr Hs]
      end.
      rewrite Hr, Hs. clear Hr Hs.
      change (state_of (cmd (B := text_field) (Clear el) (showing (mkField c true sf))))
        with (showing (mkField c true sf)).
      match goal with
      | |- context [bind ?m ?k ?s] =>
          destruct (bind_returns m k s (Some c) eq_refl) as [Hr Hs]
      end.
      rewrite Hr, Hs. clear Hr Hs.
      change (state_of (elem_get_text (B := text_field) el (showing (mkField c true sf))))
        with (showing (mkField c true sf)).
      change (Comp.text_or_empty (Some c)) with c.
      destruct (press_del_repeatedly (String.length c + 5) c true sf) as [Hr Hs].
      cbv zeta in Hr, Hs. rewrite Hr, Hs, iter_backspace_all by lia. auto.
    + simpl. auto.
Qed.

Lemma input_text_on_mock (el : handle) (text : string) (c : string) (cf sf : bool) :
  let out := Comp.input_text (B := text_field) el text (showing (mkField c cf sf)) in
  result_of out = Ret true /\
  state_of out = showing (mkField (c ++ text) cf sf).
Proof. destruct sf; simpl; auto. Qed.

Ltac bind_step H :=
  match goal with
  | |- context [bind ?m ?k ?s] =>
      destruct (bind_returns m k s _ H) as [?Hr ?Hs]
  end;
  match goal with
  | Hr : result_of _ = _, Hs : state_of _ = _ |- _ => rewrite Hr, Hs; clear Hr Hs
  end;
  cbv beta iota.

Lemma type_attempt_on_mock (by_ : locator_kind) (value text description : string)
    (c : string) (cf sf : bool) :
  let out := Comp.type_attempt (B := text_field) by_ value text description
               (showing (mkField c cf sf)) in
  result_of out = Ret (Some true) /\
  state_of out
    = showing (mkField ((if Comp.year_like description
                         then Nat.iter 15 backspace c else EmptyString) ++ text) cf sf).
Proof.
  cbv zeta.
  destruct (clear_field_on_mock 1%nat description c cf sf) as [Hcr Hcs].
  cbv zeta in Hcr, Hcs.
  set (c' := if Comp.year_like description then Nat.iter 15 backspace c else EmptyString) in *.
  destruct (input_text_on_mock 1%nat text c' cf sf) as [Hir His].
  cbv zeta in Hir, His.
  unfold Comp.type_attempt.
  match goal with
  | |- context [try_catch ?m ?h ?s] =>
      assert (Hbody : result_of (m s) = Ret (Some true) /\
                      state_of (m s) = showing (mkField (c' ++ text) cf sf))
  end.
  { assert (Hfind : result_of (Comp.find_element_bulletproof (B := text_field) by_ value 8 3
                                 (showing (mkField c cf sf))) = Ret (Some 1%nat))
      by reflexivity.
    bind_step Hfind.
    change (state_of (Comp.find_element_bulletproof (B := text_field) by_ value 8 3
                        (showing (mkField c cf sf))))
      with (showing (mkField c cf sf)).
    assert (Hclick : result_of (cmd (B := text_field) (Click 1%nat)
                                  (showing (mkField c cf sf))) = Ret tt)
      by reflexivity.
    bind_step Hclick.
    change (state_of (cmd (B := text_field) (Click 1%nat) (showing (mkField c cf sf))))
      with (showing (mkField c cf sf)).
    bind_step Hcr. rewrite Hcs.
    bind_step Hir. rewrite His.
    auto. }
  destruct Hbody as [Hbr Hbs].
  match goal with
  | |- context [try_catch ?m ?h ?s] =>
      destruct (try_catch_returns m h s _ Hbr) as [Hr Hs]
  end.
  rewrite Hr, Hs, Hbs. auto.
Qed.

Lemma type_text_on_mock (by_ : locator_kind) (value text description : string)
    (c : string) (cf sf : bool) :
  let out := Comp.type_text_bulletproof (B := text_field) by_ value text description
               (showing (mkField c cf sf)) in
  result_of out = Ret true /\
  state_of out
    = showing (mkField ((if Comp.year_like description
                         then Nat.iter 15 backspace c else EmptyString) ++ text) cf sf).
Proof.
  cbv zeta.
  destruct (type_attempt_on_mock by_ value text description c cf sf) as [Har Has].
  cbv zeta in Har, Has.
  unfold Comp.type_text_bulletproof, range. simpl seq. simpl for_each.
  assert (Hloop : forall k : option bool -> M field event (option bool),
             result_of (bind (Comp.type_attempt (B := text_field) by_ value text description)
                          (fun r => match r with Some a => ret (Some a) | None => k r end)
                          (showing (mkField c cf sf))) = Ret (Some true) /\
             state_of (bind (Comp.type_attempt (B := text_field) by_ value text description)
                          (fun r => match r with Some a => ret (Some a) | None => k r end)
                          (showing (mkField c cf sf)))
               = state_of (Comp.type_attempt (B := text_field) by_ value text description
                             (showing (mkField c cf sf)))).
  { intros k. bind_step Har. auto. }
  match goal with
  | |- context [bind (bind ?m ?k1) ?k2 ?s] =>
      destruct (bind_returns (bind m k1) k2 s (Some true)) as [Hr Hs]
  end.
  { apply (Hloop (fun _ => _)). }
  rewrite Hr, Hs. cbv beta iota.
  match goal with
  | |- context [state_of (bind ?m ?k1 ?s)] =>
      replace (state_of (bind m k1 s)) with
        (state_of (Comp.type_attempt (B := text_field) by_ value text description
                     (showing (mkField c cf sf))))
        by (symmetry; apply (Hloop (fun _ => _)))
  end.
  rewrite Has. auto.
Qed.

Lemma length_append (a b : string) :
  String.length (a ++ b) = (String.length a + String.length b)%nat.
Proof. induction a as [| ch a IH]; simpl; auto. Qed.

End FieldFacts.




(** ** Teardown in comp.py, on every backend *)

Section Teardown.
Context {W : Type} {B : Backend W}.

Lemma emits_relabel {T T' A} (P : T' -> Prop) (f : T -> T') (m : M W T A) :
  (forall ev, P (f ev)) -> emits P (relabel f m).
Proof.
  intros H s. unfold relabel. destruct (m s) as [[r s1] t1]. simpl.
  induction t1 as [| ev t IH]; simpl; constructor; auto.
Qed.

Lemma no_session_counts (t : list run_event) :
  Forall not_session t -> quits t = 0%nat /\ sessions_opened t = 0%nat.
Proof.
  unfold quits, sessions_opened.
  induction 1 as [| ev t Hev _ [IHq IHs]]; simpl; auto.
  destruct ev; simpl in *; try contradiction; auto.
Qed.

Lemma counts_app (a b : list run_event) :
  quits (a ++ b) = (quits a + quits b)%nat /\
  sessions_opened (a ++ b) = (sessions_opened a + sessions_opened b)%nat.
Proof.
  unfold quits, sessions_opened. rewrite !filter_app, !length_app. auto.
Qed.

Lemma emits_console (P : run_event -> Prop) (l : log_line) :
  P (Console l) -> emits (W := W) P (console l).
Proof. intros H s. repeat constructor. exact H. Qed.

Lemma run_steps_no_session (steps : list (step W)) :
  emits not_session (CompRunner.run_steps steps).
Proof.
  unfold CompRunner.run_steps.
  apply emits_bind.
  - apply emits_for_each. intros [n fn]. unfold CompRunner.run_step.
    repeat first [ apply emits_relabel; intros; exact I
                 | apply emits_console; exact I
                 | emits_step ].
  - intros [b |]; [apply emits_ret |].
    apply emits_bind; [apply emits_console; exact I | intros; apply emits_ret].
Qed.

Lemma orchestrate_keeps_driver (steps : list (step W)) (s : state W) :
  steps_keep_driver steps ->
  driver (snd (orchestrate CompRunner.critical steps s)) = driver s.
Proof.
  intros H. revert s. induction H as [| st rest Hst _ IH]; intros s; simpl; auto.
  destruct (step_passed st s); [| destruct (CompRunner.critical (fst st))];
    try (specialize (IH (state_of (snd st s)));
         destruct (orchestrate CompRunner.critical rest (state_of (snd st s)))
           as [[log ok] s'];
         simpl in *; rewrite IH; apply Hst).
  simpl. apply Hst.
Qed.

Lemma comp_setup_driver_session (s : state W) :
  driver s = false ->
  exists b s1 t,
    relabel Session (Comp.setup_driver (B := B)) s = (Ret b, s1, t) /\
    quits t = 0%nat /\
    ((sessions_opened t = 1%nat /\ driver s1 = true) \/
     (sessions_opened t = 0%nat /\ driver s1 = false /\ b = false)).
Proof.
  intros Hd.
  unfold relabel, Comp.setup_driver, try_catch, bind, webdriver_Remote, cmd,
    get_window_size, call, set_driver, set_screen_size, ret.
  destruct (remote (world s)) as [[[] | e] w1]; cbn [world with_world app].
  - destruct (command_ UpdateSettings w1) as [[[] | e] w2]; cbn [world with_world app].
    + destruct (window_size w2) as [[sz | e] w3]; cbn [world with_world app];
        eexists; eexists; eexists; (split; [reflexivity |]); simpl; auto.
    + eexists; eexists; eexists; (split; [reflexivity |]); simpl; auto.
  - eexists; eexists; eexists. split; [reflexivity |]. simpl. rewrite Hd. auto.
Qed.

(** comp.py tears the session down on every path: whatever the backend
    and the steps do, run_fixed_automation calls driver.quit() once
    when the session was created and not at all otherwise. *)
Lemma comp_run_quits_once_per_session (steps : list (step W)) (s : state W) :
  driver s = false -> steps_keep_driver steps ->
  exists r s' t,
    CompRunner.run_fixed_automation steps s = (r, s', t) /\
    quits t = sessions_opened t /\
    (sessions_opened t <= 1)%nat.
Proof.
  intros Hd Hk.
  unfold CompRunner.run_fixed_automation, finally.
  unfold try_catch at 1. unfold bind at 1.
  destruct (comp_setup_driver_session s Hd) as (b & s1 & t1 & Heq & Hq & Hs).
  rewrite Heq.
  assert (Hbody : exists r s2 t2,
             (if negb b then ret false else CompRunner.run_steps steps) s1 = (Ret r, s2, t2) /\
             driver s2 = driver s1 /\ quits t2 = 0%nat /\ sessions_opened t2 = 0%nat).
  { destruct b; simpl.
    - destruct (run_steps_refines steps s1) as (t & Heq' & _).
      assert (Hn := run_steps_no_session steps s1). rewrite Heq' in Hn. simpl in Hn.
      destruct (no_session_counts _ Hn) as [Hq' Hs'].
      eexists; eexists; eexists. split; [exact Heq' |].
      split; [apply orchestrate_keeps_driver; assumption | auto].
    - exists false, s1, []. auto. }
  destruct Hbody as (r & s2 & t2 & Heq2 & Hd2 & Hq2 & Hs2). rewrite Heq2.
  unfold bind, get_driver. cbn [fst snd].
  destruct (counts_app t1 t2) as [Hqa Hsa].
  destruct Hs as [[Hs Hd1] | (Hs & Hd1 & _)]; rewrite Hd2, Hd1.
  - unfold try_catch, relabel, cmd, call.
    destruct (command_ DriverQuit (world s2)) as [[[] | e] w3];
      cbn [map app];
      eexists; eexists; eexists; (split; [reflexivity |]);
      match goal with
      | |- context [quits ((t1 ++ t2) ++ ?l)] =>
          destruct (counts_app (t1 ++ t2) l) as [Hq3 Hs3]
      end;
      rewrite Hq3, Hs3, Hqa, Hsa, Hq, Hq2, Hs, Hs2;
      unfold quits, sessions_opened; simpl; lia.
  - eexists; eexists; eexists. split; [reflexivity |].
    destruct (counts_app (t1 ++ t2) []) as [Hq3 Hs3].
    cbn [app]. rewrite Hq3, Hs3, Hqa, Hsa, Hq, Hq2, Hs, Hs2.
    unfold quits, sessions_opened. simpl. lia.
Qed.

End Teardown.

(** ** Set-up and the runner of comp.py, on every backend *)

Section Finally.
Context {W T : Type}.

Lemma never_raises_finally {A} (m : M W T A) (cleanup : M W T unit) :
  never_raises m -> never_raises cleanup -> never_raises (finally m cleanup).
Proof.
  intros Hm Hc s. unfold finally. destruct (Hm s) as [a Ha].
  destruct (m s) as [[r s1] t1]. unfold result_of in Ha. simpl in Ha. subst r.
  destruct (Hc s1) as [u Hu]. destruct (cleanup s1) as [[r2 s2] t2].
  unfold result_of in Hu. simpl in Hu. subst r2. exists a. reflexivity.
Qed.

Lemma never_raises_relabel {T' A} (f : T -> T') (m : M W T A) :
  never_raises m -> never_raises (relabel f m).
Proof.
  intros Hm s. unfold relabel. destruct (Hm s) as [a Ha].
  destruct (m s) as [[r s1] t1]. exists a. exact Ha.
Qed.

End Finally.

Section CompSetup.
Context {W : Type} {B : Backend W}.

Lemma setup_driver_cases (s : state W) :
  exists b s1 t,
    Comp.setup_driver s = (Ret b, s1, t) /\
    ((b = true /\
      exists sz, t = [EvRemote (Ret tt); EvCmd UpdateSettings (Ret tt);
                      EvWindowSize (Ret sz)] /\
                 driver s1 = true /\ screen_size s1 = Some sz) \/
     (b = false /\
      exists e, t = [EvRemote (Exc e)] /\
                driver s1 = driver s /\ screen_size s1 = screen_size s) \/
     (b = false /\
      exists e, t = [EvRemote (Ret tt); EvCmd UpdateSettings (Exc e)] /\
                driver s1 = true /\ screen_size s1 = screen_size s) \/
     (b = false /\
      exists e, t = [EvRemote (Ret tt); EvCmd UpdateSettings (Ret tt);
                     EvWindowSize (Exc e)] /\
                driver s1 = true /\ screen_size s1 = screen_size s)).
Proof.
  unfold Comp.setup_driver, try_catch, bind, webdriver_Remote, cmd,
    get_window_size, call, set_driver, set_screen_size, ret.
  destruct (remote (world s)) as [[[] | e] w1]; cbn [world with_world app].
  - destruct (command_ UpdateSettings w1) as [[[] | e] w2]; cbn [world with_world app].
    + destruct (window_size w2) as [[sz | e] w3]; cbn [world with_world app];
        eexists; eexists; eexists; (split; [reflexivity |]).
      * left. split; [reflexivity |]. exists sz. simpl. auto.
      * right. right. right. split; [reflexivity |]. exists e. simpl. auto.
    + eexists; eexists; eexists; (split; [reflexivity |]).
      right. right. left. split; [reflexivity |]. exists e. simpl. auto.
  - eexists; eexists; eexists; (split; [reflexivity |]).
    right. left. split; [reflexivity |]. exists e. simpl. auto.
Qed.

(** X1.  setup_driver of comp.py never raises.  It returns True only
    after webdriver.Remote, update_settings and get_window_size all
    returned, and then [self.driver] and [self.screen_size] are set.
    When the session was created and a later call raised, it returns
    False with [self.driver] set: a session exists that the caller has
    to close. *)
Theorem setup_driver_outcomes (s : state W) :
  exists b s1 t,
    Comp.setup_driver s = (Ret b, s1, t) /\
    ((b = true /\
      exists sz, t = [EvRemote (Ret tt); EvCmd UpdateSettings (Ret tt);
                      EvWindowSize (Ret sz)] /\
                 driver s1 = true /\ screen_size s1 = Some sz) \/
     (b = false /\
      exists e, t = [EvRemote (Exc e)] /\
                driver s1 = driver s /\ screen_size s1 = screen_size s) \/
     (b = false /\
      exists e, t = [EvRemote (Ret tt); EvCmd UpdateSettings (Exc e)] /\
                driver s1 = true /\ screen_size s1 = screen_size s) \/
     (b = false /\
      exists e, t = [EvRemote (Ret tt); EvCmd UpdateSettings (Ret tt);
                     EvWindowSize (Exc e)] /\
                driver s1 = true /\ screen_size s1 = screen_size s)).
Proof. exact (setup_driver_cases s). Qed.

Lemma setup_driver_never_raises : never_raises (Comp.setup_driver (B := B)).
Proof.
  intros s. destruct (setup_driver_cases s) as (b & s1 & t & Heq & _).
  rewrite Heq. exists b. reflexivity.
Qed.

Lemma run_steps_never_raises (steps : list (step W)) :
  never_raises (CompRunner.run_steps steps).
Proof.
  intros s. destruct (run_steps_refines steps s) as (t & Heq & _).
  rewrite Heq. eexists. reflexivity.
Qed.

Lemma run_fixed_automation_try_never_raises (steps : list (step W)) :
  never_raises (CompRunner.run_fixed_automation steps).
Proof.
  unfold CompRunner.run_fixed_automation.
  apply never_raises_finally.
  - apply never_raises_try_catch. intros e.
    apply never_raises_bind; [| intros; apply never_raises_ret].
    intros s. exists tt. reflexivity.
  - apply never_raises_bind; [intros s; eexists; reflexivity |].
    intros [|]; [| apply never_raises_ret].
    apply never_raises_try_catch. intros; apply never_raises_ret.
Qed.

Lemma subscript_found {T V} (user_data : list (string * V)) (key : string) (s : state W) :
  has_key user_data key = true ->
  exists v, CompRunner.subscript (T := T) user_data key s = (Ret v, s, []).
Proof.
  unfold has_key, CompRunner.subscript.
  induction user_data as [| item rest IH]; cbn [existsb find]; [discriminate |].
  destruct (String.eqb (fst item) key); [intros _; eexists; reflexivity | exact IH].
Qed.

Lemma subscript_missing {T V} (user_data : list (string * V)) (key : string) (s : state W) :
  has_key user_data key = false ->
  CompRunner.subscript (T := T) user_data key s = (Exc OtherException, s, []).
Proof.
  unfold has_key, CompRunner.subscript.
  induction user_data as [| item rest IH]; cbn [existsb find]; [reflexivity |].
  destruct (String.eqb (fst item) key); [discriminate | exact IH].
Qed.

Lemma print_header_outcome {V} (user_data : list (string * V)) (s : state W) :
  CompRunner.print_header user_data s
  = if (has_key user_data "username" && has_key user_data "password")%bool
    then (Ret tt, s, [])
    else (Exc OtherException, s, []).
Proof.
  unfold CompRunner.print_header, bind.
  destruct (has_key user_data "username") eqn:Hu; cbn [andb].
  - destruct (subscript_found (T := run_event) user_data "username" s Hu) as [u Hu'].
    rewrite Hu'.
    destruct (has_key user_data "password") eqn:Hp.
    + destruct (subscript_found (T := run_event) user_data "password" s Hp) as [pw Hp'].
      rewrite Hp'. reflexivity.
    + rewrite (subscript_missing (T := run_event) user_data "password" s Hp). reflexivity.
  - rewrite (subscript_missing (T := run_event) user_data "username" s Hu). reflexivity.
Qed.

Lemma from_entry_outcome {V} (user_data : list (string * V)) (steps : list (step W))
    (s : state W) :
  CompRunner.run_fixed_automation_from_entry user_data steps s
  = if (has_key user_data "username" && has_key user_data "password")%bool
    then (result_of (CompRunner.run_fixed_automation steps s),
          state_of (CompRunner.run_fixed_automation steps s),
          trace_of (CompRunner.run_fixed_automation steps s))
    else (Exc OtherException, s, []).
Proof.
  unfold CompRunner.run_fixed_automation_from_entry, bind.
  rewrite print_header_outcome.
  destruct (has_key user_data "username" && has_key user_data "password")%bool;
    [| reflexivity].
  destruct (CompRunner.run_fixed_automation steps s) as [[r s'] t]. reflexivity.
Qed.

(** X2.  run_fixed_automation raises only out of its header.  When
    user_data has the keys 'username' and 'password' the run is that of
    the [try] statement and the caller gets a boolean, whatever the
    steps and the backend do, a raising driver.quit() included.  When
    one of the two keys is missing the KeyError of the header leaves
    the method before the [try] statement is entered: no session is
    opened and no step is run. *)
Theorem run_fixed_automation_raises_only_from_header
    {V : Type} (user_data : list (string * V)) (steps : list (step W)) (s : state W) :
  let out := CompRunner.run_fixed_automation_from_entry user_data steps s in
  if (has_key user_data "username" && has_key user_data "password")%bool
  then out = CompRunner.run_fixed_automation steps s /\
       exists b, result_of out = Ret b
  else out = (Exc OtherException, s, []).
Proof.
  cbv zeta. rewrite from_entry_outcome.
  destruct (has_key user_data "username" && has_key user_data "password")%bool;
    [| reflexivity].
  destruct (run_fixed_automation_try_never_raises steps s) as [b Hb].
  split; [| exists b; exact Hb].
  destruct (CompRunner.run_fixed_automation steps s) as [[r s'] t]. reflexivity.
Qed.

Lemma setups_completed_app (a b : list run_event) :
  setups_completed (a ++ b) = (setups_completed a + setups_completed b)%nat.
Proof. unfold setups_completed. rewrite filter_app, length_app. reflexivity. Qed.

Lemma no_session_no_setup (t : list run_event) :
  Forall not_session t -> setups_completed t = 0%nat.
Proof.
  unfold setups_completed. induction 1 as [| ev t Hev _ IH]; simpl; auto.
  destruct ev; simpl in *; try contradiction; auto.
Qed.

Lemma session_only_log (t : list event) :
  started (map Session t) = [] /\ verdicts (map Session t) = [].
Proof. induction t as [| ev t [IH1 IH2]]; simpl; auto. Qed.

(** The run, piece by piece: the set-up, the steps if it succeeded, and
    the teardown. *)
Lemma run_fixed_automation_pieces (steps : list (step W)) (s : state W) :
  exists b s1 t1 r s2 t2 s3 t3,
    Comp.setup_driver s = (Ret b, s1, t1) /\
    (if b then CompRunner.run_steps steps s1 else (Ret false, s1, [])) = (Ret r, s2, t2) /\
    CompRunner.run_fixed_automation steps s = (Ret r, s3, (map Session t1 ++ t2) ++ t3) /\
    Forall (fun ev => exists q, ev = Session (EvCmd DriverQuit q)) t3.
Proof.
  destruct (setup_driver_cases s) as (b & s1 & t1 & Heq & _).
  assert (Hbody : exists r s2 t2,
             (if b then CompRunner.run_steps steps s1 else (Ret false, s1, []))
               = (Ret r, s2, t2)).
  { destruct b; [| eauto].
    destruct (run_steps_refines steps s1) as (t & Heq' & _). eauto. }
  destruct Hbody as (r & s2 & t2 & Heq2).
  unfold CompRunner.run_fixed_automation, finally.
  unfold try_catch at 1. unfold bind at 1. unfold relabel at 1. rewrite Heq.
  assert (Hbody' : (if negb b then ret false else CompRunner.run_steps steps) s1
                   = (Ret r, s2, t2)).
  { destruct b; exact Heq2. }
  rewrite Hbody'.
  unfold bind, get_driver. cbn [fst snd].
  destruct (driver s2).
  - unfold try_catch, relabel, cmd, call.
    destruct (command_ DriverQuit (world s2)) as [[[] | e] w3]; cbn [map app];
      do 8 eexists; (split; [reflexivity |]); (split; [exact Heq2 |]);
      (split; [reflexivity |]); repeat constructor; eexists; reflexivity.
  - do 8 eexists. split; [reflexivity |]. split; [exact Heq2 |].
    split; [reflexivity |]. constructor.
Qed.

End CompSetup.

Section CompRunResult.
Context {W : Type} {B : Backend W}.

Lemma quit_only_log (t : list run_event) :
  Forall (fun ev => exists q, ev = Session (EvCmd DriverQuit q)) t ->
  started t = [] /\ verdicts t = [] /\ setups_completed t = 0%nat.
Proof.
  induction 1 as [| ev t [q ->] _ (IH1 & IH2 & IH3)]; simpl; auto.
Qed.

(** X3.  What the result of run_fixed_automation means.  No step is
    started unless the set-up completed (session created, settings
    updated, window size read).  The run returns True only when the
    set-up completed and every step that failed was an optional one. *)
Theorem run_fixed_automation_result (steps : list (step W)) (s : state W) :
  exists b s' t,
    CompRunner.run_fixed_automation steps s = (Ret b, s', t) /\
    (started t = [] \/ setups_completed t = 1%nat) /\
    (b = true ->
     setups_completed t = 1%nat /\
     forall n, In (n, false) (verdicts t) -> CompRunner.critical n = false).
Proof.
  destruct (run_fixed_automation_pieces steps s)
    as (b & s1 & t1 & r & s2 & t2 & s3 & t3 & Hsetup & Hbody & Hrun & Hquit).
  exists r, s3, ((map Session t1 ++ t2) ++ t3)%list. split; [exact Hrun |].
  destruct (quit_only_log t3 Hquit) as (Hs3 & Hv3 & Hc3).
  destruct (session_only_log t1) as [Hs1 Hv1].
  rewrite !started_app, !verdicts_app, !setups_completed_app, Hs1, Hv1, Hs3, Hv3, Hc3.
  rewrite !app_nil_r. cbn [app].
  destruct (setup_driver_cases s) as (b' & s1' & t1' & Heq & Hcases).
  rewrite Hsetup in Heq. injection Heq as <- <- <-.
  destruct b.
  - destruct Hcases as [(_ & sz & -> & _) | [(Hf & _) | [(Hf & _) | (Hf & _)]]];
      try discriminate Hf.
    assert (Hn := run_steps_no_session steps s1). rewrite Hbody in Hn.
    cbn [trace_of snd] in Hn. rewrite (no_session_no_setup t2 Hn).
    split; [right; reflexivity |]. intros ->. split; [reflexivity |].
    destruct (run_steps_refines steps s1) as (t & Heq' & Hv & _).
    rewrite Hbody in Heq'. injection Heq' as Hr _ <-.
    rewrite Hv. apply orchestrate_overall. auto.
  - injection Hbody as <- _ <-. split; [left; reflexivity | discriminate].
Qed.

End CompRunResult.

(** X4.  comp.py's runner calls driver.quit() once for every session it
    created and never otherwise, on every backend and for all steps
    that leave [self.driver] alone, starting from a fresh object. *)
Theorem run_fixed_automation_quits_once_per_session
    {W : Type} {B : Backend W} (steps : list (step W)) (s : state W) :
  driver s = false -> steps_keep_driver steps ->
  exists r s' t,
    CompRunner.run_fixed_automation steps s = (r, s', t) /\
    quits t = sessions_opened t /\
    (sessions_opened t <= 1)%nat.
Proof. apply comp_run_quits_once_per_session. Qed.

Lemma run_fixed_automation_quits_once_per_session_witness :
  driver Mock.fresh = false /\
  steps_keep_driver [("Welcome"%string, ret (W := unit) (T := event) true)] /\
  exists r s' t,
    CompRunner.run_fixed_automation (B := Mock.scripted Mock.responsive)
      [("Welcome"%string, ret true)] Mock.fresh = (r, s', t) /\
    quits t = sessions_opened t /\
    (sessions_opened t <= 1)%nat.
Proof.
  split; [reflexivity |]. split.
  - constructor; [intros s; reflexivity | constructor].
  - apply (run_fixed_automation_quits_once_per_session
             (B := Mock.scripted Mock.responsive)).
    + reflexivity.
    + constructor; [intros s; reflexivity | constructor].
Defined.


(** Two finishing tactics: an equation between traces written with
    different bracketings, and a [Forall] over a trace assembled from
    pieces that are known to satisfy it. *)
Ltac trace_eq :=
  cbn [app ret fst snd];
  repeat rewrite app_nil_r;
  repeat rewrite <- app_assoc;
  cbn [app];
  repeat rewrite <- app_assoc;
  reflexivity.

Ltac all_hold :=
  cbn [app ret fst snd trace_of];
  rewrite ?app_nil_r;
  repeat match goal with
         | H : Forall _ (_ :: _) |- _ => apply Forall_cons_iff in H; destruct H
         end;
  repeat first [ assumption
               | apply Forall_nil
               | apply Forall_app; split
               | apply Forall_cons
               | exact I
               | reflexivity ].

(** ** Typing and the Next button (comp.py), on every backend *)

Section TypingOutcome.
Context {W : Type} {B : Backend W}.

Lemma find_element_bulletproof_run (P : event -> Prop) by_ value timeout n (s : state W) :
  (forall el r, P (EvIsDisplayed el r)) ->
  (forall b v t r, P (EvFindElements b v t r)) ->
  exists o s1 t1,
    Comp.find_element_bulletproof by_ value timeout n s = (Ret o, s1, t1) /\
    Forall P t1.
Proof.
  intros Hd Hf.
  assert (He := find_element_bulletproof_emits P by_ value timeout n Hd Hf s).
  destruct (find_element_bulletproof_passes by_ value timeout n s)
    as (s1 & passes & Heq & _).
  rewrite Heq in He. cbn [trace_of snd] in He. eauto.
Qed.

Lemma clear_field_no_typing (el : handle) (description : string) :
  emits no_typing (Comp.clear_field el description).
Proof.
  unfold Comp.clear_field, cmd, elem_get_text.
  repeat first [ apply emits_call; intros []; exact I | emits_step ].
Qed.

Lemma type_attempt_outcome by_ value text description (s : state W) :
  exists o s' t,
    Comp.type_attempt by_ value text description s = (Ret o, s', t) /\
    ((o = Some true /\
      exists pre ev, t = (pre ++ [ev])%list /\ is_typing text ev /\ Forall no_typing pre) \/
     (o <> Some true /\ Forall no_typing t)).
Proof.
  unfold Comp.type_attempt. unfold try_catch at 1. unfold bind at 1.
  destruct (find_element_bulletproof_run no_typing by_ value 8 3 s)
    as (o & s1 & t1 & Heq & Hf); try (intros; exact I).
  rewrite Heq. destruct o as [el |].
  2:{ eexists; eexists; eexists. split; [reflexivity |]. right.
      split; [discriminate | all_hold]. }
  unfold bind at 1. unfold cmd at 1. unfold call at 1.
  destruct (command_ (Click el) (world s1)) as [[[] | e] w2].
  2:{ eexists; eexists; eexists. split; [reflexivity |]. right.
      split; [discriminate | all_hold]. }
  unfold bind at 1.
  assert (Hc := clear_field_no_typing el description (with_world s1 w2)).
  destruct (Comp.clear_field el description (with_world s1 w2)) as [[[[] | e] s3] t3];
    cbn [trace_of snd] in Hc.
  2:{ eexists; eexists; eexists. split; [reflexivity |]. right.
      split; [discriminate | all_hold]. }
  unfold bind at 1. unfold Comp.input_text, try_catch, bind, cmd, subprocess_run, call.
  destruct (command_ (SendKeys el text) (world s3)) as [[[] | e] w4].
  - eexists; eexists; eexists. split; [reflexivity |]. left. split; [reflexivity |].
    exists (t1 ++ EvCmd (Click el) (Ret tt) :: t3)%list, (EvCmd (SendKeys el text) (Ret tt)).
    split; [trace_eq | split; [reflexivity | all_hold]].
  - cbn [world with_world].
    destruct (adb (InputText text) w4) as [[status | e'] w5].
    + eexists; eexists; eexists. split; [reflexivity |]. left. split; [reflexivity |].
      exists (t1 ++ EvCmd (Click el) (Ret tt) :: t3 ++ [EvCmd (SendKeys el text) (Exc e)])%list,
        (EvAdb (InputText text) (Ret status)).
      split; [trace_eq | split; [reflexivity | all_hold]].
    + eexists; eexists; eexists. split; [reflexivity |]. right.
      split; [discriminate | all_hold].
Qed.

Lemma type_loop_outcome by_ value text description (xs : list nat) (s : state W) :
  exists o s' t,
    for_each xs (fun _ => Comp.type_attempt by_ value text description) s
      = (Ret o, s', t) /\
    ((o = Some true /\
      exists pre ev, t = (pre ++ [ev])%list /\ is_typing text ev /\ Forall no_typing pre) \/
     (o <> Some true /\ Forall no_typing t)).
Proof.
  revert s. induction xs as [| x rest IH]; intros s.
  - exists None, s, []. split; [reflexivity |]. right. split; [discriminate | constructor].
  - simpl for_each. unfold bind at 1.
    destruct (type_attempt_outcome by_ value text description s)
      as (o1 & s1 & t1 & Heq & H1).
    rewrite Heq. destruct o1 as [b |].
    + exists (Some b), s1, (t1 ++ [])%list. split; [reflexivity |].
      rewrite app_nil_r. exact H1.
    + destruct (IH s1) as (o & s' & t & Heq' & H2). rewrite Heq'.
      exists o, s', (t1 ++ t)%list. split; [reflexivity |].
      destruct H1 as [(Hc & _) | (_ & Hn1)]; [discriminate Hc |].
      destruct H2 as [(-> & pre & ev & -> & Hty & Hpre) | (Hne & Hn2)].
      * left. split; [reflexivity |]. exists (t1 ++ pre)%list, ev.
        split; [apply app_assoc |]. split; [assumption |].
        apply Forall_app. auto.
      * right. split; [assumption |]. apply Forall_app. auto.
Qed.

Lemma type_text_bulletproof_outcome by_ value text description (s : state W) :
  exists b s' t,
    Comp.type_text_bulletproof by_ value text description s = (Ret b, s', t) /\
    ((b = true /\
      exists pre ev, t = (pre ++ [ev])%list /\ is_typing text ev /\ Forall no_typing pre) \/
     (b = false /\ Forall no_typing t)).
Proof.
  unfold Comp.type_text_bulletproof, bind.
  destruct (type_loop_outcome by_ value text description (range 3) s)
    as (o & s' & t & Heq & H).
  rewrite Heq.
  destruct H as [(-> & Hty) | (Hne & Hn)].
  - exists true, s', (t ++ [])%list. split; [reflexivity |]. rewrite app_nil_r. auto.
  - destruct o as [[|] |]; try (exfalso; apply Hne; reflexivity);
      exists false, s', (t ++ [])%list; (split; [reflexivity |]);
      rewrite app_nil_r; auto.
Qed.

(** X5.  type_text_bulletproof never raises, and its result says
    whether the text was handed over: it returns True exactly when its
    last call was a [send_keys] that returned or an [adb shell input
    text] that ran (whatever exit status adb reported), with no typing
    before it; when it returns False no typing call completed. *)
Theorem type_text_bulletproof_reports_typing
    (by_ : locator_kind) (value text description : string) (s : state W) :
  exists b s' t,
    Comp.type_text_bulletproof by_ value text description s = (Ret b, s', t) /\
    ((b = true /\
      exists pre ev, t = (pre ++ [ev])%list /\ is_typing text ev /\ Forall no_typing pre) \/
     (b = false /\ Forall no_typing t)).
Proof. exact (type_text_bulletproof_outcome by_ value text description s). Qed.

End TypingOutcome.

Section NextButton.
Context {W : Type} {B : Backend W}.

Lemma find_element_bulletproof_starts by_ value timeout n (s : state W) :
  exists o s1 r rest,
    Comp.find_element_bulletproof by_ value timeout (S n) s
      = (Ret o, s1, EvFindElements by_ value timeout r :: rest) /\
    Forall no_key_no_click (EvFindElements by_ value timeout r :: rest).
Proof.
  assert (He := find_element_bulletproof_emits no_key_no_click by_ value timeout (S n)
                  (fun _ _ => I) (fun _ _ _ _ => I) s).
  destruct (Comp.find_element_bulletproof by_ value timeout (S n) s)
    as [[ro s1] t1] eqn:Heq.
  cbn [trace_of snd] in He.
  assert (Hshape : exists o r rest,
             ro = Ret o /\ t1 = EvFindElements by_ value timeout r :: rest).
  { revert Heq.
    unfold Comp.find_element_bulletproof, Comp.find_elements_bulletproof, range.
    simpl seq. simpl for_each. unfold bind at 1 2 3.
    destruct (find_elements_attempt_pass by_ value timeout s)
      as (o1 & s2 & block & Heq1 & (r & checks & -> & _) & _).
    rewrite Heq1.
    destruct o1 as [visible |].
    - cbn [ret app]. intros Heq. injection Heq as <- <- <-.
      do 3 eexists. split; reflexivity.
    - destruct (for_each (seq 1 n)
                  (fun _ => Comp.find_elements_attempt by_ value timeout) s2)
        as [[[o2 | e] s3] t3] eqn:Hrest.
      + destruct o2 as [visible |]; cbn [ret app]; intros Heq;
          injection Heq as <- <- <-; do 3 eexists; split; reflexivity.
      + exfalso.
        assert (Hnr : never_raises
                        (for_each (seq 1 n)
                           (fun _ => Comp.find_elements_attempt by_ value timeout))).
        { apply never_raises_for_each. intros _ s0.
          destruct (find_elements_attempt_pass by_ value timeout s0)
            as (o0 & s0' & b0 & Heq0 & _).
          rewrite Heq0. eexists. reflexivity. }
        destruct (Hnr s2) as [a Ha]. rewrite Hrest in Ha. discriminate Ha. }
  destruct Hshape as (o & r & rest & -> & ->).
  exists o, s1, r, rest. auto.
Qed.

Lemma click_attempt_outcome by_ value (s : state W) :
  exists o s' r rest,
    Comp.click_attempt by_ value s = (Ret o, s', EvFindElements by_ value 8 r :: rest) /\
    ((o = Some true /\ ends_with_first_click (EvFindElements by_ value 8 r :: rest)) \/
     (o <> Some true /\ Forall no_key_no_click (EvFindElements by_ value 8 r :: rest))).
Proof.
  unfold Comp.click_attempt. unfold try_catch at 1. unfold bind at 1.
  destruct (find_element_bulletproof_starts by_ value 8 2 s)
    as (o & s1 & r & rest & Heq & Hf).
  rewrite Heq. destruct o as [el |].
  2:{ do 4 eexists. split; [reflexivity |]. right.
      split; [discriminate | all_hold]. }
  unfold bind, cmd, call.
  destruct (command_ (Click el) (world s1)) as [[[] | e] w2].
  - do 4 eexists. split; [reflexivity |]. left. split; [reflexivity |].
    exists (EvFindElements by_ value 8 r :: rest), el. split; [trace_eq | assumption].
  - do 4 eexists. split; [reflexivity |]. right.
    split; [discriminate |].
    inversion Hf; subst. all_hold.
Qed.

Lemma click_loop_outcome by_ value (xs : list nat) (s : state W) :
  exists o s' t,
    for_each xs (fun _ => Comp.click_attempt by_ value) s = (Ret o, s', t) /\
    (xs <> [] -> exists r rest, t = EvFindElements by_ value 8 r :: rest) /\
    ((o = Some true /\ ends_with_first_click t) \/
     (o <> Some true /\ Forall no_key_no_click t)).
Proof.
  revert s. induction xs as [| x rest IH]; intros s.
  - exists None, s, []. split; [reflexivity |].
    split; [intros H; contradiction |]. right. split; [discriminate | constructor].
  - simpl for_each. unfold bind at 1.
    destruct (click_attempt_outcome by_ value s) as (o1 & s1 & r & t1 & Heq & H1).
    rewrite Heq. destruct o1 as [b |].
    + do 3 eexists. split; [reflexivity |]. cbn [ret app]. rewrite app_nil_r.
      split; [intros _; eauto | exact H1].
    + destruct (IH s1) as (o & s' & t & Heq' & _ & H2). rewrite Heq'.
      do 3 eexists. split; [reflexivity |].
      split; [intros _; cbn [app]; eauto |].
      destruct H1 as [(Hc & _) | (_ & Hn1)]; [discriminate Hc |].
      destruct H2 as [(-> & pre & el & -> & Hpre) | (Hne & Hn2)].
      * left. split; [reflexivity |].
        exists ((EvFindElements by_ value 8 r :: t1) ++ pre)%list, el.
        split; [trace_eq | all_hold].
      * right. split; [assumption | all_hold].
Qed.

Lemma click_element_bulletproof_outcome by_ value description (s : state W) :
  exists b s' t,
    Comp.click_element_bulletproof by_ value description s = (Ret b, s', t) /\
    Exists (is_query by_ value) t /\
    ((b = true /\ ends_with_first_click t) \/
     (b = false /\ Forall no_key_no_click t)).
Proof.
  unfold Comp.click_element_bulletproof. unfold bind at 1.
  destruct (click_loop_outcome by_ value (range 3) s) as (o & s' & t & Heq & Hq & H).
  rewrite Heq.
  destruct Hq as (r & rest & ->); [discriminate |].
  assert (Hq : forall t', Exists (is_query by_ value) (EvFindElements by_ value 8 r :: t')).
  { intros t'. apply Exists_cons_hd. exists r. reflexivity. }
  destruct H as [(-> & Hc) | (Hne & Hn)].
  - do 3 eexists. split; [reflexivity |]. cbn [ret app]. split; [apply Hq |].
    left. split; [reflexivity |]. rewrite app_nil_r. exact Hc.
  - destruct o as [[|] |]; try (exfalso; apply Hne; reflexivity);
      do 3 eexists; (split; [reflexivity |]); cbn [ret app]; (split; [apply Hq |]);
      right; (split; [reflexivity |]); rewrite app_nil_r; exact Hn.
Qed.

Lemma next_loop_outcome (context : string) (strategies : list (locator_kind * string))
    (s : state W) :
  exists o s' t,
    for_each strategies
      (fun '(by_, selector) =>
         clicked <- Comp.click_element_bulletproof by_ selector
                      ("Next (" ++ context ++ ")")%string ;;
         if (clicked : bool) then ret (Some true) else ret None) s
      = (Ret o, s', t) /\
    ((o = Some true /\ ends_with_first_click t) \/
     (o = None /\ Forall no_key_no_click t /\
      forall by_ selector, In (by_, selector) strategies ->
                           Exists (is_query by_ selector) t)).
Proof.
  revert s. induction strategies as [| [by_ selector] rest IH]; intros s.
  - exists None, s, []. split; [reflexivity |]. right.
    split; [reflexivity |]. split; [constructor | intros ? ? []].
  - cbn [for_each]. unfold bind at 1. unfold bind at 1.
    destruct (click_element_bulletproof_outcome by_ selector
                ("Next (" ++ context ++ ")")%string s)
      as (b & s1 & t1 & Heq & Hq & H1).
    rewrite Heq.
    destruct H1 as [(-> & Hc) | (-> & Hn)].
    + do 3 eexists. split; [reflexivity |]. left. split; [reflexivity |].
      cbn [ret app fst snd]. rewrite !app_nil_r. exact Hc.
    + cbn [ret app fst snd].
      destruct (IH s1) as (o & s' & t & Heq' & H2). rewrite Heq'.
      do 3 eexists. split; [reflexivity |].
      destruct H2 as [(-> & pre & el & -> & Hpre) | (-> & Hn2 & Hall)].
      * left. split; [reflexivity |]. exists ((t1 ++ []) ++ pre)%list, el.
        split; [trace_eq | all_hold].
      * right. split; [reflexivity |]. split.
        { all_hold. }
        intros b' sel' [Hin | Hin].
        { injection Hin as <- <-. apply Exists_app. left. apply Exists_app. left. exact Hq. }
        { apply Exists_app. right. apply Hall. exact Hin. }
Qed.

Lemma click_next_production_outcome (context : string) (s : state W) :
  exists b s' t,
    CompSteps.click_next_production context s = (Ret b, s', t) /\
    next_outcome CompSteps.next_strategies b t.
Proof.
  unfold next_outcome, CompSteps.click_next_production. unfold bind at 1.
  destruct (next_loop_outcome context CompSteps.next_strategies s)
    as (o & s1 & t1 & Heq & H1).
  rewrite Heq.
  destruct H1 as [(-> & Hc) | (-> & Hn & Hall)].
  - do 3 eexists. split; [reflexivity |]. left. split; [reflexivity |].
    cbn [ret app fst snd]. rewrite app_nil_r. exact Hc.
  - unfold try_catch, bind, cmd, call.
    destruct (command_ (PressKeycode 66) (world s1)) as [[[] | e] w2].
    + do 3 eexists. split; [reflexivity |]. right. exists (Ret tt).
      split; [reflexivity |]. exists t1. split; [trace_eq | auto].
    + do 3 eexists. split; [reflexivity |]. right. exists (Exc e).
      split; [reflexivity |]. exists t1. split; [trace_eq | auto].
Qed.

(** X6.  click_next_production never raises.  It returns True as soon
    as one strategy's click returns, with no key pressed.  ENTER
    (keycode 66) is pressed at most once, as the last call, only after
    each of the three strategies was tried and no click returned; the
    result is then True when the key press returned and False when it
    raised. *)
Theorem click_next_production_enter_is_last_resort (context : string) (s : state W) :
  exists b s' t,
    CompSteps.click_next_production context s = (Ret b, s', t) /\
    next_outcome CompSteps.next_strategies b t.
Proof. exact (click_next_production_outcome context s). Qed.

End NextButton.

(** ** The form steps of comp.py, on every backend *)

Section FormSteps.
Context {W : Type} {B : Backend W}.

Lemma type_then_next_loop (text description context : string)
    (selectors : list (locator_kind * string)) (s : state W) :
  exists o s' t,
    for_each selectors
      (fun '(by_, selector) =>
         typed <- Comp.type_text_bulletproof by_ selector text description ;;
         if (typed : bool) then
           b <- CompSteps.click_next_production context ;; ret (Some b)
         else ret None) s
      = (Ret o, s', t) /\
    match o with
    | Some b => typed_then_next CompSteps.next_strategies text b t
    | None => Forall no_typing t
    end.
Proof.
  revert s. induction selectors as [| [by_ selector] rest IH]; intros s.
  - exists None, s, []. split; [reflexivity | constructor].
  - cbn [for_each]. unfold bind at 1. unfold bind at 1.
    destruct (type_text_bulletproof_outcome by_ selector text description s)
      as (b & s1 & t1 & Heq & H1).
    rewrite Heq.
    destruct H1 as [(-> & pre & ev & -> & Hty & Hpre) | (-> & Hn)].
    + unfold bind at 1.
      destruct (click_next_production_outcome context s1) as (b & s2 & t2 & Heq2 & H2).
      rewrite Heq2.
      exists (Some b). do 2 eexists. split; [reflexivity |].
      exists pre, ev, t2. split; [trace_eq | auto].
    + cbn [ret app fst snd].
      destruct (IH s1) as (o & s' & t & Heq' & H2). rewrite Heq'.
      exists o. do 2 eexists. split; [reflexivity |].
      destruct o as [b |].
      * destruct H2 as (pre & ev & post & -> & Hpre & Hty & Hnext).
        exists ((t1 ++ []) ++ pre)%list, ev, post. split; [trace_eq |].
        split; [all_hold | auto].
      * all_hold.
Qed.

Lemma type_then_next_step (text description context : string)
    (selectors : list (locator_kind * string)) (s : state W) :
  exists b s' t,
    (r <- for_each selectors
            (fun '(by_, selector) =>
               typed <- Comp.type_text_bulletproof by_ selector text description ;;
               if (typed : bool) then
                 b <- CompSteps.click_next_production context ;; ret (Some b)
               else ret None) ;;
     match r with
     | Some b => ret b
     | None => ret false
     end) s = (Ret b, s', t) /\
    ((b = false /\ Forall no_typing t) \/
     typed_then_next CompSteps.next_strategies text b t).
Proof.
  unfold bind at 1.
  destruct (type_then_next_loop text description context selectors s)
    as (o & s' & t & Heq & H).
  rewrite Heq. destruct o as [b |].
  - exists b, s', (t ++ [])%list. split; [reflexivity |].
    right. rewrite app_nil_r. exact H.
  - exists false, s', (t ++ [])%list. split; [reflexivity |].
    left. rewrite app_nil_r. auto.
Qed.

(** X7.  step2_email and step3_password never raise.  Either nothing
    was typed with any selector and the step returns False, or the text
    was handed over exactly once before Next is tried (by [send_keys],
    or by adb as fallback) and the step returns what
    click_next_production returns after it: True after the first click
    that returned, and otherwise whether the ENTER key could be
    pressed. *)
Theorem step2_step3_type_then_next (username password : string) (s : state W) :
  (exists b s' t,
     CompSteps.step2_email username s = (Ret b, s', t) /\
     ((b = false /\ Forall no_typing t) \/
      typed_then_next CompSteps.next_strategies username b t)) /\
  (exists b s' t,
     CompSteps.step3_password password s = (Ret b, s', t) /\
     ((b = false /\ Forall no_typing t) \/
      typed_then_next CompSteps.next_strategies password b t)).
Proof.
  split.
  - exact (type_then_next_step username "Email" "Email" CompSteps.email_selectors s).
  - exact (type_then_next_step password "Password" "Password"
             CompSteps.password_selectors s).
Qed.

End FormSteps.

(** ** Step 4 of comp.py (day, month, year), on every backend *)

Section Details.
Context {W : Type} {B : Backend W}.

Lemma click_element_bulletproof_emits (P : event -> Prop) by_ value description :
  (forall el r, P (EvIsDisplayed el r)) ->
  (forall b v t r, P (EvFindElements b v t r)) ->
  (forall el r, P (EvCmd (Click el) r)) ->
  emits P (Comp.click_element_bulletproof by_ value description).
Proof.
  intros Hd Hf Hc. unfold Comp.click_element_bulletproof, Comp.click_attempt, cmd.
  repeat first [ apply find_element_bulletproof_emits; assumption
               | apply emits_call; intros ?; apply Hc
               | emits_step ].
Qed.

Lemma click_element_bulletproof_run (P : event -> Prop) by_ value description (s : state W) :
  (forall el r, P (EvIsDisplayed el r)) ->
  (forall b v t r, P (EvFindElements b v t r)) ->
  (forall el r, P (EvCmd (Click el) r)) ->
  exists b s1 t1,
    Comp.click_element_bulletproof by_ value description s = (Ret b, s1, t1) /\
    Forall P t1.
Proof.
  intros Hd Hf Hc.
  assert (He := click_element_bulletproof_emits P by_ value description Hd Hf Hc s).
  destruct (click_element_bulletproof_outcome by_ value description s)
    as (b & s1 & t1 & Heq & _).
  rewrite Heq in He. cbn [trace_of snd] in He. eauto.
Qed.

Lemma year_field_is_year_like : Comp.year_like "Year Field (bulletproof)" = true.
Proof. reflexivity. Qed.

Lemma type_year_no_native_clear by_ value text :
  emits no_native_clear
    (Comp.type_text_bulletproof by_ value text "Year Field (bulletproof)").
Proof.
  unfold Comp.type_text_bulletproof, Comp.type_attempt, Comp.clear_field.
  rewrite year_field_is_year_like.
  unfold Comp.input_text, cmd, subprocess_run.
  repeat first [ apply find_element_bulletproof_emits; intros; exact I
               | apply emits_call; intros ?; exact I
               | emits_step ].
Qed.

Lemma click_option_no_native_clear (xpath : string) :
  emits no_native_clear (CompSteps.click_option xpath).
Proof.
  unfold CompSteps.click_option, cmd.
  repeat first [ apply find_element_bulletproof_emits; intros; exact I
               | apply emits_call; intros ?; exact I
               | emits_step ].
Qed.

Lemma choose_from_dropdown_no_native_clear selectors description value :
  emits no_native_clear (CompSteps.choose_from_dropdown selectors description value).
Proof.
  unfold CompSteps.choose_from_dropdown.
  apply emits_bind; [| intros ?; apply emits_ret].
  apply emits_for_each. intros [by_ selector].
  apply emits_bind.
  - apply click_element_bulletproof_emits; intros; exact I.
  - intros [|]; [apply click_option_no_native_clear | apply emits_ret].
Qed.

Lemma enter_year_no_native_clear (birth_year : string) :
  emits no_native_clear (CompSteps.enter_year birth_year).
Proof.
  unfold CompSteps.enter_year. apply emits_bind.
  - unfold Comp.find_elements_bulletproof, Comp.find_elements_attempt, wait_find_elements.
    repeat first [ apply collect_displayed_emits; intros; exact I
                 | apply emits_call; intros ?; exact I
                 | emits_step ].
  - intros [| first others]; [apply emits_ret |].
    apply emits_bind; [apply type_year_no_native_clear |].
    intros [|]; [apply emits_ret |].
    unfold CompSteps.year_method_2, cmd, subprocess_run.
    repeat first [ apply emits_call; intros ?; exact I | emits_step ].
Qed.

Lemma click_next_production_emits (P : event -> Prop) (context : string) :
  (forall el r, P (EvIsDisplayed el r)) ->
  (forall b v t r, P (EvFindElements b v t r)) ->
  (forall el r, P (EvCmd (Click el) r)) ->
  (forall r, P (EvCmd (PressKeycode 66) r)) ->
  emits P (CompSteps.click_next_production context).
Proof.
  intros Hd Hf Hc Hk. unfold CompSteps.click_next_production.
  apply emits_bind.
  - apply emits_for_each. intros [by_ selector]. apply emits_bind.
    + apply click_element_bulletproof_emits; assumption.
    + intros [|]; apply emits_ret.
  - intros [b |]; [apply emits_ret |]. unfold cmd.
    repeat first [ apply emits_call; intros ?; apply Hk | emits_step ].
Qed.

(** X8.  step4_details_fixed never calls element.clear(), whichever
    way the year is entered: the description under which it types the
    year is year-like, so the typing routine clears with DEL keys, and
    its second method clears with DEL keys too. *)
Theorem step4_details_never_native_clear
    (birth_day birth_month birth_year : string) (s : state W) :
  Forall no_native_clear
    (trace_of (CompSteps.step4_details_fixed birth_day birth_month birth_year s)).
Proof.
  revert s.
  change (emits no_native_clear
            (CompSteps.step4_details_fixed birth_day birth_month birth_year)).
  unfold CompSteps.step4_details_fixed.
  apply emits_bind; [apply choose_from_dropdown_no_native_clear | intros _].
  apply emits_bind; [apply choose_from_dropdown_no_native_clear | intros _].
  apply emits_bind; [apply enter_year_no_native_clear | intros _].
  apply emits_bind.
  - unfold cmd. repeat first [ apply emits_call; intros ?; exact I | emits_step ].
  - intros _. apply click_next_production_emits; intros; exact I.
Qed.

End Details.

Section DetailsOutcome.
Context {W : Type} {B : Backend W}.

Lemma click_option_outcome (xpath : string) (s : state W) :
  exists r s' t,
    CompSteps.click_option xpath s = (r, s', t) /\ dropdown_trace r t.
Proof.
  unfold CompSteps.click_option. unfold bind at 1.
  destruct (find_element_bulletproof_run no_typing XPATH xpath 5 3 s)
    as (o & s1 & t1 & Heq & Hf); try (intros; exact I).
  rewrite Heq. destruct o as [el |].
  2:{ do 3 eexists. split; [reflexivity | all_hold]. }
  unfold try_catch at 1. unfold bind at 1. unfold cmd at 1. unfold call at 1.
  destruct (command_ (Click el) (world s1)) as [[[] | e] w2].
  { do 3 eexists. split; [reflexivity | all_hold]. }
  destruct e.
  2,3,4: do 3 eexists; (split; [reflexivity |]);
    exists t1, el; (split; [trace_eq |]); (split; [all_hold | discriminate]).
  unfold bind at 1.
  destruct (find_element_bulletproof_run no_typing XPATH xpath 3 3 (with_world s1 w2))
    as (o' & s3 & t3 & Heq' & Hf'); try (intros; exact I).
  rewrite Heq'. destruct o' as [el' |].
  2:{ do 3 eexists. split; [reflexivity | all_hold]. }
  unfold bind, cmd, call.
  destruct (command_ (Click el') (world s3)) as [[[] | e] w4].
  { do 3 eexists. split; [reflexivity | all_hold]. }
  do 3 eexists. split; [reflexivity |].
  exists (t1 ++ EvCmd (Click el) (Exc StaleElementReferenceException) :: t3)%list, el'.
  split; [trace_eq |]. split; [all_hold |].
  intros _. apply Exists_app. right. apply Exists_cons_hd. exists el. reflexivity.
Qed.

Lemma dropdown_trace_after {A} (r : res A) (a b : list event) :
  Forall no_typing a -> dropdown_trace r b -> dropdown_trace r (a ++ b).
Proof.
  intros Ha. destruct r as [x | e]; cbn [dropdown_trace].
  - intros Hb. apply Forall_app; auto.
  - intros (pre & el & -> & Hpre & Hst).
    exists (a ++ pre)%list, el. split; [apply app_assoc |].
    split; [apply Forall_app; auto |].
    intros He. apply Exists_app. right. auto.
Qed.

Lemma dropdown_loop_outcome (selectors : list (locator_kind * string))
    (description value : string) (s : state W) :
  exists r s' t,
    for_each selectors
      (fun '(by_, selector) =>
         opened <- Comp.click_element_bulletproof by_ selector description ;;
         if (opened : bool) then CompSteps.click_option (CompSteps.option_xpath value)
         else ret None) s = (r, s', t) /\
    dropdown_trace r t.
Proof.
  revert s. induction selectors as [| [by_ selector] rest IH]; intros s.
  - exists (Ret None), s, []. split; [reflexivity | constructor].
  - cbn [for_each]. unfold bind at 1. unfold bind at 1.
    destruct (click_element_bulletproof_run no_typing by_ selector description s)
      as (b & s1 & t1 & Heq & Hf); try (intros; exact I).
    rewrite Heq.
    destruct b.
    + destruct (click_option_outcome (CompSteps.option_xpath value) s1)
        as (r & s2 & t2 & Heq2 & Hr); rewrite Heq2.
      destruct r as [[[] |] | e].
      * do 3 eexists. split; [reflexivity |]. cbn [dropdown_trace] in *. all_hold.
      * destruct (IH s2) as (r' & s' & t & Heq' & Hr'). rewrite Heq'.
        do 3 eexists. split; [reflexivity |].
        apply dropdown_trace_after; [cbn [dropdown_trace] in Hr; all_hold | exact Hr'].
      * do 3 eexists. split; [reflexivity |].
        apply (dropdown_trace_after (Exc e)); assumption.
    + cbn [ret].
      destruct (IH s1) as (r' & s' & t & Heq' & Hr'). rewrite Heq'.
      do 3 eexists. split; [reflexivity |].
      apply dropdown_trace_after; [all_hold | exact Hr'].
Qed.

Lemma choose_from_dropdown_outcome (selectors : list (locator_kind * string))
    (description value : string) (s : state W) :
  exists r s' t,
    CompSteps.choose_from_dropdown selectors description value s = (r, s', t) /\
    dropdown_trace r t.
Proof.
  unfold CompSteps.choose_from_dropdown. unfold bind at 1.
  destruct (dropdown_loop_outcome selectors description value s)
    as (r & s' & t & Heq & Hr).
  rewrite Heq. destruct r as [o | e].
  - do 3 eexists. split; [reflexivity |]. cbn [dropdown_trace] in *. all_hold.
  - do 3 eexists. split; [reflexivity | exact Hr].
Qed.

Lemma enter_year_never_raises (birth_year : string) :
  never_raises (CompSteps.enter_year birth_year).
Proof.
  unfold CompSteps.enter_year. apply never_raises_bind.
  - intros s.
    destruct (find_elements_bulletproof_passes CLASS_NAME "android.widget.EditText" 5 3 s)
      as (s' & passes & Heq & _).
    rewrite Heq. eexists. reflexivity.
  - intros [| first others]; [apply never_raises_ret |].
    apply never_raises_bind.
    + intros s.
      destruct (type_text_bulletproof_outcome CLASS_NAME "android.widget.EditText"
                  birth_year "Year Field (bulletproof)" s) as (b & s' & t & Heq & _).
      rewrite Heq. eexists. reflexivity.
    + intros [|]; [apply never_raises_ret |].
      unfold CompSteps.year_method_2. apply never_raises_try_catch.
      intros _. apply never_raises_ret.
Qed.

Lemma never_raises_run {A} (m : M W event A) (s : state W) :
  never_raises m -> exists a s' t, m s = (Ret a, s', t).
Proof.
  intros H. destruct (H s) as [a Ha]. destruct (m s) as [[r s'] t].
  unfold result_of in Ha. simpl in Ha. subst r. eauto.
Qed.

(** X9.  step4_details_fixed and Next: a failed day, month or year
    entry never makes the step return False.  When it returns, its
    trace ends with a run of click_next_production and the result is
    that run's: True after the first click that returned, and otherwise
    whether the ENTER key could be pressed after all three Next
    strategies had failed.  When it raises, the exception came out of
    a click on a day or month option, before anything was typed; a
    stale-element error only out of the re-click that follows a first
    stale-element error. *)
Theorem step4_details_result (birth_day birth_month birth_year : string) (s : state W) :
  exists r s' t,
    CompSteps.step4_details_fixed birth_day birth_month birth_year s = (r, s', t) /\
    match r with
    | Ret b => exists pre post,
                 t = (pre ++ post)%list /\
                 next_outcome CompSteps.next_strategies b post
    | Exc e => option_click_raised e t
    end.
Proof.
  unfold CompSteps.step4_details_fixed. unfold bind at 1.
  destruct (choose_from_dropdown_outcome CompSteps.day_selectors "Day Dropdown"
              birth_day s) as (r1 & s1 & t1 & Heq1 & H1).
  rewrite Heq1. destruct r1 as [[] | e].
  2:{ do 3 eexists. split; [reflexivity | exact H1]. }
  unfold bind at 1.
  destruct (choose_from_dropdown_outcome CompSteps.month_selectors "Month Dropdown"
              birth_month s1) as (r2 & s2 & t2 & Heq2 & H2).
  rewrite Heq2. destruct r2 as [[] | e].
  2:{ do 3 eexists. split; [reflexivity |].
      apply (dropdown_trace_after (A := unit) (Exc e)); assumption. }
  unfold bind at 1.
  destruct (never_raises_run _ s2 (enter_year_never_raises birth_year))
    as ([] & s3 & t3 & Heq3).
  rewrite Heq3.
  unfold bind at 1.
  assert (Hk : never_raises (W := W) (try_catch (cmd HideKeyboard) (fun _ => ret tt))).
  { apply never_raises_try_catch. intros _. apply never_raises_ret. }
  destruct (never_raises_run _ s3 Hk) as ([] & s4 & t4 & Heq4).
  rewrite Heq4.
  destruct (click_next_production_outcome "Details" s4) as (b & s5 & t5 & Heq5 & H5).
  rewrite Heq5.
  do 3 eexists. split; [reflexivity |].
  exists (t1 ++ t2 ++ t3 ++ t4)%list, t5. split; [trace_eq | exact H5].
Qed.

End DetailsOutcome.

(** ** The centring scroll of new.py, on every backend *)

Section Scroll.
Context {W : Type} {B : Backend W}.

(** X10.  _scroll_into_view of new.py never raises and leaves the
    stored driver and window size as they were.  It swipes at most
    once; the swipe runs along the middle column of the screen, ends at
    mid-height, and starts no closer than 200 to the bottom edge and,
    on a screen 400 high or more, no closer than 200 to the top edge.
    When the
    centre of the element is within 80 of mid-height it makes no call
    after reading the element's position and size. *)
Theorem scroll_into_view_one_bounded_swipe (el : handle) (s : state W) :
  exists s' t,
    New._scroll_into_view el s = (Ret tt, s', t) /\
    driver s' = driver s /\ screen_size s' = screen_size s /\
    (scrolls_of t = [] \/
     exists c, scrolls_of t = [c] /\ centering_scroll (screen_size s) c) /\
    (forall lx ly sw sh width height rest,
       t = EvLocation el (Ret (lx, ly)) :: EvSize el (Ret (sw, sh)) :: rest ->
       screen_size s = Some (width, height) ->
       Z.abs (ly + sh / 2 - height / 2) <= 80 ->
       rest = []).
Proof.
  unfold New._scroll_into_view, New._center_of, bind, try_catch, cmd, elem_location,
    elem_size, call, get_screen_size, ret.
  destruct (location el (world s)) as [[[lx ly] | e1] w1];
    cbn [fst snd world with_world driver screen_size app].
  2:{ do 2 eexists. split; [reflexivity |]. repeat split; auto. discriminate. }
  destruct (size el w1) as [[[sw sh] | e2] w2];
    cbn [fst snd world with_world driver screen_size app].
  2:{ do 2 eexists. split; [reflexivity |]. repeat split; auto. discriminate. }
  destruct (screen_size s) as [[width height] |] eqn:Hsz.
  2:{ do 2 eexists. split; [reflexivity |]. repeat split; auto.
      intros ? ? ? ? ? ? ? _ Hn. discriminate Hn. }
  destruct (80 <? Z.abs (ly + sh / 2 - height / 2)) eqn:Hfar.
  - cbn [fst snd world with_world driver screen_size app].
    assert (Hc : forall r,
               scrolls_of [EvLocation el (Ret (lx, ly)); EvSize el (Ret (sw, sh));
                           EvCmd (Swipe (width / 2)
                                    (Z.min (Z.max (height / 2
                                                   + int_mul_0_6 (ly + sh / 2 - height / 2))
                                              200) (height - 200))
                                    (width / 2) (height / 2) 500) r] = [] \/
               exists c,
                 scrolls_of [EvLocation el (Ret (lx, ly)); EvSize el (Ret (sw, sh));
                             EvCmd (Swipe (width / 2)
                                      (Z.min (Z.max (height / 2
                                                     + int_mul_0_6 (ly + sh / 2 - height / 2))
                                                200) (height - 200))
                                      (width / 2) (height / 2) 500) r] = [c] /\
                 centering_scroll (Some (width, height)) c).
    { intros r. right. eexists. split; [reflexivity |].
      exists width, height. eexists. split; [reflexivity |]. split; [reflexivity |].
      split; lia. }
    assert (Hn : forall r lx0 ly0 sw0 sh0 width0 height0 rest,
               [EvLocation el (Ret (lx, ly)); EvSize el (Ret (sw, sh));
                EvCmd (Swipe (width / 2)
                         (Z.min (Z.max (height / 2
                                        + int_mul_0_6 (ly + sh / 2 - height / 2))
                                   200) (height - 200))
                         (width / 2) (height / 2) 500) r]
               = EvLocation el (Ret (lx0, ly0)) :: EvSize el (Ret (sw0, sh0)) :: rest ->
               Some (width, height) = Some (width0, height0) ->
               Z.abs (ly0 + sh0 / 2 - height0 / 2) <= 80 ->
               rest = []).
    { intros r ? ? ? ? ? ? ? Ht Hs Hle. exfalso.
      injection Ht as <- <- <- <- _. injection Hs as <- <-.
      apply Z.ltb_lt in Hfar. lia. }
    destruct (command_ _ w2) as [[[] | e3] w3];
      cbn [fst snd world with_world driver screen_size app];
      do 2 eexists; (split; [reflexivity |]); repeat split; auto;
        try apply Hc; try apply Hn.
  - cbn [fst snd world with_world driver screen_size app].
    do 2 eexists. split; [reflexivity |]. repeat split; auto.
    intros ? ? ? ? ? ? ? Ht _ _. injection Ht as _ _ _ _ <-. reflexivity.
Qed.

End Scroll.

(** ** The runner of new.py, on every backend *)

Section NewRunner.
Context {W : Type} {B : Backend W}.

Lemma in_step_not_session (n : string) (t : list event) :
  Forall not_session (map (InStep n) t).
Proof. induction t; simpl; constructor; auto. exact I. Qed.

Lemma new_run_step_outcome (st : step W) (s : state W) :
  exists r s' t,
    New.run_step st s = (r, s', t) /\
    s' = state_of (snd st s) /\
    Forall not_session t /\
    started t = [fst st] /\
    match r with
    | Ret None => verdicts t = [passed st]
    | Ret (Some b) => b = false /\ verdicts t = [(fst st, false)]
    | Exc _ => verdicts t = []
    end.
Proof.
  destruct st as [n fn]. unfold New.run_step, bind, console, relabel, ret, state_of.
  cbn [fst snd].
  destruct (fn s) as [[[[|] | e] s1] t1]; cbn [fst snd app];
    do 3 eexists; (split; [reflexivity |]); (split; [reflexivity |]);
    (split; [constructor; [exact I |];
             repeat first [ apply Forall_app; split | apply in_step_not_session
                          | apply Forall_nil | apply Forall_cons; [exact I |] ] |]);
    cbn [started verdicts flat_map app];
    change (flat_map (fun ev => match ev with Console (LogStep n0) => [n0] | _ => [] end))
      with started;
    change (flat_map (fun ev =>
              match ev with
              | Console (LogSuccess n0) => [(n0, true)]
              | Console (LogFailed n0) => [(n0, false)]
              | Console (LogError n0 _) => [(n0, false)]
              | _ => []
              end)) with verdicts;
    rewrite ?started_app, ?verdicts_app, ?started_in_step, ?verdicts_in_step;
    cbn [started verdicts flat_map app]; auto.
Qed.

Lemma new_loop_outcome (flow : list (step W)) (s : state W) :
  exists r s' t,
    for_each flow New.run_step s = (r, s', t) /\
    Forall not_session t /\
    (steps_keep_driver flow -> driver s' = driver s) /\
    exists done rest,
      flow = (done ++ rest)%list /\
      match r with
      | Ret None =>
          rest = [] /\ started t = map fst done /\ verdicts t = map passed done
      | Ret (Some b) =>
          b = false /\
          exists st rest',
            rest = st :: rest' /\
            started t = (map fst done ++ [fst st])%list /\
            verdicts t = (map passed done ++ [(fst st, false)])%list
      | Exc _ =>
          exists st rest',
            rest = st :: rest' /\
            started t = (map fst done ++ [fst st])%list /\
            verdicts t = map passed done
      end.
Proof.
  revert s. induction flow as [| st flow IH]; intros s.
  - exists (Ret None), s, []. split; [reflexivity |]. split; [constructor |].
    split; [reflexivity |]. exists [], []. auto.
  - cbn [for_each]. unfold bind at 1.
    destruct (new_run_step_outcome st s) as (r1 & s1 & t1 & Heq & Hs1 & Hn1 & Hst1 & Hv1).
    rewrite Heq. destruct r1 as [[b |] | e].
    + destruct Hv1 as [-> Hv1].
      do 3 eexists. split; [reflexivity |]. cbn [ret app]. rewrite app_nil_r.
      split; [exact Hn1 |].
      split; [intros Hk; inversion Hk; subst; auto |].
      exists [], (st :: flow). split; [reflexivity |]. split; [reflexivity |].
      exists st, flow. auto.
    + destruct (IH s1) as (r & s' & t & Heq' & Hn & Hk' & done & rest & Hflow & Hr).
      rewrite Heq'.
      do 3 eexists. split; [reflexivity |].
      split; [apply Forall_app; auto |].
      split.
      { intros Hk. inversion Hk; subst. rewrite Hk' by assumption. auto. }
      exists (st :: done), rest. split; [rewrite Hflow; reflexivity |].
      rewrite started_app, verdicts_app, Hst1, Hv1.
      destruct r as [[b |] | e].
      * destruct Hr as (-> & st' & rest' & -> & -> & ->).
        split; [reflexivity |]. exists st', rest'. auto.
      * destruct Hr as (-> & -> & ->). auto.
      * destruct Hr as (st' & rest' & -> & -> & ->). exists st', rest'. auto.
    + do 3 eexists. split; [reflexivity |].
      split; [exact Hn1 |].
      split; [intros Hk; inversion Hk; subst; auto |].
      exists [], (st :: flow). split; [reflexivity |]. exists st, flow. auto.
Qed.

Lemma new_setup_cases (s : state W) :
  exists r s1 t,
    relabel Session (New.setup (B := B)) s = (r, s1, t) /\
    started t = [] /\ verdicts t = [] /\ quits t = 0%nat /\
    ((r = Ret true /\ setups_completed t = 1%nat /\ driver s1 = true) \/
     (r = Ret false /\ setups_completed t = 0%nat) \/
     (exists e, r = Exc e /\ is_webdriver_exception e = false /\
                setups_completed t = 0%nat)).
Proof.
  unfold relabel, New.setup, try_catch, bind, webdriver_Remote, cmd,
    get_window_size, call, set_driver, set_screen_size, ret, raise.
  destruct (remote (world s)) as [[[] | e] w1]; cbn [world with_world app].
  - destruct (command_ UpdateSettings w1) as [[[] | e] w2]; cbn [world with_world app].
    + destruct (window_size w2) as [[sz | e] w3]; cbn [world with_world app].
      * do 3 eexists. split; [reflexivity |]. repeat split; auto.
      * destruct e; cbn [is_webdriver_exception];
          do 3 eexists; (split; [reflexivity |]); repeat split; auto;
          right; try (left; split; reflexivity); right; eexists; repeat split; reflexivity.
    + destruct e; cbn [is_webdriver_exception];
        do 3 eexists; (split; [reflexivity |]); repeat split; auto;
        right; try (left; split; reflexivity); right; eexists; repeat split; reflexivity.
  - destruct e; cbn [is_webdriver_exception];
      do 3 eexists; (split; [reflexivity |]); repeat split; auto;
      right; try (left; split; reflexivity); right; eexists; repeat split; reflexivity.
Qed.

Lemma new_body_outcome (flow : list (step W)) (s : state W) :
  exists r s' t,
    (r <- for_each flow New.run_step ;;
     match r with
     | Some b => ret b
     | None => console LogAutomationSuccess ;; ret true
     end) s = (r, s', t) /\
    Forall not_session t /\
    (steps_keep_driver flow -> driver s' = driver s) /\
    stopped_at_first_failure flow r t.
Proof.
  unfold bind at 1.
  destruct (new_loop_outcome flow s)
    as (r & s' & t & Heq & Hn & Hk & done & rest & Hflow & Hr).
  rewrite Heq. destruct r as [[b |] | e].
  - destruct Hr as (-> & Hr).
    do 3 eexists. split; [reflexivity |]. cbn [ret app]. rewrite app_nil_r.
    split; [exact Hn |]. split; [exact Hk |]. exists done, rest. auto.
  - destruct Hr as (-> & Hs & Hv).
    do 3 eexists. split; [reflexivity |].
    split; [apply Forall_app; split; [exact Hn | repeat constructor] |].
    split; [exact Hk |]. exists done, []. split; [exact Hflow |].
    unfold bind, console, ret. cbn [app].
    rewrite started_app, verdicts_app, Hs, Hv. cbn [started verdicts flat_map app].
    rewrite !app_nil_r. auto.
  - do 3 eexists. split; [reflexivity |]. split; [exact Hn |]. split; [exact Hk |].
    exists done, rest. auto.
Qed.

Lemma new_teardown_outcome (s : state W) :
  exists s' t,
    try_catch (New.driver_quit (B := B)) (fun _ => ret tt) s = (Ret tt, s', t) /\
    started t = [] /\ verdicts t = [] /\ setups_completed t = 0%nat /\
    (quits t <= 1)%nat /\
    (driver s = true -> quits t = 1%nat).
Proof.
  unfold try_catch, New.driver_quit, bind, get_driver, relabel, cmd, call, raise, ret.
  cbn [fst snd].
  destruct (driver s).
  - destruct (command_ DriverQuit (world s)) as [[[] | e] w1]; cbn [map app];
      do 2 eexists; (split; [reflexivity |]); unfold quits, setups_completed;
      cbn; repeat split; auto.
  - do 2 eexists. split; [reflexivity |]. unfold quits, setups_completed. cbn.
    repeat split; auto. discriminate.
Qed.

Lemma new_run_outcome (flow : list (step W)) (s : state W) :
  exists r s' t,
    New.run flow s = (r, s', t) /\
    (quits t <= setups_completed t)%nat /\
    (steps_keep_driver flow -> quits t = setups_completed t) /\
    ((setups_completed t = 0%nat /\ started t = [] /\
      (r = Ret false \/ exists e, r = Exc e /\ is_webdriver_exception e = false)) \/
     (setups_completed t = 1%nat /\ stopped_at_first_failure flow r t)).
Proof.
  unfold New.run. unfold bind at 1.
  destruct (new_setup_cases s)
    as (r1 & s1 & t1 & Heq & Hs1 & Hv1 & Hq1 & Hcases).
  rewrite Heq.
  destruct Hcases as [(-> & Hc1 & Hd1) | [(-> & Hc1) | (e & -> & He & Hc1)]].
  - cbn [negb]. unfold finally.
    destruct (new_body_outcome flow s1) as (r & s2 & t2 & Heq2 & Hn2 & Hk2 & Hstop).
    rewrite Heq2.
    destruct (new_teardown_outcome s2) as (s3 & t3 & Heq3 & Hs3 & Hv3 & Hc3 & Hq3 & Hq3').
    rewrite Heq3.
    destruct (no_session_counts t2 Hn2) as [Hq2 _].
    assert (Hc2 := no_session_no_setup t2 Hn2).
    assert (Hq : quits (t1 ++ t2 ++ t3) = quits t3).
    { destruct (counts_app t1 (t2 ++ t3)) as [-> _].
      destruct (counts_app t2 t3) as [-> _]. lia. }
    assert (Hc : setups_completed (t1 ++ t2 ++ t3) = 1%nat).
    { rewrite !setups_completed_app. lia. }
    do 3 eexists. split; [reflexivity |]. rewrite Hq, Hc.
    split; [exact Hq3 |].
    split; [intros Hk; apply Hq3'; rewrite Hk2 by assumption; exact Hd1 |].
    right. split; [reflexivity |].
    destruct Hstop as (done & rest & Hflow & Hr). exists done, rest.
    split; [exact Hflow |].
    rewrite !started_app, !verdicts_app, Hs1, Hv1, Hs3, Hv3, !app_nil_r. cbn [app].
    exact Hr.
  - cbn [negb ret]. do 3 eexists. split; [reflexivity |]. rewrite app_nil_r.
    rewrite Hq1, Hc1. split; [lia |]. split; [reflexivity |]. left. auto.
  - do 3 eexists. split; [reflexivity |].
    rewrite Hq1, Hc1. split; [lia |]. split; [reflexivity |]. left.
    split; [reflexivity |]. split; [assumption |]. right. exists e. auto.
Qed.

(** X11.  In the runner of new.py every step is critical.  When the
    set-up does not complete no step is started: run returns False, or
    lets through the exception of the set-up when it is not a
    WebDriverException.  When the set-up completes the steps run in
    order until the first one that returns False or raises: run
    returns True when all of them returned True; it returns False
    after printing FAILED for the step that returned False; the
    exception of a step that raises leaves run, with no verdict
    printed for that step.  In no case is a later step started. *)
Theorem new_run_stops_at_first_failure (flow : list (step W)) (s : state W) :
  exists r s' t,
    New.run flow s = (r, s', t) /\
    ((setups_completed t = 0%nat /\ started t = [] /\
      (r = Ret false \/ exists e, r = Exc e /\ is_webdriver_exception e = false)) \/
     (setups_completed t = 1%nat /\ stopped_at_first_failure flow r t)).
Proof.
  destruct (new_run_outcome flow s) as (r & s' & t & Heq & _ & _ & H).
  exists r, s', t. auto.
Qed.

(** X12.  For steps that leave [self.driver] alone, the runner of
    new.py calls driver.quit() once when the set-up completed, whether
    the steps then returned or raised, and not at all otherwise: a
    session whose set-up stopped half-way is never closed. *)
Theorem new_run_quits_when_setup_completed (flow : list (step W)) (s : state W) :
  steps_keep_driver flow ->
  exists r s' t,
    New.run flow s = (r, s', t) /\
    (setups_completed t <= 1)%nat /\
    quits t = setups_completed t.
Proof.
  intros Hk.
  destruct (new_run_outcome flow s) as (r & s' & t & Heq & _ & Hq & H).
  exists r, s', t. split; [exact Heq |]. split; [| auto].
  destruct H as [(-> & _) | (-> & _)]; lia.
Qed.

End NewRunner.

Lemma new_run_quits_when_setup_completed_witness :
  steps_keep_driver [("Welcome"%string, raise (W := unit) (T := event) (A := bool)
                                          OtherException)] /\
  exists r s' t,
    New.run (B := Mock.scripted Mock.responsive)
      [("Welcome"%string, raise OtherException)] Mock.fresh = (r, s', t) /\
    (setups_completed t <= 1)%nat /\
    quits t = setups_completed t.
Proof.
  split.
  - constructor; [intros s; reflexivity | constructor].
  - apply (new_run_quits_when_setup_completed (B := Mock.scripted Mock.responsive)).
    constructor; [intros s; reflexivity | constructor].
Defined.

(** ** The typing helper of new.py and the safe helpers of main.py *)

Section Helpers.
Context {W : Type} {B : Backend W}.

Lemma clear_or_backspace_outcome (el : handle) (s : state W) :
  exists r s' t,
    try_catch (cmd (Clear el))
      (fun _ =>
         cur <- elem_get_text el ;;
         repeat_ (String.length (Comp.text_or_empty cur) + 3) (cmd (PressKeycode 67))) s
      = (r, s', t) /\
    Forall no_typing t /\
    (r <> Ret tt -> Exists raised t).
Proof.
  assert (He : emits no_typing
                 (try_catch (cmd (Clear el))
                    (fun _ =>
                       cur <- elem_get_text el ;;
                       repeat_ (String.length (Comp.text_or_empty cur) + 3)
                         (cmd (PressKeycode 67))))).
  { unfold cmd, elem_get_text.
    repeat first [ apply emits_call; intros []; exact I | emits_step ]. }
  specialize (He s).
  destruct (try_catch (cmd (Clear el))
              (fun _ =>
                 cur <- elem_get_text el ;;
                 repeat_ (String.length (Comp.text_or_empty cur) + 3)
                   (cmd (PressKeycode 67))) s) as [[r s'] t] eqn:Heq.
  cbn [trace_of snd] in He.
  exists r, s', t. split; [reflexivity |]. split; [exact He |].
  revert Heq. unfold try_catch at 1. unfold cmd at 1. unfold call at 1.
  destruct (command_ (Clear el) (world s)) as [[[] | e] w1].
  - intros Heq. injection Heq as <- _ _. intros Hn. exfalso. apply Hn. reflexivity.
  - destruct ((cur <- elem_get_text el ;;
               repeat_ (String.length (Comp.text_or_empty cur) + 3)
                 (cmd (PressKeycode 67))) (with_world s w1)) as [[r2 s2] t2].
    intros Heq. injection Heq as _ _ <-.
    intros _. apply Exists_cons_hd. reflexivity.
Qed.

Lemma adb_fallback_outcome (text : string) (s : state W) :
  exists r s',
    try_catch (NewSteps.subprocess_run_checked (InputText text) ;; ret true)
      (fun _ => ret false) s
    = (Ret (adb_accepted r), s', [EvAdb (InputText text) r]).
Proof.
  unfold try_catch, NewSteps.subprocess_run_checked, bind, subprocess_run, call, ret, raise.
  destruct (adb (InputText text) (world s)) as [[status | e] w1].
  - exists (Ret status). cbn [adb_accepted].
    destruct (status =? 0); eexists; reflexivity.
  - exists (Exc e). eexists. reflexivity.
Qed.

(** X13.  type_robust of new.py never raises and calls send_keys and
    adb at most once each.  It returns True when send_keys returned,
    after the click and the clearing returned.  It falls back to
    [adb shell input text] only after one of its driver calls raised,
    and then, unlike comp.py's typing routine, it looks at adb's exit
    status: the result is True exactly when adb ran and exited with
    status 0. *)
Theorem type_robust_checks_adb_status (el : handle) (text label : string) (s : state W) :
  exists b s' pre last,
    NewSteps.type_robust el text label s = (Ret b, s', (pre ++ [last])%list) /\
    Forall no_typing pre /\
    ((last = EvCmd (SendKeys el text) (Ret tt) /\ b = true) \/
     (exists r, last = EvAdb (InputText text) r /\ b = adb_accepted r /\
                Exists raised pre)).
Proof.
  unfold NewSteps.type_robust. unfold try_catch at 1. unfold bind at 1.
  unfold cmd at 1. unfold call at 1.
  destruct (command_ (Click el) (world s)) as [[[] | e] w1].
  2:{ destruct (adb_fallback_outcome text (with_world s w1)) as (r & s' & Heq).
      rewrite Heq. exists (adb_accepted r), s', [EvCmd (Click el) (Exc e)], (EvAdb (InputText text) r).
      split; [reflexivity |]. split; [all_hold |]. right. exists r.
      split; [reflexivity |]. split; [reflexivity |]. apply Exists_cons_hd. reflexivity. }
  unfold bind at 1.
  destruct (clear_or_backspace_outcome el (with_world s w1))
    as (rc & s2 & t2 & Heq2 & Hn2 & Hr2).
  rewrite Heq2. destruct rc as [[] | e].
  2:{ destruct (adb_fallback_outcome text s2) as (r & s' & Heq).
      rewrite Heq.
      exists (adb_accepted r), s', (EvCmd (Click el) (Ret tt) :: t2), (EvAdb (InputText text) r).
      split; [reflexivity |]. split; [all_hold |]. right. exists r.
      split; [reflexivity |]. split; [reflexivity |].
      apply Exists_cons_tl. apply Hr2. discriminate. }
  unfold bind at 1. unfold cmd at 1. unfold call at 1.
  destruct (command_ (SendKeys el text) (world s2)) as [[[] | e] w3].
  - exists true. eexists. exists (EvCmd (Click el) (Ret tt) :: t2), (EvCmd (SendKeys el text) (Ret tt)).
    split; [cbn [ret app]; rewrite ?app_nil_r; reflexivity |].
    split; [all_hold |]. left. auto.
  - destruct (adb_fallback_outcome text (with_world s2 w3)) as (r & s' & Heq).
    rewrite Heq.
    exists (adb_accepted r), s',
      (EvCmd (Click el) (Ret tt) :: t2 ++ [EvCmd (SendKeys el text) (Exc e)])%list,
      (EvAdb (InputText text) r).
    split; [f_equal; trace_eq |]. split; [all_hold |]. right. exists r.
    split; [reflexivity |]. split; [reflexivity |].
    apply Exists_cons_tl. apply Exists_app. right. apply Exists_cons_hd. reflexivity.
Qed.

(** X14.  The safe helpers of main.py never raise and have no
    fallback.  input_text_safely types only after clear() returned:
    when clear() raises, send_keys is not called and the result is
    False.  Each helper returns True exactly when every driver call it
    made returned, and a missing element makes no call at all. *)
Theorem main_safe_helpers_have_no_fallback
    (element : option handle) (text description : string) (x y : Z) (s : state W) :
  (exists b s' t,
     MainSteps.input_text_safely element text description s = (Ret b, s', t) /\
     match element with
     | None => t = [] /\ b = false
     | Some el =>
         (exists r, t = [EvCmd (Clear el) (Ret tt); EvCmd (SendKeys el text) r] /\
                    b = returned r) \/
         (exists e, t = [EvCmd (Clear el) (Exc e)] /\ b = false)
     end) /\
  (exists b s' t,
     MainSteps.tap_element_safely element description s = (Ret b, s', t) /\
     match element with
     | None => t = [] /\ b = false
     | Some el => exists r, t = [EvCmd (Click el) r] /\ b = returned r
     end) /\
  (exists r s',
     MainSteps.tap_by_coordinates x y description s
     = (Ret (returned r), s', [EvCmd (Tap x y) r])).
Proof.
  split; [| split].
  - destruct element as [el |]; [| exists false, s, []; auto].
    unfold MainSteps.input_text_safely, try_catch, bind, cmd, call, ret.
    destruct (command_ (Clear el) (world s)) as [[[] | e] w1]; cbn [world with_world].
    + destruct (command_ (SendKeys el text) w1) as [[[] | e] w2];
        do 3 eexists; (split; [reflexivity |]); left;
        [exists (Ret tt) | exists (Exc e)]; split; reflexivity.
    + do 3 eexists. split; [reflexivity |]. right. eexists. split; reflexivity.
  - destruct element as [el |]; [| exists false, s, []; auto].
    unfold MainSteps.tap_element_safely, try_catch, bind, cmd, call, ret.
    destruct (command_ (Click el) (world s)) as [[[] | e] w1];
      do 3 eexists; (split; [reflexivity |]);
      [exists (Ret tt) | exists (Exc e)]; split; reflexivity.
  - unfold MainSteps.tap_by_coordinates, try_catch, bind, cmd, call, ret.
    destruct (command_ (Tap x y) (world s)) as [[[] | e] w1].
    + exists (Ret tt). eexists. reflexivity.
    + exists (Exc e). eexists. reflexivity.
Qed.

End Helpers.

(** ** The year test of comp.py *)

Lemma prefix_lower (p s : string) :
  String.prefix p s = true -> String.prefix (lower p) (lower s) = true.
Proof.
  revert s. induction p as [| a p IH]; intros s; [destruct s; reflexivity |].
  destruct s as [| b s]; cbn [String.prefix lower]; [discriminate |].
  destruct (ascii_dec a b) as [-> | Hne]; [| discriminate].
  intros H. destruct (ascii_dec (lower_ascii b) (lower_ascii b)) as [_ | Hn];
    [auto | contradiction Hn; reflexivity].
Qed.

Lemma contains_lower (p s : string) :
  contains p s = true -> contains (lower p) (lower s) = true.
Proof.
  induction s as [| c s IH].
  - cbn [contains lower]. rewrite !orb_false_r. apply prefix_lower.
  - cbn [contains lower]. intros H. apply orb_true_iff in H. apply orb_true_iff.
    destruct H as [H | H].
    + left. apply (prefix_lower p (String c s)). exact H.
    + right. apply IH. exact H.
Qed.

(** X15.  The year test of type_text_bulletproof is a case-insensitive
    containment test: its second disjunct, ["Year" in description],
    never changes the answer. *)
Theorem year_like_is_case_insensitive (description : string) :
  Comp.year_like description = contains "year" (lower description).
Proof.
  unfold Comp.year_like.
  destruct (contains "year" (lower description)) eqn:Hl; [reflexivity |].
  destruct (contains "Year" description) eqn:Hy; [| reflexivity].
  apply contains_lower in Hy. cbn [lower] in Hy.
  change (contains "year" (lower description) = true) in Hy.
  rewrite Hl in Hy. discriminate Hy.
Qed.

(** ** What step 4 of comp.py types *)

Section DetailsTyping.
Context {W : Type} {B : Backend W}.

Lemma typed_texts_app (a b : list event) :
  typed_texts (a ++ b) = (typed_texts a ++ typed_texts b)%list.
Proof. apply flat_map_app. Qed.

Lemma no_typing_texts (t : list event) : Forall no_typing t -> typed_texts t = [].
Proof.
  induction 1 as [| ev t Hev _ IH]; [reflexivity |].
  change (ev :: t) with ([ev] ++ t)%list. rewrite typed_texts_app, IH, app_nil_r.
  destruct ev as [| | | | | | | | c [] | c []]; try reflexivity;
    destruct c; try reflexivity; contradiction Hev.
Qed.

Lemma is_typing_text (text : string) (ev : event) :
  is_typing text ev -> typed_texts [ev] = [text].
Proof.
  destruct ev as [| | | | | | | | c [] | c []]; try contradiction;
    destruct c; try contradiction; cbn; intros ->; reflexivity.
Qed.

Lemma at_most_once_after (text : string) (a b : list event) :
  Forall no_typing a -> at_most_once text b -> at_most_once text (a ++ b).
Proof.
  intros Ha Hb. unfold at_most_once. rewrite typed_texts_app, (no_typing_texts a Ha).
  exact Hb.
Qed.

Lemma at_most_once_before (text : string) (a b : list event) :
  at_most_once text a -> Forall no_typing b -> at_most_once text (a ++ b).
Proof.
  intros Ha Hb. unfold at_most_once.
  rewrite typed_texts_app, (no_typing_texts b Hb), app_nil_r. exact Ha.
Qed.

Lemma quiet_at_most_once (text : string) (t : list event) :
  Forall no_typing t -> at_most_once text t.
Proof. intros H. left. apply no_typing_texts. exact H. Qed.

Lemma year_method_2_at_most_once (edit_texts : list handle) (birth_year : string)
    (s : state W) :
  at_most_once birth_year (trace_of (CompSteps.year_method_2 edit_texts birth_year s)).
Proof.
  unfold CompSteps.year_method_2.
  destruct edit_texts as [| first others].
  { left. reflexivity. }
  set (year_element := last others first).
  unfold try_catch at 1. unfold bind at 1. unfold cmd at 1. unfold call at 1.
  destruct (command_ (Click year_element) (world s)) as [[[] | e] w1].
  2:{ left. reflexivity. }
  unfold bind at 1.
  assert (Hd : emits (W := W) no_typing (repeat_ 20 (cmd (PressKeycode 67)))).
  { apply emits_repeat. unfold cmd. apply emits_call. intros []; exact I. }
  specialize (Hd (with_world s w1)).
  destruct (repeat_ 20 (cmd (PressKeycode 67)) (with_world s w1)) as [[[[] | e] s2] t2];
    cbn [trace_of snd] in Hd.
  2:{ cbn [ret trace_of snd app]. apply quiet_at_most_once. all_hold. }
  unfold try_catch, bind, cmd, subprocess_run, call, ret.
  destruct (command_ (SendKeys year_element birth_year) (world s2)) as [[[] | e] w3];
    cbn [world with_world trace_of snd fst].
  - apply (at_most_once_after birth_year (EvCmd (Click year_element) (Ret tt) :: t2)
             [EvCmd (SendKeys year_element birth_year) (Ret tt)]);
      [all_hold | right; reflexivity].
  - destruct (adb (InputText birth_year) w3) as [[status | e'] w4];
      cbn [trace_of snd fst app].
    + apply (at_most_once_after birth_year (EvCmd (Click year_element) (Ret tt) :: t2)
               [EvCmd (SendKeys year_element birth_year) (Exc e);
                EvAdb (InputText birth_year) (Ret status)]);
        [all_hold | right; reflexivity].
    + rewrite !app_nil_r.
      apply (at_most_once_after birth_year (EvCmd (Click year_element) (Ret tt) :: t2)
               [EvCmd (SendKeys year_element birth_year) (Exc e);
                EvAdb (InputText birth_year) (Exc e')]);
        [all_hold | left; reflexivity].
Qed.

Lemma find_elements_bulletproof_quiet by_ value timeout n :
  emits no_typing (Comp.find_elements_bulletproof by_ value timeout n).
Proof.
  unfold Comp.find_elements_bulletproof, Comp.find_elements_attempt, wait_find_elements.
  repeat first [ apply collect_displayed_emits; intros; exact I
               | apply emits_call; intros ?; exact I
               | emits_step ].
Qed.

Lemma enter_year_at_most_once (birth_year : string) (s : state W) :
  at_most_once birth_year (trace_of (CompSteps.enter_year birth_year s)).
Proof.
  unfold CompSteps.enter_year. unfold bind at 1.
  assert (Hq := find_elements_bulletproof_quiet CLASS_NAME "android.widget.EditText" 5 3 s).
  destruct (Comp.find_elements_bulletproof CLASS_NAME "android.widget.EditText" 5 3 s)
    as [[[edit_texts | e] s1] t1]; cbn [trace_of snd] in Hq |- *.
  2:{ apply quiet_at_most_once. exact Hq. }
  destruct edit_texts as [| first others].
  { cbn [ret app]. rewrite app_nil_r. apply quiet_at_most_once. exact Hq. }
  unfold bind at 1.
  destruct (type_text_bulletproof_outcome CLASS_NAME "android.widget.EditText"
              birth_year "Year Field (bulletproof)" s1) as (b & s2 & t2 & Heq & H2).
  rewrite Heq.
  destruct H2 as [(-> & pre & ev & -> & Hty & Hpre) | (-> & Hn)].
  - cbn [ret app]. rewrite app_nil_r.
    apply at_most_once_after; [exact Hq |].
    apply at_most_once_after; [exact Hpre |].
    right. apply is_typing_text. exact Hty.
  - assert (Hy := year_method_2_at_most_once (first :: others) birth_year s2).
    destruct (CompSteps.year_method_2 (first :: others) birth_year s2) as [[r3 s3] t3].
    cbn [trace_of snd] in Hy |- *.
    apply at_most_once_after; [exact Hq |].
    apply at_most_once_after; [exact Hn | exact Hy].
Qed.

(** X16.  step4_details_fixed hands over at most one text, the year:
    the dropdowns and the Next button type nothing, and the second
    method for the year is tried only when the first typed nothing, so
    the year is never typed twice. *)
Theorem step4_details_types_year_at_most_once
    (birth_day birth_month birth_year : string) (s : state W) :
  at_most_once birth_year
    (trace_of (CompSteps.step4_details_fixed birth_day birth_month birth_year s)).
Proof.
  unfold CompSteps.step4_details_fixed. unfold bind at 1.
  destruct (choose_from_dropdown_outcome CompSteps.day_selectors "Day Dropdown"
              birth_day s) as (r1 & s1 & t1 & Heq1 & H1).
  rewrite Heq1.
  assert (Hraised : forall e t, option_click_raised e t -> Forall no_typing t).
  { intros e t (pre & el & -> & Hpre & _). all_hold. }
  destruct r1 as [[] | e]; cbn [dropdown_trace] in H1.
  2:{ apply quiet_at_most_once. exact (Hraised e t1 H1). }
  unfold bind at 1.
  destruct (choose_from_dropdown_outcome CompSteps.month_selectors "Month Dropdown"
              birth_month s1) as (r2 & s2 & t2 & Heq2 & H2).
  rewrite Heq2.
  destruct r2 as [[] | e]; cbn [dropdown_trace] in H2.
  2:{ apply quiet_at_most_once. cbn [trace_of snd].
      apply Forall_app. split; [exact H1 | exact (Hraised e t2 H2)]. }
  unfold bind at 1.
  assert (Hy := enter_year_at_most_once birth_year s2).
  destruct (never_raises_run _ s2 (enter_year_never_raises birth_year))
    as ([] & s3 & t3 & Heq3).
  rewrite Heq3 in Hy |- *. cbn [trace_of snd] in Hy.
  assert (Hrest : emits (W := W) no_typing
                    (try_catch (cmd HideKeyboard) (fun _ => ret tt) ;;
                     CompSteps.click_next_production "Details")).
  { apply emits_bind.
    - unfold cmd. repeat first [ apply emits_call; intros ?; exact I | emits_step ].
    - intros _. apply click_next_production_emits; intros; exact I. }
  specialize (Hrest s3).
  destruct ((try_catch (cmd HideKeyboard) (fun _ => ret tt) ;;
             CompSteps.click_next_production "Details") s3) as [[r4 s4] t4].
  cbn [trace_of snd] in Hrest |- *.
  apply at_most_once_after; [exact H1 |].
  apply at_most_once_after; [exact H2 |].
  apply at_most_once_before; assumption.
Qed.

End DetailsTyping.
